(** * ATLAS Library server: a shallow embedding of [server.js]

    The development follows the source file top-down: the string helpers
    the handlers rely on, the persisted documents, the upload naming,
    the route handlers of the Render deployment, and (in [Module Free])
    the handlers of the Render-Free deployment where they differ.

    Modelling conventions.
    - Strings are [string], a character standing for one UTF-16 code
      unit below U+0100; the embedding covers ASCII text, for which
      [toLowerCase] and the regular-expression character classes of the
      source act character by character as written below.
    - JavaScript numbers that the handlers compute with (counters, sizes,
      views, offsets) are integers and are modelled in [Z].
    - A timestamp produced by [new Date().toISOString()] is modelled by
      its time value in milliseconds; [new Date(s)] on such a string
      gives that value back.
    - [null] and [undefined] of an optional field are both [None]; they
      are told apart only where the source does ([!== undefined] in the
      update route), by a nested option.
    - A persisted document is an [option]: [None] is a missing or
      unparsable file, for which [loadDB] returns [null].
    - Each request comes with an [Env.t]: the clock readings, the random
      bytes, whether [fs.writeFileSync] succeeds during the request, and
      on which blobs [fs.unlinkSync] throws.
    - [Array.prototype.sort] is the stable sort by its comparator;
      [String.prototype.localeCompare], a function of the host, is a
      parameter of the query engine.
    - The uploads directory is not part of the state modelled here; what
      a delete needs of it, whether [fs.unlinkSync] throws on the blob
      it is about to remove, is an input of the request
      ([Env.unlink_fails]). *)

From Stdlib Require Import ZArith NArith List Bool Ascii String Lia.
From Stdlib Require Import Permutation Sorted Strings.Byte OrdersEx.
From Stdlib Require Import RelationClasses DecimalString DecimalNat.
Import ListNotations.

Open Scope string_scope.
Open Scope list_scope.
Open Scope Z_scope.

(* ================================================================== *)
(** ** String helpers (String.prototype) *)

Fixpoint mapString (f : ascii -> ascii) (s : string) : string :=
  match s with
  | EmptyString => EmptyString
  | String c s' => String (f c) (mapString f s')
  end.

Definition inRange (lo hi : N) (c : ascii) : bool :=
  let n := N_of_ascii c in ((lo <=? n) && (n <=? hi))%N.

Definition isUpper (c : ascii) : bool := inRange 65 90 c.
Definition isLower (c : ascii) : bool := inRange 97 122 c.
Definition isDigit (c : ascii) : bool := inRange 48 57 c.

Definition toLowerChar (c : ascii) : ascii :=
  if isUpper c then ascii_of_N (N_of_ascii c + 32) else c.

(** [s.toLowerCase()] *)
Definition toLowerCase (s : string) : string := mapString toLowerChar s.

(** [s.startsWith(p)] *)
Definition startsWith (s p : string) : bool := String.prefix p s.

(** [s.includes(p)]: [p] occurs at some position of [s]. *)
Fixpoint includes (s p : string) : bool :=
  startsWith s p ||
  match s with
  | EmptyString => false
  | String _ s' => includes s' p
  end.

(** [s.endsWith(p)] *)
Fixpoint endsWith (s p : string) : bool :=
  String.eqb s p ||
  match s with
  | EmptyString => false
  | String _ s' => endsWith s' p
  end.

(** White space removed by [trim] and skipped by [parseInt]. *)
Definition isSpace (c : ascii) : bool :=
  let n := N_of_ascii c in ((n =? 32) || ((9 <=? n) && (n <=? 13)))%N.

Fixpoint trimStart (s : string) : string :=
  match s with
  | String c s' => if isSpace c then trimStart s' else s
  | EmptyString => EmptyString
  end.

Fixpoint trimEnd (s : string) : string :=
  match s with
  | EmptyString => EmptyString
  | String c s' =>
      match trimEnd s' with
      | EmptyString => if isSpace c then EmptyString else String c EmptyString
      | r => String c r
      end
  end.

(** [s.trim()] *)
Definition trim (s : string) : string := trimEnd (trimStart s).

(** [s.split(',')]: always at least one piece. *)
Fixpoint split (sep : ascii) (s : string) : list string :=
  match s with
  | EmptyString => [EmptyString]
  | String c s' =>
      if Ascii.eqb c sep then EmptyString :: split sep s'
      else match split sep s' with
           | p :: ps => String c p :: ps
           | [] => [String c EmptyString]
           end
  end.

(** [s.substring(0, n)] *)
Definition substring0 (n : nat) (s : string) : string := String.substring 0 n s.

(** A digit of a radix up to 36, lower case as [toString] prints it. *)
Definition digitChar (d : N) : ascii :=
  if (d <? 10)%N then ascii_of_N (48 + d) else ascii_of_N (87 + d).

(** [buf.toString('hex')] *)
Fixpoint toHex (bs : list byte) : string :=
  match bs with
  | [] => EmptyString
  | b :: bs' =>
      let n := Byte.to_N b in
      String (digitChar (n / 16)) (String (digitChar (n mod 16)) (toHex bs'))
  end.

Fixpoint digits36 (fuel : nat) (n : N) (acc : string) : string :=
  match fuel with
  | O => acc
  | S fuel' =>
      let acc' := String (digitChar (n mod 36)) acc in
      if (n / 36 =? 0)%N then acc' else digits36 fuel' (n / 36) acc'
  end.

(** [n.toString(36)] for a non-negative integer; the fuel, one more
    than the position of the highest bit, covers every digit, each step
    dividing by 36. *)
Definition toString36 (n : N) : string :=
  digits36 (S (N.to_nat (N.log2 n))) n EmptyString.

(** JavaScript truthiness of an optional string: [undefined], [null]
    and the empty string are falsy. *)
Definition truthy (o : option string) : bool :=
  match o with
  | Some s => negb (String.eqb s EmptyString)
  | None => false
  end.

(** [o || d] for a string default. *)
Definition orElse (o : option string) (d : string) : string :=
  match o with
  | Some s => if String.eqb s EmptyString then d else s
  | None => d
  end.

(** [o || null] *)
Definition orNull (o : option string) : option string :=
  if truthy o then o else None.

(** [n || 0] on a number. *)
Definition orZero (n : Z) : Z := if n =? 0 then 0 else n.

(* ================================================================== *)
(** ** Persisted documents *)

(** [req.file] as multer hands it to a handler. *)
Module File.
Record t := mk {
    originalname : string;
    filename : string;
    path : string;
    mimetype : string;
    size : Z
  }.
End File.

(** The [file] sub-record of an item. *)
Module FileInfo.
Record t := mk {
    originalName : string;
    filename : string;
    path : string;
    mimetype : string;
    size : Z
  }.
End FileInfo.

Module Item.
Record t := mk {
    id : string;
    type : string;
    fileType : option string;
    title : string;
    description : option string;
    url : option string;
    content : option string;
    category : string;
    tags : option (list string);
    country : option string;
    source : option string;
    file : option FileInfo.t;
    textPreview : option string;
    created : Z;
    updated : option Z;
    views : Z;
    starred : bool
  }.

Definition set_title (v : string) (i : t) : t :=
    mk (id i) (type i) (fileType i) v (description i) (url i) (content i)
       (category i) (tags i) (country i) (source i) (file i) (textPreview i)
       (created i) (updated i) (views i) (starred i).
Definition set_description (v : option string) (i : t) : t :=
    mk (id i) (type i) (fileType i) (title i) v (url i) (content i)
       (category i) (tags i) (country i) (source i) (file i) (textPreview i)
       (created i) (updated i) (views i) (starred i).
Definition set_content (v : option string) (i : t) : t :=
    mk (id i) (type i) (fileType i) (title i) (description i) (url i) v
       (category i) (tags i) (country i) (source i) (file i) (textPreview i)
       (created i) (updated i) (views i) (starred i).
Definition set_category (v : string) (i : t) : t :=
    mk (id i) (type i) (fileType i) (title i) (description i) (url i)
       (content i) v (tags i) (country i) (source i) (file i) (textPreview i)
       (created i) (updated i) (views i) (starred i).
Definition set_tags (v : option (list string)) (i : t) : t :=
    mk (id i) (type i) (fileType i) (title i) (description i) (url i)
       (content i) (category i) v (country i) (source i) (file i)
       (textPreview i) (created i) (updated i) (views i) (starred i).
Definition set_country (v : option string) (i : t) : t :=
    mk (id i) (type i) (fileType i) (title i) (description i) (url i)
       (content i) (category i) (tags i) v (source i) (file i)
       (textPreview i) (created i) (updated i) (views i) (starred i).
Definition set_source (v : option string) (i : t) : t :=
    mk (id i) (type i) (fileType i) (title i) (description i) (url i)
       (content i) (category i) (tags i) (country i) v (file i)
       (textPreview i) (created i) (updated i) (views i) (starred i).
Definition set_updated (v : option Z) (i : t) : t :=
    mk (id i) (type i) (fileType i) (title i) (description i) (url i)
       (content i) (category i) (tags i) (country i) (source i) (file i)
       (textPreview i) (created i) v (views i) (starred i).
Definition set_views (v : Z) (i : t) : t :=
    mk (id i) (type i) (fileType i) (title i) (description i) (url i)
       (content i) (category i) (tags i) (country i) (source i) (file i)
       (textPreview i) (created i) (updated i) v (starred i).
Definition set_starred (v : bool) (i : t) : t :=
    mk (id i) (type i) (fileType i) (title i) (description i) (url i)
       (content i) (category i) (tags i) (country i) (source i) (file i)
       (textPreview i) (created i) (updated i) (views i) v.
End Item.

Module Stats.
Record t := mk {
    totalItems : Z;
    totalFiles : Z;
    totalLinks : Z;
    totalSize : Z
  }.
End Stats.

(** The document of [library.json]. *)
Module Db.
Record t := mk {
    items : list Item.t;
    stats : Stats.t;
    lastUpdated : option Z
  }.
End Db.

Module Category.
Record t := mk {
    id : string;
    name : string;
    icon : string;
    color : string
  }.
End Category.

(* ================================================================== *)
(** ** Requests, responses and the environment of a request *)

Module Env.
Record t := mk {
    clock : nat -> Z;        (* the k-th reading of the clock *)
    entropy : nat -> byte;   (* the stream [crypto.randomBytes] draws from *)
    write_ok : bool;         (* [fs.writeFileSync] does not throw *)
    blob_text : option string; (* the stored blob read as utf8, if readable *)
    unlink_fails : string -> bool
      (* the path of this storage name under the uploads directory
         exists and [fs.unlinkSync] throws on it (a blob that may not
         be removed, or the directory itself, which the empty name
         gives) *)
  }.
End Env.

(** [crypto.randomBytes(n)] *)
Definition randomBytes (e : Env.t) (n : nat) : list byte :=
  map (Env.entropy e) (seq 0 n).

(** Body of [POST /api/library]. *)
Module CreateBody.
Record t := mk {
    title : option string;
    description : option string;
    type : option string;
    url : option string;
    content : option string;
    category : option string;
    tags : option (list string);
    country : option string;
    source : option string
  }.
End CreateBody.

(** Fields of the multipart body of [POST /api/library/upload];
    [tags] arrives as one comma-separated string or as an array. *)
Module UploadBody.
Record t := mk {
    title : option string;
    description : option string;
    category : option string;
    tags : option (string + list string);
    country : option string;
    source : option string
  }.
End UploadBody.

(** Body of [PUT /api/library/:id]: the outer option is "the key is
    present", the inner one (where there is one) a [null] value.  The
    first eight keys are the ones the route reads; [url] and [type]
    are keys of an item that a body may carry as well. *)
Module Patch.
Record t := mk {
    title : option string;
    description : option (option string);
    category : option string;
    tags : option (option (list string));
    country : option (option string);
    source : option (option string);
    content : option (option string);
    starred : option bool;
    url : option (option string);
    type : option string
  }.
End Patch.

(** Query string of [GET /api/library]. *)
Module Query.
Record t := mk {
    search : option string;
    category : option string;
    tag : option string;
    type : option string;
    sort : option string;
    limit : option string;
    offset : option string
  }.
End Query.

Inductive Body :=
| ErrorBody (error : string)
| ListBody (items : list Item.t) (total offset limit : Z) (stats : Stats.t)
| ItemBody (item : Item.t)
| SuccessItem (item : Item.t)
| Success
| SuccessCategory (category : Category.t)
| SearchBody (items : list Item.t) (total : Z) (query : option string).

(** What the caller gets: [res.status(s).json(b)], or the handler threw
    and Express answers with its own error page. *)
Inductive Response :=
| Json (status : Z) (body : Body)
| Uncaught.

(* ================================================================== *)
(** ** File upload config *)

(** The class [[a-zA-Z0-9.-]] of the storage file name. *)
Definition safeChar (c : ascii) : bool :=
  isLower c || isUpper c || isDigit c ||
  Ascii.eqb c "."%char || Ascii.eqb c "-"%char.

(** [originalname.replace(/[^a-zA-Z0-9.-]/g, '_')] *)
Definition safeName (originalname : string) : string :=
  mapString (fun c => if safeChar c then c else "_"%char) originalname.

(** [multer.diskStorage]'s [filename] callback. *)
Definition storageFilename (e : Env.t) (originalname : string) : string :=
  let uniqueId := toHex (randomBytes e 8) in
  uniqueId ++ "_" ++ safeName originalname.

(* ================================================================== *)
(** ** Helper functions *)

Definition loadDB {A : Type} (file : option A) : option A := file.

(** [saveDB] returns whether the write went through; a failed write
    leaves the document as it was. *)
Definition saveDB {A : Type} (e : Env.t) (file : option A) (data : A)
  : bool * option A :=
  if Env.write_ok e then (true, Some data) else (false, file).

Definition emptyStats : Stats.t := Stats.mk 0 0 0 0.

(** The library document [initDatabase] writes when there is none. *)
Definition initLibrary (now : Z) : Db.t := Db.mk [] emptyStats (Some now).

Definition defaultCategories : list Category.t :=
  [ Category.mk "conflicts" "Konflikte" "⚔️" "#ff3333";
    Category.mk "military" "Militär" "🎖️" "#ff6600";
    Category.mk "politics" "Politik" "🏛️" "#ffaa00";
    Category.mk "intelligence" "Intelligence" "🔍" "#00aaff";
    Category.mk "maps" "Karten" "🗺️" "#00ff00";
    Category.mk "reports" "Berichte" "📊" "#aa00ff";
    Category.mk "media" "Medien" "📰" "#ff00aa";
    Category.mk "other" "Sonstiges" "📁" "#666666" ].

(** [Date.now().toString(36) + crypto.randomBytes(4).toString('hex')] *)
Definition generateId (e : Env.t) : string :=
  toString36 (Z.to_N (Env.clock e 0)) ++ toHex (randomBytes e 4).

Definition getFileType (mimetype filename : string) : string :=
  if includes mimetype "pdf" then "pdf"
  else if includes mimetype "word" || endsWith filename ".doc"
          || endsWith filename ".docx" then "word"
  else if includes mimetype "excel" || includes mimetype "spreadsheet"
       then "excel"
  else if includes mimetype "powerpoint" || includes mimetype "presentation"
       then "powerpoint"
  else if startsWith mimetype "image/" then "image"
  else if startsWith mimetype "video/" then "video"
  else if startsWith mimetype "audio/" then "audio"
  else if includes mimetype "text" || includes mimetype "markdown" then "text"
  else "file".

Definition extractTextPreview (e : Env.t) (mimetype : string) : option string :=
  if startsWith mimetype "text/" || includes mimetype "json" then
    match Env.blob_text e with
    | Some content => Some (substring0 500 content)
    | None => None
    end
  else None.

(* ================================================================== *)
(** ** Array and number helpers *)

(** [arr.findIndex(p)]; [None] is the source's [-1]. *)
Fixpoint findIndex {A : Type} (p : A -> bool) (l : list A) : option nat :=
  match l with
  | [] => None
  | x :: l' =>
      if p x then Some O
      else match findIndex p l' with
           | Some k => Some (S k)
           | None => None
           end
  end.

(** [arr[k] = v] for an index inside the array. *)
Fixpoint setAt {A : Type} (k : nat) (v : A) (l : list A) : list A :=
  match l, k with
  | [], _ => []
  | _ :: l', O => v :: l'
  | x :: l', S k' => x :: setAt k' v l'
  end.

(** [arr.splice(k, 1)] *)
Fixpoint removeAt {A : Type} (k : nat) (l : list A) : list A :=
  match l, k with
  | [], _ => []
  | _ :: l', O => l'
  | x :: l', S k' => x :: removeAt k' l'
  end.

(** The object [arr.find(p)] returns is the array's own element: a
    write through it is a write to the first element satisfying [p]. *)
Fixpoint mutateFirst {A : Type} (p : A -> bool) (f : A -> A) (l : list A)
  : list A :=
  match l with
  | [] => []
  | x :: l' => if p x then f x :: l' else x :: mutateFirst p f l'
  end.

Definition relativeIndex (len i : Z) : Z :=
  if i <? 0 then Z.max (len + i) 0 else Z.min i len.

(** [arr.slice(start, end)] *)
Definition slice {A : Type} (l : list A) (start end_ : Z) : list A :=
  let len := Z.of_nat (List.length l) in
  let k := relativeIndex len start in
  let final := relativeIndex len end_ in
  firstn (Z.to_nat (final - k)) (skipn (Z.to_nat k) l).

Fixpoint insertBy {A : Type} (cmp : A -> A -> Z) (x : A) (l : list A)
  : list A :=
  match l with
  | [] => [x]
  | y :: l' => if cmp x y <=? 0 then x :: l else y :: insertBy cmp x l'
  end.

(** [arr.sort(cmp)]: the stable sort by a comparator, written as the
    insertion sort that keeps equal elements in their original order. *)
Fixpoint arraySort {A : Type} (cmp : A -> A -> Z) (l : list A) : list A :=
  match l with
  | [] => []
  | x :: l' => insertBy cmp x (arraySort cmp l')
  end.

Definition digitValue (radix : Z) (c : ascii) : option Z :=
  let n := Z.of_N (N_of_ascii c) in
  let v := if isDigit c then Some (n - 48)
           else if isLower c then Some (n - 87)
           else if isUpper c then Some (n - 55)
           else None in
  match v with
  | Some d => if d <? radix then Some d else None
  | None => None
  end.

Fixpoint parseDigits (radix : Z) (s : string) (acc : option Z) : option Z :=
  match s with
  | EmptyString => acc
  | String c s' =>
      match digitValue radix c with
      | Some d =>
          parseDigits radix s'
            (Some (match acc with Some a => a * radix + d | None => d end))
      | None => acc
      end
  end.

(** [parseInt(x)] of a query parameter; [None] is [NaN], which is also
    what an absent parameter gives. *)
Definition parseInt (o : option string) : option Z :=
  match o with
  | None => None
  | Some s =>
      let s1 := trimStart s in
      let '(sign, s2) :=
        match s1 with
        | String "-" r => (-1, r)
        | String "+" r => (1, r)
        | _ => (1, s1)
        end in
      let '(radix, s3) :=
        match s2 with
        | String "0" (String "x" r) => (16, r)
        | String "0" (String "X" r) => (16, r)
        | _ => (10, s2)
        end in
      match parseDigits radix s3 None with
      | Some n => Some (sign * n)
      | None => None
      end
  end.

(** [n || d] for a parsed number: [NaN] and [0] are falsy. *)
Definition numberOr (n : option Z) (d : Z) : Z :=
  match n with
  | Some v => if v =? 0 then d else v
  | None => d
  end.

Definition optEqb (o : option string) (s : string) : bool :=
  match o with
  | Some x => String.eqb x s
  | None => false
  end.

(* ================================================================== *)
(** ** API routes - library *)

(** [o?.toLowerCase().includes(s)] *)
Definition optIncludes (o : option string) (s : string) : bool :=
  match o with
  | Some x => includes (toLowerCase x) s
  | None => false
  end.

(** [item.tags?.some(t => t.toLowerCase().includes(s))] *)
Definition tagsSome (o : option (list string)) (s : string) : bool :=
  match o with
  | Some ts => existsb (fun t => includes (toLowerCase t) s) ts
  | None => false
  end.

(** [item.tags?.includes(tag)] *)
Definition tagsInclude (o : option (list string)) (tag : string) : bool :=
  match o with
  | Some ts => existsb (String.eqb tag) ts
  | None => false
  end.

(** The predicate of the [search] filter of [GET /api/library]. *)
Definition matchesSearch (s : string) (item : Item.t) : bool :=
  includes (toLowerCase (Item.title item)) s
  || optIncludes (Item.description item) s
  || tagsSome (Item.tags item) s
  || optIncludes (Item.content item) s.

(** [if (x) items = items.filter(p x)] *)
Definition filterIf (o : option string) (p : string -> Item.t -> bool)
  (items : list Item.t) : list Item.t :=
  match o with
  | Some x => if String.eqb x EmptyString then items else filter (p x) items
  | None => items
  end.

Definition filterItems (q : Query.t) (items : list Item.t) : list Item.t :=
  let items := filterIf (Query.search q)
                 (fun search => matchesSearch (toLowerCase search)) items in
  let items := filterIf (Query.category q)
                 (fun category item => String.eqb (Item.category item) category)
                 items in
  let items := filterIf (Query.tag q)
                 (fun tag item => tagsInclude (Item.tags item) tag) items in
  filterIf (Query.type q)
    (fun type item => String.eqb (Item.type item) type) items.

Definition byOldest (a b : Item.t) : Z := Item.created a - Item.created b.
Definition byNewest (a b : Item.t) : Z := Item.created b - Item.created a.

Section QueryEngine.

(** [a.localeCompare(b)]: the collation of the host's locale, negative,
    zero or positive. *)
Variable localeCompare : string -> string -> Z.

Definition byTitle (a b : Item.t) : Z :=
  localeCompare (Item.title a) (Item.title b).

Definition sortItems (sort : option string) (items : list Item.t)
  : list Item.t :=
  if optEqb sort "oldest" then arraySort byOldest items
  else if optEqb sort "title" then arraySort byTitle items
  else arraySort byNewest items.

(** [GET /api/library] *)
Definition listHandler (q : Query.t) (store : option Db.t) : Response :=
  match loadDB store with
  | None => Json 500 (ErrorBody "Database error")
  | Some db =>
      let items := sortItems (Query.sort q) (filterItems q (Db.items db)) in
      let total := Z.of_nat (List.length items) in
      let start := numberOr (parseInt (Query.offset q)) 0 in
      let count := numberOr (parseInt (Query.limit q)) 50 in
      let items := slice items start (start + count) in
      Json 200 (ListBody items total start count (Db.stats db))
  end.

End QueryEngine.

Definition hasId (id : string) (i : Item.t) : bool := String.eqb (Item.id i) id.

Definition bumpViews (item : Item.t) : Item.t :=
  Item.set_views (orZero (Item.views item) + 1) item.

(** [GET /api/library/:id] *)
Definition getHandler (e : Env.t) (id : string) (store : option Db.t)
  : Response * option Db.t :=
  match loadDB store with
  | None => (Json 404 (ErrorBody "Item not found"), store)
  | Some db =>
      match find (hasId id) (Db.items db) with
      | Some item =>
          let db' := Db.mk (mutateFirst (hasId id) bumpViews (Db.items db))
                       (Db.stats db) (Db.lastUpdated db) in
          let '(_, store') := saveDB e store db' in
          (Json 200 (ItemBody (bumpViews item)), store')
      | None => (Json 404 (ErrorBody "Item not found"), store)
      end
  end.

Definition listOr (o : option (list string)) : list string :=
  match o with
  | Some l => l
  | None => []
  end.

(** [POST /api/library] *)
Definition createHandler (e : Env.t) (body : CreateBody.t)
  (store : option Db.t) : Response * option Db.t :=
  let db := loadDB store in
  if negb (truthy (CreateBody.title body)) then
    (Json 400 (ErrorBody "Title required"), store)
  else
    let newItem :=
      Item.mk (generateId e)
        (orElse (CreateBody.type body) "note")
        None
        (orElse (CreateBody.title body) EmptyString)
        (Some (orElse (CreateBody.description body) EmptyString))
        (orNull (CreateBody.url body))
        (orNull (CreateBody.content body))
        (orElse (CreateBody.category body) "other")
        (Some (listOr (CreateBody.tags body)))
        (orNull (CreateBody.country body))
        (orNull (CreateBody.source body))
        None
        None
        (Env.clock e 1)
        None
        0
        false in
    match db with
    | None => (Uncaught, store)
    | Some db =>
        let st := Db.stats db in
        let st := Stats.mk (Stats.totalItems st + 1) (Stats.totalFiles st)
                    (if optEqb (CreateBody.type body) "link"
                     then Stats.totalLinks st + 1 else Stats.totalLinks st)
                    (Stats.totalSize st) in
        let db' := Db.mk (newItem :: Db.items db) st (Some (Env.clock e 2)) in
        let '(_, store') := saveDB e store db' in
        (Json 200 (SuccessItem newItem), store')
    end.

(** The [tags] of an upload: an array as it is, a string split at the
    commas and trimmed, none when absent or empty. *)
Definition uploadTags (o : option (string + list string)) : list string :=
  match o with
  | Some (inl s) =>
      if String.eqb s EmptyString then [] else map trim (split ","%char s)
  | Some (inr l) => l
  | None => []
  end.

(** [POST /api/library/upload], after multer has stored the blob. *)
Definition uploadHandler (e : Env.t) (file : option File.t)
  (body : UploadBody.t) (store : option Db.t) : Response * option Db.t :=
  match file with
  | None => (Json 400 (ErrorBody "No file uploaded"), store)
  | Some f =>
      let db := loadDB store in
      let fileType := getFileType (File.mimetype f) (File.originalname f) in
      let textPreview := extractTextPreview e (File.mimetype f) in
      let newItem :=
        Item.mk (generateId e)
          "file"
          (Some fileType)
          (orElse (UploadBody.title body) (File.originalname f))
          (Some (orElse (UploadBody.description body) EmptyString))
          None
          None
          (orElse (UploadBody.category body) "other")
          (Some (uploadTags (UploadBody.tags body)))
          (orNull (UploadBody.country body))
          (orNull (UploadBody.source body))
          (Some (FileInfo.mk (File.originalname f) (File.filename f)
                   ("/uploads/" ++ File.filename f) (File.mimetype f)
                   (File.size f)))
          textPreview
          (Env.clock e 1)
          None
          0
          false in
      match db with
      | None => (Uncaught, store)
      | Some db =>
          let st := Db.stats db in
          let st := Stats.mk (Stats.totalItems st + 1) (Stats.totalFiles st + 1)
                      (Stats.totalLinks st)
                      (Stats.totalSize st + File.size f) in
          let db' := Db.mk (newItem :: Db.items db) st (Some (Env.clock e 2)) in
          let '(_, store') := saveDB e store db' in
          (Json 200 (SuccessItem newItem), store')
      end
  end.

(** [if (v !== undefined) item.field = v] *)
Definition assignIf {V : Type} (o : option V) (set : V -> Item.t -> Item.t)
  (item : Item.t) : Item.t :=
  match o with
  | Some v => set v item
  | None => item
  end.

(** The assignments of the update route, in the order of the source. *)
Definition applyPatch (now : Z) (p : Patch.t) (item : Item.t) : Item.t :=
  let item := assignIf (Patch.title p) Item.set_title item in
  let item := assignIf (Patch.description p) Item.set_description item in
  let item := assignIf (Patch.category p) Item.set_category item in
  let item := assignIf (Patch.tags p) Item.set_tags item in
  let item := assignIf (Patch.country p) Item.set_country item in
  let item := assignIf (Patch.source p) Item.set_source item in
  let item := assignIf (Patch.content p) Item.set_content item in
  let item := assignIf (Patch.starred p) Item.set_starred item in
  Item.set_updated (Some now) item.

(** [PUT /api/library/:id] *)
Definition updateHandler (e : Env.t) (id : string) (p : Patch.t)
  (store : option Db.t) : Response * option Db.t :=
  match loadDB store with
  | None => (Uncaught, store)
  | Some db =>
      match findIndex (hasId id) (Db.items db) with
      | None => (Json 404 (ErrorBody "Item not found"), store)
      | Some index =>
          match nth_error (Db.items db) index with
          | None => (Uncaught, store)
          | Some item =>
              let item' := applyPatch (Env.clock e 0) p item in
              let db' := Db.mk (setAt index item' (Db.items db)) (Db.stats db)
                           (Some (Env.clock e 1)) in
              let '(_, store') := saveDB e store db' in
              (Json 200 (SuccessItem item'), store')
          end
      end
  end.

(** [if (fs.existsSync(filePath)) fs.unlinkSync(filePath)] for the blob
    of an item with a [file] sub-record: whether the call throws.  An
    item without one has no blob to remove. *)
Definition unlinkThrows (e : Env.t) (item : Item.t) : bool :=
  match Item.file item with
  | Some fi => Env.unlink_fails e (FileInfo.filename fi)
  | None => false
  end.

(** [DELETE /api/library/:id]: the blob is removed first, outside any
    [try], so a failing [fs.unlinkSync] ends the request before the
    document is touched. *)
Definition deleteHandler (e : Env.t) (id : string) (store : option Db.t)
  : Response * option Db.t :=
  match loadDB store with
  | None => (Uncaught, store)
  | Some db =>
      match findIndex (hasId id) (Db.items db) with
      | None => (Json 404 (ErrorBody "Item not found"), store)
      | Some index =>
          match nth_error (Db.items db) index with
          | None => (Uncaught, store)
          | Some item =>
              if unlinkThrows e item then (Uncaught, store)
              else
              let st := Db.stats db in
              let st :=
                match Item.file item with
                | Some fi =>
                    Stats.mk (Stats.totalItems st) (Stats.totalFiles st - 1)
                      (Stats.totalLinks st)
                      (Stats.totalSize st - FileInfo.size fi)
                | None => st
                end in
              let st :=
                if String.eqb (Item.type item) "link"
                then Stats.mk (Stats.totalItems st) (Stats.totalFiles st)
                       (Stats.totalLinks st - 1) (Stats.totalSize st)
                else st in
              let st := Stats.mk (Stats.totalItems st - 1) (Stats.totalFiles st)
                          (Stats.totalLinks st) (Stats.totalSize st) in
              let db' := Db.mk (removeAt index (Db.items db)) st
                           (Some (Env.clock e 0)) in
              let '(_, store') := saveDB e store db' in
              (Json 200 Success, store')
          end
      end
  end.

(* ================================================================== *)
(** ** API routes - categories *)

Module CategoryBody.
Record t := mk {
    name : option string;
    icon : option string;
    color : option string
  }.
End CategoryBody.

(** [name.toLowerCase().replace(/[^a-z0-9]/g, '-')], for a name of code
    units below U+0100: the regular expression replaces unit by unit,
    and a unit that is not ASCII ends as a hyphen whether or not
    lowercasing moves it (the capitals U+00C0 to U+00DE go to U+00E0
    to U+00FE, outside [[a-z0-9]] like themselves).  Names with code
    units from U+0100 on, among them U+0130, which the source's
    [toLowerCase] turns into two units, are not covered. *)
Definition slug (name : string) : string :=
  mapString (fun c => if isLower c || isDigit c then c else "-"%char)
    (toLowerCase name).

(** [POST /api/categories]; the document is its [categories] array. *)
Definition addCategoryHandler (e : Env.t) (body : CategoryBody.t)
  (store : option (list Category.t))
  : Response * option (list Category.t) :=
  let db := match loadDB store with Some d => d | None => [] end in
  match CategoryBody.name body with
  | None => (Uncaught, store)
  | Some name =>
      let newCategory :=
        Category.mk (slug name) name
          (orElse (CategoryBody.icon body) "📁")
          (orElse (CategoryBody.color body) "#666666") in
      let db' := db ++ [newCategory] in
      let '(_, store') := saveDB e store db' in
      (Json 200 (SuccessCategory newCategory), store')
  end.

(* ================================================================== *)
(** ** API routes - search, import *)

(** The predicate of [GET /api/search]. *)
Definition matchesQuery (searchLower : string) (item : Item.t) : bool :=
  includes (toLowerCase (Item.title item)) searchLower
  || optIncludes (Item.description item) searchLower
  || tagsSome (Item.tags item) searchLower
  || optIncludes (Item.content item) searchLower
  || optIncludes (Item.textPreview item) searchLower.

(** [GET /api/search] *)
Definition searchHandler (q : option string) (store : option Db.t)
  : Response :=
  match q with
  | Some s =>
      if String.eqb s EmptyString then Json 200 (SearchBody [] 0 None)
      else
        let searchLower := toLowerCase s in
        let items :=
          match loadDB store with
          | Some db => filter (matchesQuery searchLower) (Db.items db)
          | None => []
          end in
        Json 200
          (SearchBody (slice items 0 50) (Z.of_nat (List.length items)) q)
  | None => Json 200 (SearchBody [] 0 None)
  end.

(** The three documents on disk. *)
Module Disk.
Record t := mk {
    library : option Db.t;
    categories : option (list Category.t);
    tags : option (list string)
  }.
End Disk.

(** [if (doc) saveDB(file, doc)] *)
Definition saveIf {A : Type} (e : Env.t) (doc : option A) (file : option A)
  : option A :=
  match doc with
  | Some d => snd (saveDB e file d)
  | None => file
  end.

(** [POST /api/import]: [saveDB] never throws, so the [catch] branch
    of the source is never taken. *)
Definition importHandler (e : Env.t) (body : Disk.t) (disk : Disk.t)
  : Response * Disk.t :=
  (Json 200 Success,
   Disk.mk (saveIf e (Disk.library body) (Disk.library disk))
     (saveIf e (Disk.categories body) (Disk.categories disk))
     (saveIf e (Disk.tags body) (Disk.tags disk))).

(* ================================================================== *)
(** ** Further routes and helpers of the Render deployment *)

(** The answers of the routes below, all sent with status 200. *)
Inductive Reply :=
| TagsReply (tags : list string)
| CategoriesReply (categories : list Category.t)
| StatsReply (stats : option Stats.t) (categoryStats : list (string * Z))
    (lastUpdated : option Z)
| ExportReply (exportDate : Z) (library : option Db.t)
    (categories : option (list Category.t)) (tags : option (list string))
| FreeListReply (items : list Item.t) (total : Z) (stats : option Stats.t).

Definition allowedTypes : list string :=
  [ "application/pdf";
    "application/msword";
    "application/vnd.openxmlformats-officedocument.wordprocessingml.document";
    "application/vnd.ms-excel";
    "application/vnd.openxmlformats-officedocument.spreadsheetml.sheet";
    "application/vnd.ms-powerpoint";
    "application/vnd.openxmlformats-officedocument.presentationml.presentation";
    "text/plain";
    "text/html";
    "text/markdown";
    "image/jpeg";
    "image/png";
    "image/gif";
    "image/webp";
    "video/mp4";
    "audio/mpeg";
    "application/json";
    "application/zip" ].

(** multer's [fileFilter]: [true] accepts the file, [false] is the
    callback called with an error. *)
Definition fileFilter (mimetype : string) : bool :=
  existsb (String.eqb mimetype) allowedTypes || startsWith mimetype "text/".

Definition defaultTags : list string :=
  [ "Ukraine"; "Russia"; "Israel"; "Gaza"; "Syria"; "Iran"; "NATO"; "USA";
    "China"; "Important"; "Verified" ].

(** [if (!loadDB(file)) saveDB(file, doc)] *)
Definition initIf {A : Type} (e : Env.t) (file : option A) (doc : A)
  : option A :=
  match loadDB file with
  | Some _ => file
  | None => snd (saveDB e file doc)
  end.

(** [initDatabase], on the three documents. *)
Definition initDatabase (e : Env.t) (disk : Disk.t) : Disk.t :=
  Disk.mk (initIf e (Disk.library disk) (initLibrary (Env.clock e 0)))
    (initIf e (Disk.categories disk) defaultCategories)
    (initIf e (Disk.tags disk) defaultTags).

(** [GET /api/categories] *)
Definition categoriesHandler (store : option (list Category.t)) : Reply :=
  CategoriesReply (match loadDB store with Some d => d | None => [] end).

(** [GET /api/tags] *)
Definition tagsHandler (store : option (list string)) : Reply :=
  TagsReply (match loadDB store with Some d => d | None => [] end).

(** [POST /api/tags]: the answer carries the tags held in memory,
    written or not. *)
Definition addTagHandler (e : Env.t) (tag : option string)
  (store : option (list string)) : Reply * option (list string) :=
  let db := match loadDB store with Some d => d | None => [] end in
  if truthy tag && negb (existsb (String.eqb (orElse tag EmptyString)) db)
  then
    let db' := db ++ [orElse tag EmptyString] in
    let '(_, store') := saveDB e store db' in
    (TagsReply db', store')
  else (TagsReply db, store).

(** [obj[k] = v] on an object of numbers, kept as the list of its
    entries: an existing key keeps its place. *)
Fixpoint setKey (k : string) (v : Z) (obj : list (string * Z))
  : list (string * Z) :=
  match obj with
  | [] => [(k, v)]
  | (k', v') :: obj' =>
      if String.eqb k' k then (k, v) :: obj' else (k', v') :: setKey k v obj'
  end.


(** [db?.items.filter(i => i.category === id).length || 0] *)
Definition countInCategory (db : option Db.t) (id : string) : Z :=
  match db with
  | Some d =>
      Z.of_nat (List.length
        (filter (fun i => String.eqb (Item.category i) id) (Db.items d)))
  | None => 0
  end.

(** The [forEach] of the stats route over the categories. *)
Definition categoryStats (categories : option (list Category.t))
  (db : option Db.t) : list (string * Z) :=
  match categories with
  | Some cats =>
      fold_left
        (fun acc cat =>
           setKey (Category.id cat) (countInCategory db (Category.id cat)) acc)
        cats []
  | None => []
  end.


(** [GET /api/export] *)
Definition exportHandler (e : Env.t) (disk : Disk.t) : Reply :=
  ExportReply (Env.clock e 0) (loadDB (Disk.library disk))
    (loadDB (Disk.categories disk)) (loadDB (Disk.tags disk)).

(** The body of an import made of what an export answered. *)
Definition exportedBody (r : Reply) : Disk.t :=
  match r with
  | ExportReply _ library categories tags => Disk.mk library categories tags
  | _ => Disk.mk None None None
  end.

(* ================================================================== *)
(** ** The Render-Free deployment, where it differs *)

Module Free.

Definition storageFilename (e : Env.t) (originalname : string) : string :=
  let id := toHex (randomBytes e 8) in
  id ++ "_" ++
  mapString (fun c => if safeChar c then c else "_"%char) originalname.

Definition getFileType (mime : string) : string :=
  if includes mime "pdf" then "pdf"
  else if includes mime "word" then "word"
  else if includes mime "excel" || includes mime "spreadsheet" then "excel"
  else if startsWith mime "image/" then "image"
  else "file".

Definition emptyDb : Db.t := Db.mk [] emptyStats None.

(** [POST /api/library/upload]: a missing document is replaced by an
    empty one; [tags] is split without a test for an array. *)
Definition uploadHandler (e : Env.t) (file : option File.t)
  (body : UploadBody.t) (store : option Db.t) : Response * option Db.t :=
  match file with
  | None => (Json 400 (ErrorBody "No file"), store)
  | Some f =>
      let db := match loadDB store with Some d => d | None => emptyDb end in
      let tags :=
        match UploadBody.tags body with
        | Some (inl s) =>
            if String.eqb s EmptyString then Some []
            else Some (map trim (split ","%char s))
        | Some (inr _) => None
        | None => Some []
        end in
      match tags with
      | None => (Uncaught, store)
      | Some tags =>
          let newItem :=
            Item.mk (generateId e)
              "file"
              (Some (getFileType (File.mimetype f)))
              (orElse (UploadBody.title body) (File.originalname f))
              (Some (orElse (UploadBody.description body) EmptyString))
              None
              None
              (orElse (UploadBody.category body) "other")
              (Some tags)
              None
              None
              (Some (FileInfo.mk (File.originalname f) (File.filename f)
                       ("/uploads/" ++ File.filename f) (File.mimetype f)
                       (File.size f)))
              None
              (Env.clock e 1)
              None
              0
              false in
          let st := Db.stats db in
          let st := Stats.mk (Stats.totalItems st + 1) (Stats.totalFiles st + 1)
                      (Stats.totalLinks st)
                      (Stats.totalSize st + File.size f) in
          let db' := Db.mk (newItem :: Db.items db) st (Db.lastUpdated db) in
          let '(_, store') := saveDB e store db' in
          (Json 200 (SuccessItem newItem), store')
      end
  end.

Definition defaultTags : list string :=
  [ "Ukraine"; "Russia"; "Israel"; "Gaza"; "Syria"; "Iran"; "NATO";
    "Important" ].

(** [GET /api/library]: title search only, no sort parameter, no page. *)
Definition listHandler (q : Query.t) (store : option Db.t) : Reply :=
  let '(items, stats) :=
    match loadDB store with
    | Some db => (Db.items db, Some (Db.stats db))
    | None => ([], None)
    end in
  let items :=
    filterIf (Query.search q)
      (fun search i => includes (toLowerCase (Item.title i))
                         (toLowerCase search)) items in
  let items :=
    filterIf (Query.category q)
      (fun category i => String.eqb (Item.category i) category) items in
  let items :=
    filterIf (Query.type q)
      (fun type i => String.eqb (Item.type i) type) items in
  let items := arraySort byNewest items in
  FreeListReply items (Z.of_nat (List.length items)) stats.

(** [GET /api/library/:id] *)
Definition getHandler (e : Env.t) (id : string) (store : option Db.t)
  : Response * option Db.t :=
  match loadDB store with
  | None => (Json 404 (ErrorBody "Not found"), store)
  | Some db =>
      match find (hasId id) (Db.items db) with
      | Some item =>
          let db' := Db.mk (mutateFirst (hasId id) bumpViews (Db.items db))
                       (Db.stats db) (Db.lastUpdated db) in
          let '(_, store') := saveDB e store db' in
          (Json 200 (ItemBody (bumpViews item)), store')
      | None => (Json 404 (ErrorBody "Not found"), store)
      end
  end.

(** [POST /api/library]: a missing document is replaced by an empty
    one; [url], [content] and [source] are stored as given. *)
Definition createHandler (e : Env.t) (body : CreateBody.t)
  (store : option Db.t) : Response * option Db.t :=
  let db := match loadDB store with Some d => d | None => emptyDb end in
  if negb (truthy (CreateBody.title body)) then
    (Json 400 (ErrorBody "Title required"), store)
  else
    let newItem :=
      Item.mk (generateId e)
        (orElse (CreateBody.type body) "note")
        None
        (orElse (CreateBody.title body) EmptyString)
        (Some (orElse (CreateBody.description body) EmptyString))
        (CreateBody.url body)
        (CreateBody.content body)
        (orElse (CreateBody.category body) "other")
        (Some (listOr (CreateBody.tags body)))
        None
        (CreateBody.source body)
        None
        None
        (Env.clock e 1)
        None
        0
        false in
    let st := Db.stats db in
    let st := Stats.mk (Stats.totalItems st + 1) (Stats.totalFiles st)
                (if optEqb (CreateBody.type body) "link"
                 then Stats.totalLinks st + 1 else Stats.totalLinks st)
                (Stats.totalSize st) in
    let db' := Db.mk (newItem :: Db.items db) st (Db.lastUpdated db) in
    let '(_, store') := saveDB e store db' in
    (Json 200 (SuccessItem newItem), store').

(** The assignments of the update route: [country] and [source] are
    not read. *)
Definition applyPatch (now : Z) (p : Patch.t) (item : Item.t) : Item.t :=
  let item := assignIf (Patch.title p) Item.set_title item in
  let item := assignIf (Patch.description p) Item.set_description item in
  let item := assignIf (Patch.category p) Item.set_category item in
  let item := assignIf (Patch.tags p) Item.set_tags item in
  let item := assignIf (Patch.content p) Item.set_content item in
  let item := assignIf (Patch.starred p) Item.set_starred item in
  Item.set_updated (Some now) item.

(** [PUT /api/library/:id]: a missing document is a 404. *)
Definition updateHandler (e : Env.t) (id : string) (p : Patch.t)
  (store : option Db.t) : Response * option Db.t :=
  match loadDB store with
  | None => (Json 404 (ErrorBody "Not found"), store)
  | Some db =>
      match findIndex (hasId id) (Db.items db) with
      | None => (Json 404 (ErrorBody "Not found"), store)
      | Some index =>
          match nth_error (Db.items db) index with
          | None => (Uncaught, store)
          | Some item =>
              let item' := applyPatch (Env.clock e 0) p item in
              let db' := Db.mk (setAt index item' (Db.items db)) (Db.stats db)
                           (Db.lastUpdated db) in
              let '(_, store') := saveDB e store db' in
              (Json 200 (SuccessItem item'), store')
          end
      end
  end.

(** [DELETE /api/library/:id]: [fs.unlinkSync] runs inside a [try]
    whose [catch] is empty, so its failure changes nothing. *)
Definition deleteHandler (e : Env.t) (id : string) (store : option Db.t)
  : Response * option Db.t :=
  match loadDB store with
  | None => (Json 404 (ErrorBody "Not found"), store)
  | Some db =>
      match findIndex (hasId id) (Db.items db) with
      | None => (Json 404 (ErrorBody "Not found"), store)
      | Some index =>
          match nth_error (Db.items db) index with
          | None => (Uncaught, store)
          | Some item =>
              let st := Db.stats db in
              let st :=
                match Item.file item with
                | Some fi =>
                    Stats.mk (Stats.totalItems st) (Stats.totalFiles st - 1)
                      (Stats.totalLinks st)
                      (Stats.totalSize st - orZero (FileInfo.size fi))
                | None => st
                end in
              let st :=
                if String.eqb (Item.type item) "link"
                then Stats.mk (Stats.totalItems st) (Stats.totalFiles st)
                       (Stats.totalLinks st - 1) (Stats.totalSize st)
                else st in
              let st := Stats.mk (Stats.totalItems st - 1) (Stats.totalFiles st)
                          (Stats.totalLinks st) (Stats.totalSize st) in
              let db' := Db.mk (removeAt index (Db.items db)) st
                           (Db.lastUpdated db) in
              let '(_, store') := saveDB e store db' in
              (Json 200 Success, store')
          end
      end
  end.

End Free.

(* ================================================================== *)
(** ** Sequences of requests against the library document *)

Inductive Request :=
| Create (body : CreateBody.t)
| Upload (file : option File.t) (body : UploadBody.t)
| Delete (id : string)
| GetItem (id : string)
| Update (id : string) (p : Patch.t).

Definition step (e : Env.t) (r : Request) (store : option Db.t)
  : Response * option Db.t :=
  match r with
  | Create body => createHandler e body store
  | Upload file body => uploadHandler e file body store
  | Delete id => deleteHandler e id store
  | GetItem id => getHandler e id store
  | Update id p => updateHandler e id p store
  end.

(** The document left by a sequence of requests, each with its own
    environment, served one after the other. *)
Fixpoint run (rs : list (Env.t * Request)) (store : option Db.t)
  : option Db.t :=
  match rs with
  | [] => store
  | (e, r) :: rs' => run rs' (snd (step e r store))
  end.

(* ================================================================== *)
(** ** Counters recomputed from the items *)

Definition countIf (p : Item.t -> bool) (items : list Item.t) : Z :=
  Z.of_nat (List.length (filter p items)).

Definition isType (t : string) (i : Item.t) : bool :=
  String.eqb (Item.type i) t.

Definition hasFile (i : Item.t) : bool :=
  match Item.file i with
  | Some _ => true
  | None => false
  end.

Definition fileSize (i : Item.t) : Z :=
  match Item.file i with
  | Some f => FileInfo.size f
  | None => 0
  end.

Definition sumSizes (items : list Item.t) : Z :=
  fold_right (fun i acc => fileSize i + acc) 0 items.

(** The scan with files counted by their [type]. *)
Definition recountByType (items : list Item.t) : Stats.t :=
  Stats.mk (Z.of_nat (List.length items)) (countIf (isType "file") items)
    (countIf (isType "link") items) (sumSizes items).

(** The scan with files counted by their [file] sub-record, which is
    what the upload and delete routes go by. *)
Definition recount (items : list Item.t) : Stats.t :=
  Stats.mk (Z.of_nat (List.length items)) (countIf hasFile items)
    (countIf (isType "link") items) (sumSizes items).

(** Every item that carries a [file] sub-record has type ['file']. *)
Definition filesTyped (items : list Item.t) : Prop :=
  Forall (fun i => hasFile i = true -> Item.type i = "file") items.

Definition consistent (db : Db.t) : Prop :=
  Db.stats db = recount (Db.items db) /\ filesTyped (Db.items db).

(** The store invariant: a document that is there is consistent. *)
Definition storeOk (store : option Db.t) : Prop :=
  match store with
  | Some db => consistent db
  | None => True
  end.

(** The item a single-item read of [id] would find. *)
Definition lookup (id : string) (store : option Db.t) : option Item.t :=
  match store with
  | Some db => find (hasId id) (Db.items db)
  | None => None
  end.

(* ================================================================== *)
(** ** The vocabulary of the query properties *)

(** The decimal print of a natural number, as a query string carries
    it. *)
Definition decimal (n : nat) : string :=
  NilEmpty.string_of_uint (Nat.to_uint n).

(** The contiguous window [[offset, offset+limit)] of a sequence. *)
Definition window {A : Type} (offset limit : Z) (l : list A) : list A :=
  firstn (Z.to_nat limit) (skipn (Z.to_nat offset) l).

Definition createdGe (a b : Item.t) : Prop := Item.created a >= Item.created b.



(** [a] does not sort after [b] under a comparator. *)
Definition notAfterBy {A : Type} (cmp : A -> A -> Z) (a b : A) : Prop :=
  cmp a b <= 0.

(** A comparator that orders: any two elements compare one way or the
    other, and "not after" is transitive. *)
Definition consistentComparator {A : Type} (cmp : A -> A -> Z) : Prop :=
  (forall a b, cmp a b <= 0 \/ cmp b a <= 0)
  /\ (forall a b c, cmp a b <= 0 -> cmp b c <= 0 -> cmp a c <= 0).

(** [needle] is a case-insensitive substring of [hay]. *)
Definition ciContains (needle hay : string) : Prop :=
  exists pre post, toLowerCase hay = (pre ++ toLowerCase needle ++ post)%string.

(** The match of the search filter as the specification words it: the
    string occurs, case-insensitively, in the title, in the description,
    in some tag, or in the content; an absent field does not match. *)
Definition specMatch (needle : string) (it : Item.t) : Prop :=
  ciContains needle (Item.title it)
  \/ (exists d, Item.description it = Some d /\ ciContains needle d)
  \/ (exists ts t, Item.tags it = Some ts /\ In t ts /\ ciContains needle t)
  \/ (exists c, Item.content it = Some c /\ ciContains needle c).

Definition previewMatch (needle : string) (it : Item.t) : Prop :=
  exists t, Item.textPreview it = Some t /\ ciContains needle t.

(** The value of a field after an update: the one of the body when the
    key is present, the prior one otherwise. *)
Definition patched {V : Type} (o : option V) (old : V) : V :=
  match o with
  | Some v => v
  | None => old
  end.

(** The updated item: each of the eight fields the route reads ([title],
    [description], [category], [tags], [country], [source], [content],
    [starred]) overwritten when its key is present in the body,
    [updated] set, everything else as before, [url] and [type] among
    them whatever the body carries under those keys. *)
Definition patchedItem (now : Z) (p : Patch.t) (old : Item.t) : Item.t :=
  Item.mk (Item.id old) (Item.type old) (Item.fileType old)
    (patched (Patch.title p) (Item.title old))
    (patched (Patch.description p) (Item.description old))
    (Item.url old)
    (patched (Patch.content p) (Item.content old))
    (patched (Patch.category p) (Item.category old))
    (patched (Patch.tags p) (Item.tags old))
    (patched (Patch.country p) (Item.country old))
    (patched (Patch.source p) (Item.source old))
    (Item.file old) (Item.textPreview old) (Item.created old)
    (Some now) (Item.views old)
    (patched (Patch.starred p) (Item.starred old)).

(** The updated item as the specification words it: every field whose
    key is present in the body overwritten, [url] and [type] as well,
    [updated] set, everything else as before. *)
Definition overwritePresent (now : Z) (p : Patch.t) (old : Item.t) : Item.t :=
  Item.mk (Item.id old) (patched (Patch.type p) (Item.type old))
    (Item.fileType old)
    (patched (Patch.title p) (Item.title old))
    (patched (Patch.description p) (Item.description old))
    (patched (Patch.url p) (Item.url old))
    (patched (Patch.content p) (Item.content old))
    (patched (Patch.category p) (Item.category old))
    (patched (Patch.tags p) (Item.tags old))
    (patched (Patch.country p) (Item.country old))
    (patched (Patch.source p) (Item.source old))
    (Item.file old) (Item.textPreview old) (Item.created old)
    (Some now) (Item.views old)
    (patched (Patch.starred p) (Item.starred old)).

(** The slug as the specification words it: each character lowercased,
    then kept when it is a letter or a digit and replaced by a hyphen
    otherwise. *)
Definition slugSpec (name : string) : string :=
  mapString (fun c => let c' := toLowerChar c in
                      if isLower c' || isDigit c' then c' else "-"%char)
    name.

Definition hasCategoryId (id : string) (c : Category.t) : bool :=
  String.eqb (Category.id c) id.

Definition chars (s : string) : list ascii := list_ascii_of_string s.

(** A digit of [toString('hex')]. *)
Definition isHex (c : ascii) : bool := isDigit c || inRange 97 102 c.

(** The separators of a path, POSIX and Windows. *)
Definition isPathSeparator (c : ascii) : bool :=
  Ascii.eqb c "/"%char || Ascii.eqb c "\"%char.

(** A collation to instantiate [localeCompare] with: the order of the
    character codes. *)
Definition ordinalCompare (a b : string) : Z :=
  match String_as_OT.compare a b with
  | Lt => -1
  | Eq => 0
  | Gt => 1
  end.

(* ================================================================== *)
(** ** Sequences of requests against the Render-Free routes *)

Definition freeStep (e : Env.t) (r : Request) (store : option Db.t)
  : Response * option Db.t :=
  match r with
  | Create body => Free.createHandler e body store
  | Upload file body => Free.uploadHandler e file body store
  | Delete id => Free.deleteHandler e id store
  | GetItem id => Free.getHandler e id store
  | Update id p => Free.updateHandler e id p store
  end.

Fixpoint freeRun (rs : list (Env.t * Request)) (store : option Db.t)
  : option Db.t :=
  match rs with
  | [] => store
  | (e, r) :: rs' => freeRun rs' (snd (freeStep e r store))
  end.

(** A request the Render routes validate: a create carries a title, an
    upload carries a file. *)
Definition wellFormed (r : Request) : bool :=
  match r with
  | Create body => truthy (CreateBody.title body)
  | Upload file _ => match file with Some _ => true | None => false end
  | _ => true
  end.

(** An upload whose [tags] field arrived as an array. *)
Definition arrayTags (r : Request) : bool :=
  match r with
  | Upload (Some _) body =>
      match UploadBody.tags body with
      | Some (inr _) => true
      | _ => false
      end
  | _ => false
  end.

(** A query parameter that is given (present and not empty) must
    satisfy [p]; one that is not given asks for nothing. *)
Definition whenGiven (o : option string) (p : string -> bool) : bool :=
  match o with
  | Some x => if String.eqb x EmptyString then true else p x
  | None => true
  end.

(** An item passes every filter the query gives. *)
Definition passes (q : Query.t) (it : Item.t) : bool :=
  whenGiven (Query.search q) (fun s => matchesSearch (toLowerCase s) it)
  && whenGiven (Query.category q) (fun c => String.eqb (Item.category it) c)
  && whenGiven (Query.tag q) (fun t => tagsInclude (Item.tags it) t)
  && whenGiven (Query.type q) (fun t => String.eqb (Item.type it) t).

(** The filters the Render-Free list reads: title, category, type. *)
Definition freePasses (q : Query.t) (it : Item.t) : bool :=
  whenGiven (Query.search q)
    (fun s => includes (toLowerCase (Item.title it)) (toLowerCase s))
  && whenGiven (Query.category q) (fun c => String.eqb (Item.category it) c)
  && whenGiven (Query.type q) (fun t => String.eqb (Item.type it) t).

(** The list a taxonomy route works on: the stored one, or the empty
    list when the document is missing. *)
Definition storedList {A : Type} (store : option (list A)) : list A :=
  match store with
  | Some d => d
  | None => []
  end.





Definition isAscii (c : ascii) : bool := (N_of_ascii c <? 128)%N.

(** [toLowerCase] on one code unit below U+0100: the letters A to Z
    and the Latin-1 capitals U+00C0 to U+00DE, the sign U+00D7 apart,
    move up by 32; every other unit stays. *)
Definition toLowerLatin1 (c : ascii) : ascii :=
  let n := N_of_ascii c in
  if isUpper c || (inRange 192 222 c && negb (n =? 215)%N)
  then ascii_of_N (n + 32)
  else c.

(** The slug with the lowercasing of all of Latin-1. *)
Definition slugLatin1 (name : string) : string :=
  mapString (fun c => if isLower c || isDigit c then c else "-"%char)
    (mapString toLowerLatin1 name).

(** The class [[a-z0-9-]] of a slug. *)
Definition slugClass (c : ascii) : bool :=
  isLower c || isDigit c || Ascii.eqb c "-"%char.

(** A character the storage name keeps: of [[A-Za-z0-9.-]], or the
    underscore itself. *)
Definition keptChar (c : ascii) : bool := safeChar c || Ascii.eqb c "_"%char.

(** What the slug makes of one character. *)
Definition slugChar (c : ascii) : ascii :=
  let c' := toLowerChar c in
  if isLower c' || isDigit c' then c' else "-"%char.

Definition startsWithSpace (s : string) : bool :=
  match s with
  | String c _ => isSpace c
  | EmptyString => false
  end.

Fixpoint endsWithSpace (s : string) : bool :=
  match s with
  | EmptyString => false
  | String c EmptyString => isSpace c
  | String _ s' => endsWithSpace s'
  end.

(** The number of occurrences of a character. *)
Definition countChar (c : ascii) (s : string) : nat :=
  List.length (filter (Ascii.eqb c) (chars s)).

(** A tag as the upload route stores it when [tags] came as a string:
    without a comma and without white space at either end. *)
Definition cleanTag (t : string) : Prop :=
  ~ In ","%char (chars t)
  /\ startsWithSpace t = false /\ endsWithSpace t = false.

(** The value of a digit of [toString(36)], and of a string of them
    read from the left. *)
Definition digit36 (c : ascii) : N :=
  match digitValue 36 c with
  | Some d => Z.to_N d
  | None => 0%N
  end.

Fixpoint decode36 (acc : N) (s : string) : N :=
  match s with
  | EmptyString => acc
  | String c s' => decode36 (acc * 36 + digit36 c) s'
  end.

(** Two library documents with the same items and the same counters. *)
Definition sameContent (s1 s2 : option Db.t) : Prop :=
  option_map Db.items s1 = option_map Db.items s2
  /\ option_map Db.stats s1 = option_map Db.stats s2.

(** The document an import writes over another: the imported one when
    there is one, the other as it is when there is none. *)
Definition orDoc {A : Type} (imported other : option A) : option A :=
  match imported with
  | Some _ => imported
  | None => other
  end.

Definition isSome {A : Type} (o : option A) : bool :=
  match o with
  | Some _ => true
  | None => false
  end.

(* ================================================================== *)
(** ** Sample data *)

Definition sampleEnv : Env.t :=
  Env.mk (fun k => 1700000000000 + Z.of_nat k) (fun _ => x2a%byte) true None
    (fun _ => false).

Definition failingEnv : Env.t :=
  Env.mk (fun k => 1700000000000 + Z.of_nat k) (fun _ => x2a%byte) false None
    (fun _ => false).

Definition noteBody (title : string) (type : option string) : CreateBody.t :=
  CreateBody.mk (Some title) None type None None None None None None.

Definition emptyUpload : UploadBody.t :=
  UploadBody.mk None None None None None None.

Definition sampleFile : File.t :=
  File.mk "report.pdf" "2a2a2a2a2a2a2a2a_report.pdf"
    "/var/data/uploads/2a2a2a2a2a2a2a2a_report.pdf" "application/pdf" 1024.

Definition sampleNote : Item.t :=
  Item.mk "a1" "note" None "Report A" (Some "") None None "other" (Some [])
    None None None None 1700000000001 None 0 false.

Definition sampleLibrary : Db.t :=
  Db.mk [sampleNote] (Stats.mk 1 0 0 0) (Some 1700000000002).

Definition sampleLink : Item.t :=
  Item.mk "b2" "link" None "Atlas" (Some "Maps of UKRAINE") (Some "http://x")
    None "maps" (Some ["Europe"]) None None None None 1700000000100 None 0
    false.

Definition sampleUpload : Item.t :=
  Item.mk "c3" "file" (Some "text") "notes.txt" (Some "") None None "other"
    (Some []) None None
    (Some (FileInfo.mk "notes.txt" "2a2a2a2a2a2a2a2a_notes.txt"
             "/uploads/2a2a2a2a2a2a2a2a_notes.txt" "text/plain" 14))
    (Some "Ukraine report") 1700000000050 None 0 false.

Definition sampleItems : list Item.t := [sampleLink; sampleUpload; sampleNote].

Definition sampleCatalog : Db.t :=
  Db.mk sampleItems (Stats.mk 3 1 1 14) (Some 1700000000101).

(** The sample items stored in an order that is none of the sorted ones. *)
Definition shuffledCatalog : Db.t :=
  Db.mk [sampleUpload; sampleLink; sampleNote] (Stats.mk 3 1 1 14)
    (Some 1700000000101).

(** 120 notes, created one millisecond apart. *)
Definition numberedNote (k : nat) : Item.t :=
  Item.mk (toString36 (N.of_nat k)) "note" None "Report" (Some "") None None
    "reports" (Some []) None None None None (Z.of_nat k) None 0 false.

Definition manyNotes : list Item.t := map numberedNote (seq 0 120).

Definition bigCatalog : Db.t :=
  Db.mk manyNotes (Stats.mk 120 0 0 0) (Some 120).

Definition noQuery : Query.t := Query.mk None None None None None None None.

Definition pageQuery (sort limit offset : option string) : Query.t :=
  Query.mk None None None None sort limit offset.

Definition searchQuery (search : string) : Query.t :=
  Query.mk (Some search) None None None None None None.

Definition titlePatch (title : string) : Patch.t :=
  Patch.mk (Some title) None None None None None None None None None.

(** The body [{url: "http://y"}]. *)
Definition urlPatch : Patch.t :=
  Patch.mk None None None None None None None None (Some (Some "http://y"))
    None.

(** The name "Milit", U+00E4, "r". *)
Definition militaer : string := "Milit" ++ String (ascii_of_N 228) "r".

Definition mapsBody : CategoryBody.t :=
  CategoryBody.mk (Some "Maps") None None.

Definition sampleDisk : Disk.t :=
  Disk.mk (Some sampleLibrary) (Some defaultCategories) (Some ["Ukraine"]).

Definition importBody : Disk.t :=
  Disk.mk (Some sampleCatalog) None (Some []).

Definition laterEnv : Env.t :=
  Env.mk (fun k => 1700000005000 + Z.of_nat k) (fun _ => x07%byte) true None
    (fun _ => false).

Definition twoReports : option Db.t :=
  run [(sampleEnv, Create (noteBody "Report B" None));
       (laterEnv, Create (noteBody "Report A" (Some "link")))]
      (Some (initLibrary 0)).

Definition fullQuery : Query.t :=
  Query.mk (Some "ukraine") (Some "maps") (Some "Europe") (Some "link")
    None None None.

Definition catalogDisk : Disk.t :=
  Disk.mk (Some sampleCatalog) (Some defaultCategories) (Some defaultTags).

Definition previewEnv : Env.t :=
  Env.mk (fun k => 1700000009000 + Z.of_nat k) (fun _ => x2a%byte) true
    (Some "{}") (fun _ => false).

(** A request during which the blob of [sampleUpload] exists and cannot
    be unlinked. *)
Definition stuckEnv : Env.t :=
  Env.mk (fun k => 1700000000000 + Z.of_nat k) (fun _ => x2a%byte) true None
    (fun name => String.eqb name "2a2a2a2a2a2a2a2a_notes.txt").

(* ================================================================== *)
(** * Properties *)

(** ** Counters *)

Lemma countIf_cons (p : Item.t -> bool) (x : Item.t) (l : list Item.t) :
  countIf p (x :: l) = (if p x then 1 else 0) + countIf p l.
Proof.
  unfold countIf. cbn [filter]. destruct (p x); cbn [List.length]; lia.
Qed.

Lemma sumSizes_cons (x : Item.t) (l : list Item.t) :
  sumSizes (x :: l) = fileSize x + sumSizes l.
Proof. reflexivity. Qed.

Lemma recount_cons (x : Item.t) (l : list Item.t) :
  recount (x :: l) =
  Stats.mk (Stats.totalItems (recount l) + 1)
    (Stats.totalFiles (recount l) + (if hasFile x then 1 else 0))
    (Stats.totalLinks (recount l) + (if isType "link" x then 1 else 0))
    (Stats.totalSize (recount l) + fileSize x).
Proof.
  unfold recount. rewrite !countIf_cons, sumSizes_cons.
  cbn [List.length Stats.totalItems Stats.totalFiles Stats.totalLinks
       Stats.totalSize].
  rewrite Nat2Z.inj_succ. f_equal; lia.
Qed.

Lemma removeAt_length {A : Type} (l : list A) :
  forall k x, nth_error l k = Some x ->
  Z.of_nat (List.length (removeAt k l)) = Z.of_nat (List.length l) - 1.
Proof.
  induction l as [|y l IH]; intros [|k] x H; cbn [nth_error] in H;
    try discriminate; cbn [removeAt List.length].
  - lia.
  - rewrite !Nat2Z.inj_succ, (IH k x H). lia.
Qed.

Lemma countIf_removeAt (p : Item.t -> bool) (l : list Item.t) :
  forall k x, nth_error l k = Some x ->
  countIf p (removeAt k l) = countIf p l - (if p x then 1 else 0).
Proof.
  induction l as [|y l IH]; intros [|k] x H; simpl in H; try discriminate.
  - injection H as ->. simpl removeAt. rewrite countIf_cons. lia.
  - simpl removeAt. rewrite !countIf_cons, (IH k x H). lia.
Qed.

Lemma sumSizes_removeAt (l : list Item.t) :
  forall k x, nth_error l k = Some x ->
  sumSizes (removeAt k l) = sumSizes l - fileSize x.
Proof.
  induction l as [|y l IH]; intros [|k] x H; simpl in H; try discriminate.
  - injection H as ->. simpl removeAt. rewrite sumSizes_cons. lia.
  - simpl removeAt. rewrite !sumSizes_cons, (IH k x H). lia.
Qed.

Lemma recount_setAt (l : list Item.t) (x' : Item.t) :
  forall k x, nth_error l k = Some x ->
  Item.file x' = Item.file x -> Item.type x' = Item.type x ->
  recount (setAt k x' l) = recount l.
Proof.
  induction l as [|y l IH]; intros [|k] x H Hf Ht; simpl in H;
    try discriminate.
  - injection H as ->. unfold recount. simpl setAt.
    rewrite !countIf_cons, !sumSizes_cons.
    unfold hasFile, isType, fileSize. rewrite Hf, Ht. reflexivity.
  - specialize (IH k x H Hf Ht). unfold recount in *. simpl setAt.
    rewrite !countIf_cons, !sumSizes_cons. simpl List.length.
    injection IH as H1 H2 H3 H4. rewrite H2, H3, H4.
    f_equal. lia.
Qed.

Lemma recount_mutateFirst (q : Item.t -> bool) (f : Item.t -> Item.t) :
  (forall x, Item.file (f x) = Item.file x) ->
  (forall x, Item.type (f x) = Item.type x) ->
  forall l, recount (mutateFirst q f l) = recount l.
Proof.
  intros Hf Ht. induction l as [|y l IH]; [reflexivity|].
  simpl. destruct (q y).
  - unfold recount. rewrite !countIf_cons, !sumSizes_cons.
    unfold hasFile, isType, fileSize. rewrite Hf, Ht. reflexivity.
  - unfold recount in *. rewrite !countIf_cons, !sumSizes_cons.
    simpl List.length. injection IH as H1 H2 H3 H4. rewrite H2, H3, H4.
    f_equal. lia.
Qed.

Lemma filesTyped_removeAt (l : list Item.t) :
  forall k, filesTyped l -> filesTyped (removeAt k l).
Proof.
  unfold filesTyped.
  induction l as [|y l IH]; intros [|k] H; simpl; auto;
    inversion H; subst; auto.
Qed.

Lemma filesTyped_setAt (l : list Item.t) (x' : Item.t) :
  forall k x, nth_error l k = Some x ->
  Item.file x' = Item.file x -> Item.type x' = Item.type x ->
  filesTyped l -> filesTyped (setAt k x' l).
Proof.
  unfold filesTyped.
  induction l as [|y l IH]; intros [|k] x H Hf Ht HF; simpl in *;
    try discriminate; inversion HF; subst.
  - injection H as ->. constructor; auto.
    unfold hasFile in *. rewrite Hf, Ht. assumption.
  - constructor; eauto.
Qed.

Lemma filesTyped_mutateFirst (q : Item.t -> bool) (f : Item.t -> Item.t) :
  (forall x, Item.file (f x) = Item.file x) ->
  (forall x, Item.type (f x) = Item.type x) ->
  forall l, filesTyped l -> filesTyped (mutateFirst q f l).
Proof.
  intros Hf Ht. unfold filesTyped.
  induction l as [|y l IH]; intros H; simpl; auto.
  inversion H; subst. destruct (q y); constructor; auto.
  unfold hasFile in *. rewrite Hf, Ht. assumption.
Qed.

Lemma findIndex_nth {A : Type} (p : A -> bool) (l : list A) :
  forall k, findIndex p l = Some k ->
  exists x, nth_error l k = Some x /\ p x = true.
Proof.
  induction l as [|y l IH]; intros k H; simpl in H; [discriminate|].
  destruct (p y) eqn:Hp.
  - injection H as <-. exists y. auto.
  - destruct (findIndex p l) as [j|] eqn:Hj; [|discriminate].
    injection H as <-. simpl. apply IH. reflexivity.
Qed.

Lemma applyPatch_file (now : Z) (p : Patch.t) (x : Item.t) :
  Item.file (applyPatch now p x) = Item.file x.
Proof. destruct p as [[] [] [] [] [] [] [] [] ? ?]; reflexivity. Qed.

Lemma applyPatch_type (now : Z) (p : Patch.t) (x : Item.t) :
  Item.type (applyPatch now p x) = Item.type x.
Proof. destruct p as [[] [] [] [] [] [] [] [] ? ?]; reflexivity. Qed.

Lemma saveDB_ok (e : Env.t) (store : option Db.t) (db' : Db.t) :
  storeOk store -> consistent db' -> storeOk (snd (saveDB e store db')).
Proof. unfold saveDB. destruct (Env.write_ok e); simpl; auto. Qed.

Lemma createHandler_ok (e : Env.t) (body : CreateBody.t) (store : option Db.t) :
  storeOk store -> storeOk (snd (createHandler e body store)).
Proof.
  intros H. unfold createHandler.
  destruct (negb (truthy (CreateBody.title body))); [exact H|].
  destruct store as [db|]; [|exact I]. unfold loadDB; cbv beta iota.
  match goal with |- context [saveDB e ?s ?d] =>
    pose proof (saveDB_ok e s d H) as Hs; destruct (saveDB e s d) as [b s'] end.
  cbn [snd] in *. apply Hs. destruct H as [Hst Hft].
  split; cbn [Db.items Db.stats].
  - rewrite Hst, recount_cons.
    unfold hasFile, fileSize, isType. cbn [Item.file Item.type].
    assert (Hty : String.eqb (orElse (CreateBody.type body) "note") "link"
                  = optEqb (CreateBody.type body) "link").
    { destruct (CreateBody.type body) as [t|]; simpl; [|reflexivity].
      destruct (String.eqb t "") eqn:Ht.
      - apply String.eqb_eq in Ht. subst. reflexivity.
      - reflexivity. }
    rewrite Hty. destruct (optEqb (CreateBody.type body) "link");
      f_equal; lia.
  - constructor; [|exact Hft]. cbn. discriminate.
Qed.

Lemma uploadHandler_ok (e : Env.t) (file : option File.t)
  (body : UploadBody.t) (store : option Db.t) :
  storeOk store -> storeOk (snd (uploadHandler e file body store)).
Proof.
  intros H. unfold uploadHandler. destruct file as [f|]; [|exact H].
  destruct store as [db|]; [|exact I]. unfold loadDB; cbv beta iota.
  match goal with |- context [saveDB e ?s ?d] =>
    pose proof (saveDB_ok e s d H) as Hs; destruct (saveDB e s d) as [b s'] end.
  cbn [snd] in *. apply Hs. destruct H as [Hst Hft].
  split; cbn [Db.items Db.stats].
  - rewrite Hst, recount_cons.
    unfold hasFile, fileSize, isType. cbn [Item.file Item.type FileInfo.size].
    change (String.eqb "file" "link") with false. cbv iota. f_equal; lia.
  - constructor; [|exact Hft]. reflexivity.
Qed.

Lemma deleteHandler_ok (e : Env.t) (id : string) (store : option Db.t) :
  storeOk store -> storeOk (snd (deleteHandler e id store)).
Proof.
  intros H. unfold deleteHandler. destruct store as [db|]; [|exact I].
  unfold loadDB; cbv beta iota.
  destruct (findIndex (hasId id) (Db.items db)) as [k|] eqn:Hk; [|exact H].
  destruct (findIndex_nth _ _ _ Hk) as [x [Hx _]]. rewrite Hx.
  destruct (unlinkThrows e x); [exact H|].
  match goal with |- context [saveDB e ?s ?d] =>
    pose proof (saveDB_ok e s d H) as Hs; destruct (saveDB e s d) as [b s'] end.
  cbn [snd] in *. apply Hs. destruct H as [Hst Hft].
  split; cbn [Db.items Db.stats].
  - rewrite Hst. unfold recount.
    rewrite (removeAt_length _ _ _ Hx), !(countIf_removeAt _ _ _ _ Hx),
      (sumSizes_removeAt _ _ _ Hx).
    unfold hasFile, fileSize, isType.
    destruct (Item.file x); destruct (String.eqb (Item.type x) "link");
      cbn [Stats.totalItems Stats.totalFiles Stats.totalLinks Stats.totalSize];
      f_equal; lia.
  - apply filesTyped_removeAt, Hft.
Qed.

Lemma getHandler_ok (e : Env.t) (id : string) (store : option Db.t) :
  storeOk store -> storeOk (snd (getHandler e id store)).
Proof.
  intros H. unfold getHandler. destruct store as [db|]; [|exact I].
  unfold loadDB; cbv beta iota.
  destruct (find (hasId id) (Db.items db)) as [x|]; [|exact H].
  match goal with |- context [saveDB e ?s ?d] =>
    pose proof (saveDB_ok e s d H) as Hs; destruct (saveDB e s d) as [b s'] end.
  cbn [snd] in *. apply Hs. destruct H as [Hst Hft].
  split; cbn [Db.items Db.stats].
  - rewrite recount_mutateFirst; auto.
  - apply filesTyped_mutateFirst; auto.
Qed.

Lemma updateHandler_ok (e : Env.t) (id : string) (p : Patch.t)
  (store : option Db.t) :
  storeOk store -> storeOk (snd (updateHandler e id p store)).
Proof.
  intros H. unfold updateHandler. destruct store as [db|]; [|exact I].
  unfold loadDB; cbv beta iota.
  destruct (findIndex (hasId id) (Db.items db)) as [k|] eqn:Hk; [|exact H].
  destruct (findIndex_nth _ _ _ Hk) as [x [Hx _]]. rewrite Hx.
  match goal with |- context [saveDB e ?s ?d] =>
    pose proof (saveDB_ok e s d H) as Hs; destruct (saveDB e s d) as [b s'] end.
  cbn [snd] in *. apply Hs. destruct H as [Hst Hft].
  split; cbn [Db.items Db.stats].
  - rewrite (recount_setAt _ _ _ _ Hx); auto using applyPatch_file, applyPatch_type.
  - apply (filesTyped_setAt _ _ _ _ Hx); auto using applyPatch_file, applyPatch_type.
Qed.

Lemma step_ok (e : Env.t) (r : Request) (store : option Db.t) :
  storeOk store -> storeOk (snd (step e r store)).
Proof.
  destruct r; simpl;
    auto using createHandler_ok, uploadHandler_ok, deleteHandler_ok,
      getHandler_ok, updateHandler_ok.
Qed.

(** No route of the library removes the document. *)
Lemma step_keeps_document (e : Env.t) (r : Request) (db : Db.t) :
  exists db', snd (step e r (Some db)) = Some db'.
Proof.
  destruct r; cbn [step];
    unfold createHandler, uploadHandler, deleteHandler, getHandler,
      updateHandler, saveDB, loadDB; cbv beta iota.
  - destruct (negb (truthy (CreateBody.title body)));
      [|destruct (Env.write_ok e)]; eexists; reflexivity.
  - destruct file; [destruct (Env.write_ok e)|]; eexists; reflexivity.
  - destruct (findIndex (hasId id) (Db.items db));
      [destruct (nth_error (Db.items db) n) as [x|];
       [destruct (unlinkThrows e x); [|destruct (Env.write_ok e)]|]|];
      eexists; reflexivity.
  - destruct (find (hasId id) (Db.items db)); [destruct (Env.write_ok e)|];
      eexists; reflexivity.
  - destruct (findIndex (hasId id) (Db.items db));
      [destruct (nth_error (Db.items db) n); [destruct (Env.write_ok e)|]|];
      eexists; reflexivity.
Qed.

Lemma run_ok (rs : list (Env.t * Request)) :
  forall db, consistent db ->
  exists db', run rs (Some db) = Some db' /\ consistent db'.
Proof.
  induction rs as [|[e r] rs IH]; intros db H; simpl.
  - eauto.
  - destruct (step_keeps_document e r db) as [db1 H1].
    pose proof (step_ok e r (Some db) H) as H2. rewrite H1 in *.
    apply IH. exact H2.
Qed.

(** C1, as amended: after any sequence of create, upload, delete (and
    also single-item read and update) requests served from the empty
    library, whatever the writes did, the stored counters equal the
    scan of the stored items: [totalItems] their number, [totalFiles]
    the number of items with a [file] sub-record, [totalLinks] the
    number of items of type ['link'], [totalSize] the sum of
    [file.size]; and every item with a [file] sub-record has type
    ['file']. *)
Theorem stats_match_scan (rs : list (Env.t * Request)) (now : Z) :
  exists db, run rs (Some (initLibrary now)) = Some db
    /\ Db.stats db = recount (Db.items db)
    /\ filesTyped (Db.items db).
Proof.
  apply run_ok. split; [reflexivity|constructor].
Qed.

(** C1, as stated, fails: a create request may carry [type: 'file'];
    the item is stored with that type, without a [file] sub-record, and
    [totalFiles] is not touched. *)
Lemma create_typed_file_not_counted :
  exists db,
    run [(sampleEnv, Create (noteBody "Report A" (Some "file")))]
        (Some (initLibrary 0)) = Some db
    /\ Stats.totalFiles (Db.stats db) = 0
    /\ Stats.totalFiles (recountByType (Db.items db)) = 1
    /\ Db.stats db <> recountByType (Db.items db).
Proof.
  eexists. split; [reflexivity|]. repeat split. discriminate.
Qed.

(** ** Views *)

Lemma orZero_id (n : Z) : orZero n = n.
Proof. unfold orZero. destruct (Z.eqb_spec n 0); congruence. Qed.

Lemma bumpViews_views (x : Item.t) :
  Item.views (bumpViews x) = Item.views x + 1.
Proof. unfold bumpViews. cbn [Item.set_views Item.views]. now rewrite orZero_id. Qed.

Lemma hasId_bumpViews (id : string) (x : Item.t) :
  hasId id (bumpViews x) = hasId id x.
Proof. reflexivity. Qed.

Lemma find_mutateFirst {A : Type} (p : A -> bool) (f : A -> A) (l : list A) :
  forall x, find p l = Some x -> p (f x) = true ->
  find p (mutateFirst p f l) = Some (f x).
Proof.
  induction l as [|y l IH]; intros x H Hp; cbn [find] in H; [discriminate|].
  cbn [mutateFirst]. destruct (p y) eqn:Hy.
  - injection H as ->. cbn [find]. now rewrite Hp.
  - cbn [find]. rewrite Hy. now apply IH.
Qed.

(** What a read answers, in terms of the item stored under the id. *)
Lemma getHandler_found (e : Env.t) (id : string) (store : option Db.t)
  (x : Item.t) :
  lookup id store = Some x ->
  fst (getHandler e id store) = Json 200 (ItemBody (bumpViews x))
  /\ (Env.write_ok e = true ->
      lookup id (snd (getHandler e id store)) = Some (bumpViews x))
  /\ (Env.write_ok e = false -> snd (getHandler e id store) = store).
Proof.
  destruct store as [db|]; cbn [lookup]; [|discriminate]. intros H.
  unfold getHandler, loadDB, saveDB. rewrite H.
  destruct (Env.write_ok e); cbn [fst snd lookup Db.items];
    repeat split; try discriminate; intros _.
  apply find_mutateFirst; [exact H|].
  rewrite hasId_bumpViews. apply (find_some _ _ H).
Qed.

Lemma getHandler_inv (e : Env.t) (id : string) (store : option Db.t)
  (it : Item.t) (store' : option Db.t) :
  getHandler e id store = (Json 200 (ItemBody it), store') ->
  exists x, lookup id store = Some x /\ it = bumpViews x.
Proof.
  destruct store as [db|]; unfold getHandler, loadDB, saveDB;
    [|discriminate].
  cbn [lookup]. destruct (find (hasId id) (Db.items db)) as [x|];
    [|discriminate].
  destruct (Env.write_ok e); intros H; injection H as H _; subst; eauto.
Qed.

Lemma createHandler_stored (e : Env.t) (body : CreateBody.t) (db : Db.t) :
  truthy (CreateBody.title body) = true -> Env.write_ok e = true ->
  exists x, lookup (generateId e) (snd (createHandler e body (Some db))) = Some x
    /\ fst (createHandler e body (Some db)) = Json 200 (SuccessItem x)
    /\ Item.views x = 0.
Proof.
  intros Ht Hw. unfold createHandler, loadDB, saveDB. rewrite Ht, Hw.
  cbn [negb fst snd lookup Db.items find]. unfold hasId at 1.
  cbn [Item.id]. rewrite String.eqb_refl. eexists. repeat split.
Qed.

(** C2, as amended: when the writes succeed, the first single-item
    read after a create returns the item with [views = 1] (the read
    counts itself), and after any successful read of an id the next
    read of that id returns [views] exactly one greater; the value a
    read returns is the value it has stored under the id. *)
Theorem views_count_reads :
  (forall (e0 e1 : Env.t) (body : CreateBody.t) (db : Db.t),
      truthy (CreateBody.title body) = true -> Env.write_ok e0 = true ->
      exists it store',
        getHandler e1 (generateId e0) (snd (createHandler e0 body (Some db)))
        = (Json 200 (ItemBody it), store')
        /\ Item.views it = 1)
  /\ (forall (e1 e2 : Env.t) (id : string) (store store1 : option Db.t)
          (it1 : Item.t),
      Env.write_ok e1 = true ->
      getHandler e1 id store = (Json 200 (ItemBody it1), store1) ->
      lookup id store1 = Some it1
      /\ exists it2 store2,
           getHandler e2 id store1 = (Json 200 (ItemBody it2), store2)
           /\ Item.views it2 = Item.views it1 + 1).
Proof.
  split.
  - intros e0 e1 body db Ht Hw.
    destruct (createHandler_stored e0 body db Ht Hw) as [x [Hx [_ Hv]]].
    destruct (getHandler_found e1 _ _ _ Hx) as [Hr _].
    destruct (getHandler e1 _ _) as [r s'] eqn:Hg. cbn [fst] in Hr. subst r.
    eexists. eexists. split; [reflexivity|].
    rewrite bumpViews_views, Hv. reflexivity.
  - intros e1 e2 id store store1 it1 Hw Hg.
    destruct (getHandler_inv _ _ _ _ _ Hg) as [x [Hx ->]].
    destruct (getHandler_found e1 _ _ _ Hx) as [_ [Hp _]].
    rewrite Hg in Hp. cbn [snd] in Hp. specialize (Hp Hw).
    split; [exact Hp|].
    destruct (getHandler_found e2 _ _ _ Hp) as [Hr _].
    destruct (getHandler e2 id store1) as [r s2]. cbn [fst] in Hr. subst r.
    eexists. eexists. split; [reflexivity|]. apply bumpViews_views.
Qed.

Lemma views_count_reads_witness :
  (exists it store',
      getHandler sampleEnv (generateId sampleEnv)
        (snd (createHandler sampleEnv (noteBody "Report A" None)
                (Some (initLibrary 0))))
      = (Json 200 (ItemBody it), store')
      /\ Item.views it = 1)
  /\ (lookup "a1" (snd (getHandler sampleEnv "a1" (Some sampleLibrary)))
   = Some (bumpViews sampleNote)
   /\ exists it2 store2,
        getHandler sampleEnv "a1"
          (snd (getHandler sampleEnv "a1" (Some sampleLibrary)))
        = (Json 200 (ItemBody it2), store2)
        /\ Item.views it2 = Item.views (bumpViews sampleNote) + 1).
Proof.
  split.
  - apply (proj1 views_count_reads); reflexivity.
  - apply (proj2 views_count_reads sampleEnv sampleEnv "a1"
             (Some sampleLibrary)); reflexivity.
Defined.

(** C2, as stated, fails: the first read after a create answers
    [views = 1], not [0]; and when the write of a read fails, the read
    still answers the incremented value while the stored one stays, so
    the next read answers the same value again. *)
Lemma first_read_counts_itself :
  (exists it store',
      getHandler sampleEnv (generateId sampleEnv)
        (snd (createHandler sampleEnv (noteBody "Report A" None)
                (Some (initLibrary 0))))
      = (Json 200 (ItemBody it), store')
      /\ Item.views it = 1 /\ Item.views it <> 0)
  /\ (exists it1 it2 store1 store2,
      getHandler failingEnv "a1" (Some sampleLibrary)
      = (Json 200 (ItemBody it1), store1)
      /\ getHandler sampleEnv "a1" store1 = (Json 200 (ItemBody it2), store2)
      /\ Item.views it1 = 1 /\ Item.views it2 = 1).
Proof.
  split.
  - eexists. eexists. split; [reflexivity|]. split; [reflexivity|discriminate].
  - do 4 eexists. repeat split.
Qed.

(** ** Sorting and slicing *)

Section Sorting.

Context {A : Type} (cmp : A -> A -> Z).

Lemma insertBy_perm (x : A) (l : list A) :
  Permutation (x :: l) (insertBy cmp x l).
Proof.
  induction l as [|y l IH]; cbn [insertBy]; [reflexivity|].
  destruct (cmp x y <=? 0); [reflexivity|].
  rewrite perm_swap. now constructor.
Qed.

Lemma arraySort_perm (l : list A) : Permutation l (arraySort cmp l).
Proof.
  induction l as [|x l IH]; cbn [arraySort]; [constructor|].
  rewrite <- insertBy_perm. now constructor.
Qed.



Hypothesis cmp_consistent : consistentComparator cmp.

Lemma insertBy_HdRel (x y : A) (l : list A) :
  notAfterBy cmp y x -> HdRel (notAfterBy cmp) y l -> HdRel (notAfterBy cmp) y (insertBy cmp x l).
Proof.
  intros Hyx Hl. destruct l as [|z l]; cbn [insertBy]; [now constructor|].
  destruct (cmp x z <=? 0); constructor; [exact Hyx|].
  now inversion Hl.
Qed.

Lemma insertBy_Sorted (x : A) (l : list A) :
  Sorted (notAfterBy cmp) l -> Sorted (notAfterBy cmp) (insertBy cmp x l).
Proof.
  induction l as [|y l IH]; intros Hs; cbn [insertBy].
  - repeat constructor.
  - destruct (Z.leb_spec (cmp x y) 0) as [Hle|Hgt].
    + constructor; [exact Hs|]. constructor. exact Hle.
    + inversion Hs as [|? ? Hs' Hhd]; subst. constructor; [now apply IH|].
      apply insertBy_HdRel; [|exact Hhd].
      destruct (proj1 cmp_consistent x y) as [H|H]; [lia|exact H].
Qed.

Lemma arraySort_Sorted (l : list A) : Sorted (notAfterBy cmp) (arraySort cmp l).
Proof.
  induction l as [|x l IH]; cbn [arraySort]; [constructor|].
  now apply insertBy_Sorted.
Qed.

Lemma arraySort_StronglySorted (l : list A) :
  StronglySorted (fun a b => cmp a b <= 0) (arraySort cmp l).
Proof.
  apply Sorted_StronglySorted; [|apply arraySort_Sorted].
  intros a b c. apply (proj2 cmp_consistent).
Qed.

End Sorting.




Lemma in_firstn {A : Type} (n : nat) (l : list A) (x : A) :
  In x (firstn n l) -> In x l.
Proof.
  intros H. rewrite <- (firstn_skipn n l). apply in_or_app. now left.
Qed.

Lemma in_skipn {A : Type} (n : nat) (l : list A) (x : A) :
  In x (skipn n l) -> In x l.
Proof.
  intros H. rewrite <- (firstn_skipn n l). apply in_or_app. now right.
Qed.

Lemma slice_incl {A : Type} (l : list A) (start end_ : Z) (x : A) :
  In x (slice l start end_) -> In x l.
Proof.
  unfold slice. intros H. eapply in_skipn, in_firstn, H.
Qed.

(** For a start and a count that are not negative, [slice] is the
    window. *)
Lemma slice_window {A : Type} (l : list A) (start count : Z) :
  0 <= start -> 0 <= count ->
  slice l start (start + count) = window start count l.
Proof.
  intros Hs Hc. unfold slice, window, relativeIndex.
  set (len := Z.of_nat (List.length l)).
  destruct (Z.ltb_spec start 0) as [?|_]; [lia|].
  destruct (Z.ltb_spec (start + count) 0) as [?|_]; [lia|].
  destruct (Z.le_gt_cases len start) as [Hout|Hin].
  - rewrite (Z.min_r start len) by lia.
    rewrite !skipn_all2 by (subst len; lia).
    now rewrite !firstn_nil.
  - rewrite (Z.min_l start len) by lia.
    destruct (Z.le_gt_cases (start + count) len) as [Hfit|Hover].
    + rewrite Z.min_l by lia. f_equal. lia.
    + rewrite Z.min_r by lia.
      rewrite !firstn_all2; [reflexivity| |];
        rewrite length_skipn; subst len; lia.
Qed.

Lemma slice_segment {A : Type} (l : list A) (start end_ : Z) :
  exists before after, l = before ++ slice l start end_ ++ after.
Proof.
  unfold slice.
  set (k := Z.to_nat (relativeIndex (Z.of_nat (List.length l)) start)).
  set (n := Z.to_nat (relativeIndex (Z.of_nat (List.length l)) end_
                      - relativeIndex (Z.of_nat (List.length l)) start)).
  exists (firstn k l), (skipn n (skipn k l)).
  now rewrite (firstn_skipn n (skipn k l)), (firstn_skipn k l).
Qed.


Lemma byNewest_consistent : consistentComparator byNewest.
Proof. unfold consistentComparator, byNewest. split; intros; lia. Qed.



(** ** The list route: pagination and order *)

Lemma StronglySorted_impl {A : Type} (R R' : A -> A -> Prop) (l : list A) :
  (forall a b, R a b -> R' a b) -> StronglySorted R l -> StronglySorted R' l.
Proof.
  intros HR. induction 1 as [|x l _ IH Hall]; constructor; [exact IH|].
  eapply Forall_impl; [|exact Hall]. intros b. apply HR.
Qed.

Lemma numberOr_zero (n : option Z) :
  numberOr n 0 = match n with Some v => v | None => 0 end.
Proof.
  destruct n as [v|]; [|reflexivity]. unfold numberOr.
  destruct (Z.eqb_spec v 0); congruence.
Qed.

Lemma parseDigits_uint (d : Decimal.uint) :
  forall acc : nat,
  parseDigits 10 (NilEmpty.string_of_uint d) (Some (Z.of_nat acc))
  = Some (Z.of_nat (Nat.of_uint_acc d acc)).
Proof.
  induction d; intros acc;
    cbn [NilEmpty.string_of_uint parseDigits Nat.of_uint_acc];
    [reflexivity|..];
    match goal with
    | |- context [digitValue 10 ?c] =>
        let v := eval vm_compute in (digitValue 10 c) in
        change (digitValue 10 c) with v
    end;
    cbv beta iota; rewrite <- IHd; do 2 f_equal;
    rewrite Nat.tail_mul_spec; lia.
Qed.

Lemma parseDigits_some (radix : Z) (s : string) :
  forall acc, exists v, parseDigits radix s (Some acc) = Some v.
Proof.
  induction s as [|c s IH]; intros acc; cbn [parseDigits]; [eauto|].
  destruct (digitValue radix c); eauto.
Qed.

Lemma parseDigits_signed (s : string) (acc : Z) :
  match parseDigits 10 s (Some acc) with
  | Some n => Some (1 * n)
  | None => None
  end = parseDigits 10 s (Some acc).
Proof.
  destruct (parseDigits_some 10 s acc) as [v ->]. f_equal. lia.
Qed.

Lemma parseInt_uint (d : Decimal.uint) :
  d <> Decimal.Nil ->
  parseInt (Some (NilEmpty.string_of_uint d))
  = Some (Z.of_nat (Nat.of_uint d)).
Proof.
  intros Hd. unfold Nat.of_uint. rewrite <- parseDigits_uint.
  destruct d as [|d|d|d|d|d|d|d|d|d|d]; try congruence; destruct d;
    cbn [NilEmpty.string_of_uint];
    unfold parseInt; cbn [trimStart];
    match goal with
    | |- context [isSpace ?c] =>
        let v := eval vm_compute in (isSpace c) in
        change (isSpace c) with v
    end; cbv beta iota; cbn [parseDigits];
    repeat match goal with
    | |- context [digitValue 10 ?c] =>
        let v := eval vm_compute in (digitValue 10 c) in
        change (digitValue 10 c) with v
    end; cbv beta iota; change (Z.of_nat 0) with 0;
    rewrite ?parseDigits_signed; reflexivity.
Qed.

Lemma to_uint_nonnil (n : nat) : Nat.to_uint n <> Decimal.Nil.
Proof.
  intros H. pose proof (Unsigned.of_to n) as Hn. rewrite H in Hn.
  cbn in Hn. subst n. discriminate.
Qed.

(** [parseInt] reads the decimal print of a natural number back. *)
Lemma parseInt_decimal (n : nat) :
  parseInt (Some (decimal n)) = Some (Z.of_nat n).
Proof.
  unfold decimal. rewrite parseInt_uint by apply to_uint_nonnil.
  now rewrite Unsigned.of_to.
Qed.

Section QueryProperties.

Variable localeCompare : string -> string -> Z.

(** C3, as amended: the list route answers with the contiguous window
    [[offset, offset+limit)] of the filtered and sorted sequence, where
    [offset] is the parsed parameter, 0 when it is absent or not a
    number, and [limit] is the parsed parameter, 50 when it is absent,
    not a number, or 0; both not negative.  A window that starts at or
    after the end is empty, and [total] is the length of the filtered and
    sorted sequence before the window is cut.  A parameter given as the
    decimal print of a natural number is parsed as that number. *)
Theorem list_returns_window (q : Query.t) (db : Db.t) :
  let sorted :=
    sortItems localeCompare (Query.sort q) (filterItems q (Db.items db)) in
  let offset :=
    match parseInt (Query.offset q) with Some n => n | None => 0 end in
  let limit :=
    match parseInt (Query.limit q) with
    | Some n => if n =? 0 then 50 else n
    | None => 50
    end in
  0 <= offset -> 0 <= limit ->
  listHandler localeCompare q (Some db)
  = Json 200 (ListBody (window offset limit sorted)
                (Z.of_nat (List.length sorted)) offset limit (Db.stats db))
  /\ (Z.of_nat (List.length sorted) <= offset ->
      window offset limit sorted = [])
  /\ (Query.offset q = None -> offset = 0)
  /\ (Query.limit q = None -> limit = 50)
  /\ (forall n, Query.offset q = Some (decimal n) -> offset = Z.of_nat n)
  /\ (forall n, Query.limit q = Some (decimal n) ->
                limit = if Nat.eqb n 0 then 50 else Z.of_nat n).
Proof.
  intros sorted offset limit Ho Hl. split; [|split; [|split; [|split; [|split]]]].
  - unfold listHandler, loadDB. rewrite numberOr_zero.
    fold sorted. fold offset. unfold numberOr. fold limit.
    now rewrite slice_window.
  - intros Hout. unfold window. rewrite skipn_all2 by lia.
    apply firstn_nil.
  - intros H. subst offset. now rewrite H.
  - intros H. subst limit. now rewrite H.
  - intros n H. subst offset. now rewrite H, parseInt_decimal.
  - intros n H. subst limit. rewrite H, parseInt_decimal.
    destruct n as [|n]; [reflexivity|].
    cbn [Nat.eqb]. destruct (Z.eqb_spec (Z.of_nat (S n)) 0); [lia|reflexivity].
Qed.






End QueryProperties.

Lemma list_returns_window_witness :
  0 <= 50 /\ 0 <= 50
  /\ listHandler ordinalCompare (pageQuery None (Some "50") (Some "50"))
       (Some bigCatalog)
     = Json 200 (ListBody
         (window 50 50 (sortItems ordinalCompare None manyNotes))
         (Z.of_nat (List.length (sortItems ordinalCompare None manyNotes)))
         50 50 (Db.stats bigCatalog)).
Proof.
  split; [lia|]. split; [lia|].
  apply (list_returns_window ordinalCompare
           (pageQuery None (Some "50") (Some "50")) bigCatalog);
    vm_compute; discriminate.
Defined.

(** The scenario of the specification: of 120 matching items,
    [limit=50&offset=50] returns the elements 50 to 99 of the sorted
    sequence (newest first: the notes 69 down to 20), with [total=120]. *)
Example page_of_120 :
  exists page,
    listHandler ordinalCompare (pageQuery None (Some "50") (Some "50"))
      (Some bigCatalog)
    = Json 200 (ListBody page 120 50 50 (Db.stats bigCatalog))
    /\ map Item.created page = map Z.of_nat (rev (seq 20 50)).
Proof. eexists. split; vm_compute; reflexivity. Qed.

(** C3, as stated, fails for [limit=0]: the window [[0, 0)] is empty,
    the route answers with the default page of 50. *)
Lemma limit_zero_is_default :
  listHandler ordinalCompare (pageQuery None (Some "0") None)
    (Some sampleCatalog)
  = Json 200 (ListBody [sampleLink; sampleUpload; sampleNote] 3 0 50
                (Db.stats sampleCatalog))
  /\ window 0 0 (sortItems ordinalCompare None sampleItems) = [].
Proof. split; reflexivity. Qed.


(** The three orders on a catalog stored in none of them. *)
Example list_in_each_order :
  listHandler ordinalCompare (pageQuery (Some "oldest") None None)
    (Some shuffledCatalog)
  = Json 200 (ListBody [sampleNote; sampleUpload; sampleLink] 3 0 50
                (Db.stats shuffledCatalog))
  /\ listHandler ordinalCompare (pageQuery (Some "title") None None)
       (Some shuffledCatalog)
     = Json 200 (ListBody [sampleLink; sampleNote; sampleUpload] 3 0 50
                   (Db.stats shuffledCatalog))
  /\ listHandler ordinalCompare (pageQuery (Some "newest") None None)
       (Some shuffledCatalog)
     = Json 200 (ListBody [sampleLink; sampleUpload; sampleNote] 3 0 50
                   (Db.stats shuffledCatalog))
  /\ listHandler ordinalCompare (pageQuery None None None)
       (Some shuffledCatalog)
     = Json 200 (ListBody [sampleLink; sampleUpload; sampleNote] 3 0 50
                   (Db.stats shuffledCatalog)).
Proof. repeat split. Qed.

(** ** The search filter *)

Lemma prefix_spec (p s : string) :
  String.prefix p s = true <-> exists post, s = (p ++ post)%string.
Proof.
  revert s. induction p as [|c p IH]; intros s; cbn [String.prefix].
  - split; [intros _; now exists s|]. intros _. now destruct s.
  - destruct s as [|d s].
    + split; [discriminate|]. intros [post H]. discriminate.
    + cbn [String.prefix]. destruct (ascii_dec c d) as [->|Hne].
      * rewrite IH. split; intros [post H]; exists post; cbn in *; congruence.
      * split; [discriminate|]. intros [post H]. cbn in H. congruence.
Qed.

Lemma includes_spec (s p : string) :
  includes s p = true <-> exists pre post, s = (pre ++ p ++ post)%string.
Proof.
  split.
  - induction s as [|c s IH]; cbn [includes]; unfold startsWith;
      rewrite orb_true_iff; intros [H|H]; try discriminate.
    + apply prefix_spec in H. destruct H as [post H].
      now exists EmptyString, post.
    + apply prefix_spec in H. destruct H as [post H].
      now exists EmptyString, post.
    + destruct (IH H) as [pre [post ->]]. now exists (String c pre), post.
  - intros [pre [post ->]]. induction pre as [|c pre IH].
    + cbn [append]. destruct (p ++ post)%string eqn:E; cbn [includes];
        unfold startsWith; apply orb_true_iff; left; apply prefix_spec;
        exists post; now rewrite E.
    + cbn [append includes]. rewrite IH. apply orb_true_r.
Qed.

Lemma optIncludes_spec (o : option string) (needle : string) :
  optIncludes o (toLowerCase needle) = true
  <-> exists x, o = Some x /\ ciContains needle x.
Proof.
  unfold optIncludes, ciContains. destruct o as [x|].
  - rewrite includes_spec. split.
    + intros H. now exists x.
    + intros [y [[= <-] H]]. exact H.
  - split; [discriminate|]. intros [x [H _]]. discriminate.
Qed.

Lemma tagsSome_spec (o : option (list string)) (needle : string) :
  tagsSome o (toLowerCase needle) = true
  <-> exists ts t, o = Some ts /\ In t ts /\ ciContains needle t.
Proof.
  unfold tagsSome, ciContains. destruct o as [ts|].
  - rewrite existsb_exists. split.
    + intros [t [Hin H]]. apply includes_spec in H. now exists ts, t.
    + intros [ts' [t [[= <-] [Hin H]]]]. exists t. split; [exact Hin|].
      now apply includes_spec.
  - split; [discriminate|]. intros [ts [t [H _]]]. discriminate.
Qed.

Lemma matchesSearch_spec (needle : string) (it : Item.t) :
  matchesSearch (toLowerCase needle) it = true <-> specMatch needle it.
Proof.
  unfold matchesSearch, specMatch.
  rewrite !orb_true_iff, !optIncludes_spec, tagsSome_spec, includes_spec.
  unfold ciContains. tauto.
Qed.

Lemma matchesQuery_spec (needle : string) (it : Item.t) :
  matchesQuery (toLowerCase needle) it = true
  <-> specMatch needle it \/ previewMatch needle it.
Proof.
  unfold matchesQuery, specMatch, previewMatch.
  rewrite !orb_true_iff, !optIncludes_spec, tagsSome_spec, includes_spec.
  unfold ciContains. tauto.
Qed.

Lemma filterItems_search (search : string) (sort limit offset : option string)
  (items : list Item.t) :
  search <> EmptyString ->
  filterItems (Query.mk (Some search) None None None sort limit offset) items
  = filter (matchesSearch (toLowerCase search)) items.
Proof.
  intros H. unfold filterItems, filterIf. cbn [Query.search Query.category
    Query.tag Query.type].
  apply String.eqb_neq in H. now rewrite H.
Qed.

Section SearchProperties.

Variable localeCompare : string -> string -> Z.

(** C4, as amended: for a search string such as ["ukraine"], the
    search filter of the list route keeps exactly the items for which
    the string is a case-insensitive substring of the title, of the
    description, of some tag or of the content, an absent field never
    matching; [total] counts them, and the answer is a page of them,
    all of them when no more than 50 match and no window is asked for.
    The search route keeps, besides these, the items whose text
    preview contains the string, and answers with the first 50. *)
Theorem search_matches (search : string) (sort limit offset : option string)
  (db : Db.t) :
  search <> EmptyString ->
  (exists matches,
      (forall it, In it matches
                  <-> In it (Db.items db) /\ specMatch search it)
      /\ exists page start count,
           listHandler localeCompare
             (Query.mk (Some search) None None None sort limit offset)
             (Some db)
           = Json 200 (ListBody page (Z.of_nat (List.length matches))
                         start count (Db.stats db))
           /\ page = slice (sortItems localeCompare sort matches)
                       start (start + count)
           /\ (forall it, In it page ->
                          In it (Db.items db) /\ specMatch search it)
           /\ (limit = None -> offset = None ->
               (List.length matches <= 50)%nat -> Permutation matches page))
  /\ (exists found,
         (forall it, In it found
                     <-> In it (Db.items db)
                         /\ (specMatch search it \/ previewMatch search it))
         /\ searchHandler (Some search) (Some db)
            = Json 200 (SearchBody (firstn 50 found)
                          (Z.of_nat (List.length found)) (Some search))).
Proof.
  intros Hne. split.
  - exists (filter (matchesSearch (toLowerCase search)) (Db.items db)).
    assert (Hin : forall it,
      In it (filter (matchesSearch (toLowerCase search)) (Db.items db))
      <-> In it (Db.items db) /\ specMatch search it).
    { intros it. now rewrite filter_In, matchesSearch_spec. }
    split; [exact Hin|].
    unfold listHandler, loadDB. rewrite filterItems_search by exact Hne.
    cbn [Query.sort Query.limit Query.offset].
    set (matches := filter (matchesSearch (toLowerCase search)) (Db.items db))
      in *.
    assert (Hperm : Permutation matches (sortItems localeCompare sort matches)).
    { unfold sortItems.
      destruct (optEqb sort "oldest"); [|destruct (optEqb sort "title")];
        apply arraySort_perm. }
    do 3 eexists. split; [|split; [reflexivity|split]].
    + now rewrite <- (Permutation_length Hperm).
    + intros it H. apply Hin. apply slice_incl in H.
      now apply (Permutation_in _ (Permutation_sym Hperm)).
    + intros -> -> Hlen. cbn [parseInt numberOr].
      rewrite slice_window by lia. unfold window.
      cbn [Z.to_nat skipn]. rewrite firstn_all2; [exact Hperm|].
      rewrite <- (Permutation_length Hperm).
      change (Z.to_nat (0 + 50)) with 50%nat. exact Hlen.
  - exists (filter (matchesQuery (toLowerCase search)) (Db.items db)).
    split.
    + intros it. now rewrite filter_In, matchesQuery_spec.
    + unfold searchHandler, loadDB. apply String.eqb_neq in Hne.
      rewrite Hne. rewrite (slice_window _ 0 50) by lia. reflexivity.
Qed.

End SearchProperties.

Lemma search_matches_witness :
  "ukraine" <> EmptyString
  /\ (exists matches,
         (forall it, In it matches
                     <-> In it (Db.items sampleCatalog)
                         /\ specMatch "ukraine" it)
         /\ exists page start count,
              listHandler ordinalCompare (searchQuery "ukraine")
                (Some sampleCatalog)
              = Json 200 (ListBody page (Z.of_nat (List.length matches))
                            start count (Db.stats sampleCatalog))
              /\ page = slice (sortItems ordinalCompare None matches)
                          start (start + count)
              /\ (forall it, In it page ->
                    In it (Db.items sampleCatalog) /\ specMatch "ukraine" it)
              /\ (@None string = None -> @None string = None ->
                  (List.length matches <= 50)%nat ->
                  Permutation matches page))
  /\ (exists found,
         (forall it, In it found
                     <-> In it (Db.items sampleCatalog)
                         /\ (specMatch "ukraine" it
                             \/ previewMatch "ukraine" it))
         /\ searchHandler (Some "ukraine") (Some sampleCatalog)
            = Json 200 (SearchBody (firstn 50 found)
                          (Z.of_nat (List.length found)) (Some "ukraine"))).
Proof.
  split; [discriminate|].
  exact (search_matches ordinalCompare "ukraine" None None None
           sampleCatalog ltac:(discriminate)).
Defined.

(** On the sample catalog the list route finds the link whose
    description mentions the string, and nothing else. *)
Example list_search_ukraine :
  listHandler ordinalCompare (searchQuery "ukraine") (Some sampleCatalog)
  = Json 200 (ListBody [sampleLink] 1 0 50 (Db.stats sampleCatalog)).
Proof. reflexivity. Qed.

(** C4, as stated, fails on the search route: an uploaded text file
    whose preview mentions the string is returned although neither its
    title, description, tags nor content contain it. *)
Lemma search_route_reads_preview :
  searchHandler (Some "ukraine") (Some sampleCatalog)
  = Json 200 (SearchBody [sampleLink; sampleUpload] 2 (Some "ukraine"))
  /\ ~ specMatch "ukraine" sampleUpload.
Proof.
  split; [reflexivity|].
  intros H. apply (matchesSearch_spec "ukraine") in H. discriminate.
Qed.

(** ** Update *)

Lemma applyPatch_patchedItem (now : Z) (p : Patch.t) (x : Item.t) :
  applyPatch now p x = patchedItem now p x.
Proof. destruct p as [[] [] [] [] [] [] [] [] ? ?]; reflexivity. Qed.

Lemma find_findIndex {A : Type} (p : A -> bool) (l : list A) :
  forall x, find p l = Some x ->
  exists k, findIndex p l = Some k /\ nth_error l k = Some x.
Proof.
  induction l as [|y l IH]; intros x H; cbn [find] in H; [discriminate|].
  cbn [findIndex]. destruct (p y).
  - injection H as ->. now exists O.
  - destruct (IH x H) as [k [Hk Hn]]. rewrite Hk. now exists (S k).
Qed.

Lemma nth_error_setAt_eq {A : Type} (v : A) (l : list A) :
  forall k x, nth_error l k = Some x -> nth_error (setAt k v l) k = Some v.
Proof.
  induction l as [|y l IH]; intros [|k] x H; cbn in *; try discriminate; eauto.
Qed.

Lemma nth_error_setAt_ne {A : Type} (v : A) (l : list A) :
  forall k j, j <> k -> nth_error (setAt k v l) j = nth_error l j.
Proof.
  induction l as [|y l IH]; intros [|k] [|j] H; cbn; auto; try congruence.
Qed.

Lemma setAt_length {A : Type} (v : A) (l : list A) :
  forall k, List.length (setAt k v l) = List.length l.
Proof.
  induction l as [|y l IH]; intros [|k]; cbn; auto.
Qed.

(** C5, as amended: for an id under which an item is stored, the
    update route answers with the item in which each of [title],
    [description], [category], [tags], [country], [source], [content]
    and [starred] is the value of the body when the body has that key
    and the prior value when it has not, and [updated] is the current
    time; every other field of it, [id], [type], [url], [file] and
    [created] among them, is as it was, whatever else the body
    carries.  When the write goes through, that item is stored in the
    item's place, and every other item and the counters are as they
    were; when the write fails, the answer is the same and the
    document is as it was. *)
Theorem update_overwrites_present_fields (e : Env.t) (id : string)
  (p : Patch.t) (db : Db.t) (item : Item.t) :
  lookup id (Some db) = Some item ->
  exists item',
    fst (updateHandler e id p (Some db)) = Json 200 (SuccessItem item')
    /\ item' = patchedItem (Env.clock e 0) p item
    /\ Item.title item' = patched (Patch.title p) (Item.title item)
    /\ Item.description item'
       = patched (Patch.description p) (Item.description item)
    /\ Item.category item' = patched (Patch.category p) (Item.category item)
    /\ Item.tags item' = patched (Patch.tags p) (Item.tags item)
    /\ Item.country item' = patched (Patch.country p) (Item.country item)
    /\ Item.source item' = patched (Patch.source p) (Item.source item)
    /\ Item.content item' = patched (Patch.content p) (Item.content item)
    /\ Item.starred item' = patched (Patch.starred p) (Item.starred item)
    /\ Item.updated item' = Some (Env.clock e 0)
    /\ Item.id item' = Item.id item
    /\ Item.type item' = Item.type item
    /\ Item.fileType item' = Item.fileType item
    /\ Item.url item' = Item.url item
    /\ Item.file item' = Item.file item
    /\ Item.textPreview item' = Item.textPreview item
    /\ Item.created item' = Item.created item
    /\ Item.views item' = Item.views item
    /\ (Env.write_ok e = true ->
        exists index db',
          snd (updateHandler e id p (Some db)) = Some db'
          /\ nth_error (Db.items db) index = Some item
          /\ nth_error (Db.items db') index = Some item'
          /\ List.length (Db.items db') = List.length (Db.items db)
          /\ (forall j, j <> index ->
                nth_error (Db.items db') j = nth_error (Db.items db) j)
          /\ Db.stats db' = Db.stats db)
    /\ (Env.write_ok e = false ->
        snd (updateHandler e id p (Some db)) = Some db).
Proof.
  cbn [lookup]. intros Hf.
  destruct (find_findIndex _ _ _ Hf) as [k [Hk Hn]].
  exists (patchedItem (Env.clock e 0) p item).
  unfold updateHandler, loadDB, saveDB.
  rewrite Hk, Hn, applyPatch_patchedItem.
  split; [now destruct (Env.write_ok e)|].
  do 18 (split; [reflexivity|]).
  split.
  - intros ->. exists k. eexists. cbn [snd].
    split; [reflexivity|]. cbn [Db.items Db.stats].
    split; [exact Hn|].
    split; [apply (nth_error_setAt_eq _ _ _ _ Hn)|].
    split; [apply setAt_length|].
    split; [intros j Hj; now apply nth_error_setAt_ne|reflexivity].
  - now intros ->.
Qed.

Lemma update_overwrites_present_fields_witness :
  lookup "a1" (Some sampleLibrary) = Some sampleNote
  /\ exists item',
       fst (updateHandler sampleEnv "a1" (titlePatch "Report X")
              (Some sampleLibrary))
       = Json 200 (SuccessItem item')
       /\ Item.title item' = "Report X"
       /\ Item.updated item' = Some 1700000000000
       /\ Item.created item' = Item.created sampleNote
       /\ lookup "a1"
            (snd (updateHandler sampleEnv "a1" (titlePatch "Report X")
                    (Some sampleLibrary)))
          = Some item'.
Proof.
  split; [reflexivity|].
  destruct (update_overwrites_present_fields sampleEnv "a1"
              (titlePatch "Report X") sampleLibrary sampleNote eq_refl)
    as (item' & Hr & Hi & Ht & _ & _ & _ & _ & _ & _ & _ & Hu
        & _ & _ & _ & _ & _ & _ & Hc & _).
  exists item'. split; [exact Hr|]. split; [exact Ht|].
  split; [exact Hu|]. split; [exact Hc|].
  rewrite Hi. reflexivity.
Defined.

(** C5, as stated, fails for a key the route does not read: a body
    with the key [url] leaves the stored [url] of the item as it was,
    in the answer and in the document, where overwriting the fields
    present in the body would have replaced it. *)
Lemma update_ignores_url :
  Patch.url urlPatch = Some (Some "http://y")
  /\ lookup "b2" (Some sampleCatalog) = Some sampleLink
  /\ Item.url sampleLink = Some "http://x"
  /\ (exists item',
        fst (updateHandler sampleEnv "b2" urlPatch (Some sampleCatalog))
        = Json 200 (SuccessItem item')
        /\ Item.url item' = Some "http://x"
        /\ lookup "b2"
             (snd (updateHandler sampleEnv "b2" urlPatch
                     (Some sampleCatalog)))
           = Some item')
  /\ Item.url (overwritePresent (Env.clock sampleEnv 0) urlPatch sampleLink)
     = Some "http://y"
  /\ fst (updateHandler sampleEnv "b2" urlPatch (Some sampleCatalog))
     <> Json 200 (SuccessItem
                    (overwritePresent (Env.clock sampleEnv 0) urlPatch
                       sampleLink)).
Proof.
  split; [reflexivity|]. split; [reflexivity|]. split; [reflexivity|].
  split; [eexists; repeat split|]. split; [reflexivity|].
  vm_compute. discriminate.
Qed.

(** ** Store failures *)

(** C6 on the code: with [fs.writeFileSync] failing, the create route
    and the import route answer with success and persist nothing; with
    the library document unreadable, the single-item read answers 404;
    the list route is the one that answers 500. *)
Theorem write_failure_reports_success :
  (exists item,
      createHandler failingEnv (noteBody "Report A" None)
        (Some (initLibrary 0))
      = (Json 200 (SuccessItem item), Some (initLibrary 0)))
  /\ importHandler failingEnv importBody sampleDisk
     = (Json 200 Success, sampleDisk)
  /\ getHandler sampleEnv "a1" None
     = (Json 404 (ErrorBody "Item not found"), None)
  /\ listHandler ordinalCompare noQuery None
     = Json 500 (ErrorBody "Database error").
Proof.
  split; [eexists; reflexivity|]. repeat split.
Qed.

(** ** Categories *)

Lemma mapString_mapString (f g : ascii -> ascii) (s : string) :
  mapString f (mapString g s) = mapString (fun c => f (g c)) s.
Proof.
  induction s as [|c s IH]; cbn [mapString]; [reflexivity|]. now rewrite IH.
Qed.

Lemma slug_slugSpec (name : string) : slug name = slugSpec name.
Proof. unfold slug, slugSpec, toLowerCase. apply mapString_mapString. Qed.

Lemma mapString_length (f : ascii -> ascii) (s : string) :
  String.length (mapString f s) = String.length s.
Proof.
  induction s as [|c s IH]; cbn [mapString String.length]; congruence.
Qed.

Lemma countCategory_app (id : string) (l1 l2 : list Category.t) :
  List.length (filter (hasCategoryId id) (l1 ++ l2))
  = (List.length (filter (hasCategoryId id) l1)
     + List.length (filter (hasCategoryId id) l2))%nat.
Proof. now rewrite filter_app, length_app. Qed.

(** C7, as amended: for a category name, and when the write goes
    through, the add route gives the new category the slug of the name
    (the name lowercased, every character that is then not a letter or
    a digit replaced by a hyphen) as its id, and appends it to the
    stored categories, keeping every entry that was there; submitting
    the same name again appends an equal entry, so the stored list then
    holds two more entries with that id than before. *)
Theorem addCategory_appends (e e' : Env.t) (body : CategoryBody.t)
  (name : string) (cats : list Category.t) :
  CategoryBody.name body = Some name ->
  Env.write_ok e = true -> Env.write_ok e' = true ->
  exists c,
    addCategoryHandler e body (Some cats)
    = (Json 200 (SuccessCategory c), Some (cats ++ [c]))
    /\ Category.id c = slugSpec name
    /\ Category.name c = name
    /\ addCategoryHandler e' body (Some (cats ++ [c]))
       = (Json 200 (SuccessCategory c), Some (cats ++ [c; c]))
    /\ List.length (filter (hasCategoryId (slugSpec name)) (cats ++ [c; c]))
       = (List.length (filter (hasCategoryId (slugSpec name)) cats) + 2)%nat.
Proof.
  intros Hn Hw Hw'. unfold addCategoryHandler, loadDB, saveDB.
  rewrite Hn, Hw, Hw'. eexists. split; [reflexivity|].
  cbn [Category.id Category.name]. rewrite slug_slugSpec.
  repeat split.
  - now rewrite <- app_assoc.
  - rewrite countCategory_app. cbn [filter hasCategoryId Category.id].
    unfold hasCategoryId. cbn [Category.id].
    now rewrite String.eqb_refl.
Qed.

Lemma addCategory_appends_witness :
  CategoryBody.name mapsBody = Some "Maps"
  /\ Env.write_ok sampleEnv = true
  /\ exists c,
       addCategoryHandler sampleEnv mapsBody (Some defaultCategories)
       = (Json 200 (SuccessCategory c), Some (defaultCategories ++ [c]))
       /\ Category.id c = slugSpec "Maps"
       /\ Category.name c = "Maps"
       /\ addCategoryHandler sampleEnv mapsBody (Some (defaultCategories ++ [c]))
          = (Json 200 (SuccessCategory c), Some (defaultCategories ++ [c; c]))
       /\ List.length (filter (hasCategoryId (slugSpec "Maps"))
                         (defaultCategories ++ [c; c]))
          = (List.length (filter (hasCategoryId (slugSpec "Maps"))
                            defaultCategories) + 2)%nat.
Proof.
  split; [reflexivity|]. split; [reflexivity|].
  apply (addCategory_appends sampleEnv sampleEnv mapsBody "Maps"
           defaultCategories); reflexivity.
Defined.

(** C7, as stated, fails in its second half: adding a category named
    [Maps] to the default categories, twice, leaves three entries with
    the id [maps]: the default one, still named [Karten], and two named
    [Maps]. *)
Lemma resubmitted_category_is_duplicated :
  exists cats,
    snd (addCategoryHandler sampleEnv mapsBody
           (snd (addCategoryHandler sampleEnv mapsBody
                   (Some defaultCategories))))
    = Some cats
    /\ map Category.name (filter (hasCategoryId "maps") cats)
       = ["Karten"; "Maps"; "Maps"].
Proof. eexists. split; reflexivity. Qed.

(** ** Upload naming *)

Lemma toHex_length (bs : list byte) :
  String.length (toHex bs) = (2 * List.length bs)%nat.
Proof.
  induction bs as [|b bs IH]; cbn [toHex String.length List.length];
    [reflexivity|]. rewrite IH. lia.
Qed.

Lemma randomBytes_length (e : Env.t) (n : nat) :
  List.length (randomBytes e n) = n.
Proof. unfold randomBytes. now rewrite length_map, length_seq. Qed.

Lemma byte_hex_digits (b : byte) :
  isHex (digitChar (Byte.to_N b / 16)) = true
  /\ isHex (digitChar (Byte.to_N b mod 16)) = true.
Proof. destruct b; split; vm_compute; reflexivity. Qed.

Lemma toHex_chars (bs : list byte) :
  Forall (fun c => isHex c = true) (chars (toHex bs)).
Proof.
  induction bs as [|b bs IH]; cbn [toHex chars list_ascii_of_string];
    [constructor|].
  destruct (byte_hex_digits b) as [H1 H2]. now repeat constructor.
Qed.

Lemma chars_app (a b : string) :
  chars (a ++ b)%string = (chars a ++ chars b)%list.
Proof.
  unfold chars. induction a as [|c a IH];
    cbn [append list_ascii_of_string app]; [reflexivity|]. now rewrite IH.
Qed.

Lemma chars_mapString (f : ascii -> ascii) (s : string) :
  chars (mapString f s) = map f (chars s).
Proof.
  unfold chars. induction s as [|c s IH];
    cbn [mapString list_ascii_of_string map]; [reflexivity|]. now rewrite IH.
Qed.

Lemma hex_not_separator (c : ascii) :
  isHex c = true -> isPathSeparator c = false.
Proof.
  destruct c as [[] [] [] [] [] [] [] []]; vm_compute; congruence.
Qed.

Lemma safeChar_not_separator (c : ascii) :
  safeChar c = true -> isPathSeparator c = false.
Proof.
  destruct c as [[] [] [] [] [] [] [] []]; vm_compute; congruence.
Qed.

Lemma safeName_chars (originalname : string) :
  Forall (fun c => isPathSeparator c = false) (chars (safeName originalname)).
Proof.
  unfold safeName. rewrite chars_mapString. apply Forall_map.
  apply Forall_forall. intros c _. destruct (safeChar c) eqn:H.
  - now apply safeChar_not_separator.
  - reflexivity.
Qed.

Lemma get_mapString (f : ascii -> ascii) (s : string) :
  forall k, String.get k (mapString f s) = option_map f (String.get k s).
Proof.
  induction s as [|c s IH]; intros [|k]; cbn [mapString String.get option_map];
    auto.
Qed.

Lemma string_length_app (a b : string) :
  String.length (a ++ b)%string = (String.length a + String.length b)%nat.
Proof.
  induction a as [|c a IH]; cbn [append String.length]; [reflexivity|].
  now rewrite IH.
Qed.

(** C9: the storage file name is the hex print of 8 random bytes (16
    hex digits), an underscore, and the original name with every
    character outside [[A-Za-z0-9.-]] replaced by an underscore, the
    others kept in place; it holds no path separator and is neither [.]
    nor [..], so it names a file directly inside the uploads directory;
    both deployments compute the same name. *)
Theorem storage_filename_is_safe (e : Env.t) (originalname : string) :
  exists token,
    storageFilename e originalname
    = (token ++ "_" ++ safeName originalname)%string
    /\ token = toHex (randomBytes e 8)
    /\ String.length token = 16%nat
    /\ Forall (fun c => isHex c = true) (chars token)
    /\ String.length (safeName originalname) = String.length originalname
    /\ (forall k,
          String.get k (safeName originalname)
          = option_map (fun c => if safeChar c then c else "_"%char)
              (String.get k originalname))
    /\ Forall (fun c => isPathSeparator c = false)
         (chars (storageFilename e originalname))
    /\ storageFilename e originalname <> "."
    /\ storageFilename e originalname <> ".."
    /\ Free.storageFilename e originalname = storageFilename e originalname.
Proof.
  exists (toHex (randomBytes e 8)).
  assert (Hlen : String.length (toHex (randomBytes e 8)) = 16%nat).
  { now rewrite toHex_length, randomBytes_length. }
  assert (Hlong : (17 <= String.length (storageFilename e originalname))%nat).
  { unfold storageFilename. rewrite !string_length_app, Hlen.
    cbn [String.length]. lia. }
  split; [reflexivity|]. split; [reflexivity|]. split; [exact Hlen|].
  split; [apply toHex_chars|].
  split; [apply mapString_length|].
  split; [intros k; apply get_mapString|].
  split.
  { unfold storageFilename. rewrite !chars_app. apply Forall_app. split.
    - eapply Forall_impl; [|apply toHex_chars].
      intros c. apply hex_not_separator.
    - apply Forall_app. split; [|apply safeName_chars].
      repeat constructor. }
  split; [intros H; rewrite H in Hlong; cbn in Hlong; lia|].
  split; [intros H; rewrite H in Hlong; cbn in Hlong; lia|].
  reflexivity.
Qed.

(** ** Upload without a title *)

(** C10: an upload whose body has no [title] is not rejected: with the
    library document in place the route answers with success and an
    item of type ['file'] whose title is the original file name, and,
    when the write goes through, puts it at the head of the stored
    items; the Render-Free route does the same, also without a
    document, when [tags] is absent or a string.  A create without a
    title is rejected with 400. *)
Theorem upload_defaults_title (e : Env.t) (f : File.t) (body : UploadBody.t)
  (db : Db.t) (store : option Db.t) :
  UploadBody.title body = None ->
  (exists item store',
      uploadHandler e (Some f) body (Some db)
      = (Json 200 (SuccessItem item), store')
      /\ Item.title item = File.originalname f
      /\ Item.type item = "file"
      /\ (Env.write_ok e = true ->
          exists db', store' = Some db'
                      /\ Db.items db' = item :: Db.items db))
  /\ ((forall l, UploadBody.tags body <> Some (inr l)) ->
      exists item store',
        Free.uploadHandler e (Some f) body store
        = (Json 200 (SuccessItem item), store')
        /\ Item.title item = File.originalname f
        /\ Item.type item = "file"
        /\ (Env.write_ok e = true ->
            exists db', store' = Some db'
                        /\ Db.items db'
                           = item :: match store with
                                     | Some d => Db.items d
                                     | None => []
                                     end))
  /\ (forall cb, CreateBody.title cb = None ->
        createHandler e cb store
        = (Json 400 (ErrorBody "Title required"), store)).
Proof.
  intros Ht. split; [|split].
  - unfold uploadHandler, loadDB, saveDB. rewrite Ht.
    destruct (Env.write_ok e); do 2 eexists;
      (split; [reflexivity|]); cbn [Item.title Item.type orElse];
      repeat split; try discriminate.
    intros _. eexists. split; reflexivity.
  - intros Htags. unfold Free.uploadHandler, loadDB, saveDB. rewrite Ht.
    destruct (UploadBody.tags body) as [[t|l]|];
      [destruct (String.eqb t EmptyString)|now destruct (Htags l)|];
      destruct (Env.write_ok e); do 2 eexists;
      (split; [reflexivity|]); cbn [Item.title Item.type orElse];
      repeat split; try discriminate;
      intros _; eexists; (split; [reflexivity|]);
      destruct store; reflexivity.
  - intros cb Hcb. unfold createHandler. now rewrite Hcb.
Qed.

Lemma upload_defaults_title_witness :
  UploadBody.title emptyUpload = None
  /\ (exists item store',
         uploadHandler sampleEnv (Some sampleFile) emptyUpload
           (Some (initLibrary 0))
         = (Json 200 (SuccessItem item), store')
         /\ Item.title item = File.originalname sampleFile
         /\ Item.type item = "file"
         /\ (Env.write_ok sampleEnv = true ->
             exists db', store' = Some db'
                         /\ Db.items db' = item :: Db.items (initLibrary 0)))
  /\ ((forall l, UploadBody.tags emptyUpload <> Some (inr l)) ->
      exists item store',
        Free.uploadHandler sampleEnv (Some sampleFile) emptyUpload None
        = (Json 200 (SuccessItem item), store')
        /\ Item.title item = File.originalname sampleFile
        /\ Item.type item = "file"
        /\ (Env.write_ok sampleEnv = true ->
            exists db', store' = Some db' /\ Db.items db' = [item]))
  /\ (forall cb, CreateBody.title cb = None ->
        createHandler sampleEnv cb None
        = (Json 400 (ErrorBody "Title required"), None)).
Proof.
  split; [reflexivity|].
  exact (upload_defaults_title sampleEnv sampleFile emptyUpload
           (initLibrary 0) None eq_refl).
Defined.

(** ** Scenarios *)

(** Two creates, then the list by title: [Report A] before [Report B],
    whatever the order of creation. *)
Example list_by_title :
  exists page,
    listHandler ordinalCompare (pageQuery (Some "title") None None) twoReports
    = Json 200 (ListBody page 2 0 50 (Stats.mk 2 0 1 0))
    /\ map Item.title page = ["Report A"; "Report B"].
Proof. eexists. split; reflexivity. Qed.

(** A deleted item is not found again, by a read or by a second delete. *)
Example delete_then_not_found :
  let store := snd (deleteHandler sampleEnv "a1" (Some sampleLibrary)) in
  fst (deleteHandler sampleEnv "a1" (Some sampleLibrary)) = Json 200 Success
  /\ fst (getHandler sampleEnv "a1" store)
     = Json 404 (ErrorBody "Item not found")
  /\ fst (deleteHandler sampleEnv "a1" store)
     = Json 404 (ErrorBody "Item not found").
Proof. repeat split. Qed.

(** An upload followed by its delete brings the counters back. *)
Example upload_then_delete :
  exists item store,
    uploadHandler sampleEnv (Some sampleFile) emptyUpload (Some sampleLibrary)
    = (Json 200 (SuccessItem item), Some store)
    /\ Db.stats store = Stats.mk 2 1 0 1024
    /\ Item.fileType item = Some "pdf"
    /\ option_map Db.stats
         (snd (deleteHandler laterEnv (Item.id item) (Some store)))
       = Some (Db.stats sampleLibrary).
Proof. do 2 eexists. repeat split. Qed.

Example parseInt_forms :
  parseInt (Some "50") = Some 50
  /\ parseInt (Some "  12px") = Some 12
  /\ parseInt (Some "-3") = Some (-3)
  /\ parseInt (Some "0x1f") = Some 31
  /\ parseInt (Some "abc") = None
  /\ parseInt None = None.
Proof. repeat split. Qed.

Example storage_filename_sample :
  storageFilename sampleEnv "../etc/pass wd.txt"
  = "2a2a2a2a2a2a2a2a_.._etc_pass_wd.txt".
Proof. reflexivity. Qed.

(* ================================================================== *)
(** * Further properties of the code *)

(** ** The Render-Free routes *)

Lemma free_applyPatch_file (now : Z) (p : Patch.t) (x : Item.t) :
  Item.file (Free.applyPatch now p x) = Item.file x.
Proof. destruct p as [[] [] [] [] ? ? [] [] ? ?]; reflexivity. Qed.

Lemma free_applyPatch_type (now : Z) (p : Patch.t) (x : Item.t) :
  Item.type (Free.applyPatch now p x) = Item.type x.
Proof. destruct p as [[] [] [] [] ? ? [] [] ? ?]; reflexivity. Qed.

Lemma emptyDb_consistent : consistent Free.emptyDb.
Proof. split; [reflexivity|constructor]. Qed.

Lemma storeOk_orEmpty (store : option Db.t) :
  storeOk store ->
  consistent (match store with Some d => d | None => Free.emptyDb end).
Proof. destruct store; [auto|intros _; apply emptyDb_consistent]. Qed.

Lemma orElse_type_link (o : option string) :
  String.eqb (orElse o "note") "link" = optEqb o "link".
Proof.
  destruct o as [t|]; cbn [orElse optEqb]; [|reflexivity].
  destruct (String.eqb t "") eqn:Ht; [|reflexivity].
  apply String.eqb_eq in Ht. now subst.
Qed.

Lemma free_createHandler_ok (e : Env.t) (body : CreateBody.t)
  (store : option Db.t) :
  storeOk store -> storeOk (snd (Free.createHandler e body store)).
Proof.
  intros H. unfold Free.createHandler, loadDB.
  destruct (negb (truthy (CreateBody.title body))); [exact H|].
  pose proof (storeOk_orEmpty store H) as [Hst Hft].
  set (db := match store with Some d => d | None => Free.emptyDb end) in *.
  match goal with |- context [saveDB e ?s ?d] =>
    pose proof (saveDB_ok e s d H) as Hs; destruct (saveDB e s d) as [b s'] end.
  cbn [snd] in *. apply Hs. split; cbn [Db.items Db.stats].
  - rewrite Hst, recount_cons.
    unfold hasFile, fileSize, isType. cbn [Item.file Item.type].
    rewrite orElse_type_link.
    destruct (optEqb (CreateBody.type body) "link"); f_equal; lia.
  - constructor; [|exact Hft]. cbn. discriminate.
Qed.

Lemma free_uploadHandler_ok (e : Env.t) (file : option File.t)
  (body : UploadBody.t) (store : option Db.t) :
  storeOk store -> storeOk (snd (Free.uploadHandler e file body store)).
Proof.
  intros H. unfold Free.uploadHandler, loadDB. destruct file as [f|]; [|exact H].
  pose proof (storeOk_orEmpty store H) as [Hst Hft].
  set (db := match store with Some d => d | None => Free.emptyDb end) in *.
  destruct (UploadBody.tags body) as [[t|l]|];
    [destruct (String.eqb t EmptyString)|exact H|];
    (match goal with |- context [saveDB e ?s ?d] =>
       pose proof (saveDB_ok e s d H) as Hs;
       destruct (saveDB e s d) as [b s'] end;
     cbn [snd] in *; apply Hs; split; cbn [Db.items Db.stats];
     [ rewrite Hst, recount_cons;
       unfold hasFile, fileSize, isType;
       cbn [Item.file Item.type FileInfo.size];
       change (String.eqb "file" "link") with false; cbv iota;
       f_equal; lia
     | constructor; [reflexivity|exact Hft] ]).
Qed.

Lemma free_deleteHandler_ok (e : Env.t) (id : string) (store : option Db.t) :
  storeOk store -> storeOk (snd (Free.deleteHandler e id store)).
Proof.
  intros H. unfold Free.deleteHandler. destruct store as [db|]; [|exact I].
  unfold loadDB; cbv beta iota.
  destruct (findIndex (hasId id) (Db.items db)) as [k|] eqn:Hk; [|exact H].
  destruct (findIndex_nth _ _ _ Hk) as [x [Hx _]]. rewrite Hx.
  match goal with |- context [saveDB e ?s ?d] =>
    pose proof (saveDB_ok e s d H) as Hs; destruct (saveDB e s d) as [b s'] end.
  cbn [snd] in *. apply Hs. destruct H as [Hst Hft].
  split; cbn [Db.items Db.stats].
  - rewrite Hst. unfold recount.
    rewrite (removeAt_length _ _ _ Hx), !(countIf_removeAt _ _ _ _ Hx),
      (sumSizes_removeAt _ _ _ Hx).
    unfold hasFile, fileSize, isType.
    destruct (Item.file x); destruct (String.eqb (Item.type x) "link");
      cbn [Stats.totalItems Stats.totalFiles Stats.totalLinks Stats.totalSize];
      rewrite ?orZero_id; f_equal; lia.
  - apply filesTyped_removeAt, Hft.
Qed.

Lemma free_getHandler_ok (e : Env.t) (id : string) (store : option Db.t) :
  storeOk store -> storeOk (snd (Free.getHandler e id store)).
Proof.
  intros H. unfold Free.getHandler. destruct store as [db|]; [|exact I].
  unfold loadDB; cbv beta iota.
  destruct (find (hasId id) (Db.items db)) as [x|]; [|exact H].
  match goal with |- context [saveDB e ?s ?d] =>
    pose proof (saveDB_ok e s d H) as Hs; destruct (saveDB e s d) as [b s'] end.
  cbn [snd] in *. apply Hs. destruct H as [Hst Hft].
  split; cbn [Db.items Db.stats].
  - rewrite recount_mutateFirst; auto.
  - apply filesTyped_mutateFirst; auto.
Qed.

Lemma free_updateHandler_ok (e : Env.t) (id : string) (p : Patch.t)
  (store : option Db.t) :
  storeOk store -> storeOk (snd (Free.updateHandler e id p store)).
Proof.
  intros H. unfold Free.updateHandler. destruct store as [db|]; [|exact I].
  unfold loadDB; cbv beta iota.
  destruct (findIndex (hasId id) (Db.items db)) as [k|] eqn:Hk; [|exact H].
  destruct (findIndex_nth _ _ _ Hk) as [x [Hx _]]. rewrite Hx.
  match goal with |- context [saveDB e ?s ?d] =>
    pose proof (saveDB_ok e s d H) as Hs; destruct (saveDB e s d) as [b s'] end.
  cbn [snd] in *. apply Hs. destruct H as [Hst Hft].
  split; cbn [Db.items Db.stats].
  - rewrite (recount_setAt _ _ _ _ Hx);
      auto using free_applyPatch_file, free_applyPatch_type.
  - apply (filesTyped_setAt _ _ _ _ Hx);
      auto using free_applyPatch_file, free_applyPatch_type.
Qed.

Lemma freeStep_ok (e : Env.t) (r : Request) (store : option Db.t) :
  storeOk store -> storeOk (snd (freeStep e r store)).
Proof.
  destruct r; cbn [freeStep];
    auto using free_createHandler_ok, free_uploadHandler_ok,
      free_deleteHandler_ok, free_getHandler_ok, free_updateHandler_ok.
Qed.

Lemma freeRun_ok (rs : list (Env.t * Request)) :
  forall store, storeOk store -> storeOk (freeRun rs store).
Proof.
  induction rs as [|[e r] rs IH]; intros store H; cbn [freeRun]; auto.
  apply IH, freeStep_ok, H.
Qed.

(** X1: the Render-Free routes keep the counters equal to the scan of
    the stored items over any sequence of create, upload, delete, read
    and update requests, started with no library document at all or
    with the empty one, whatever the writes do. *)
Theorem free_counters_match_scan (rs : list (Env.t * Request)) (now : Z) :
  storeOk (freeRun rs None)
  /\ storeOk (freeRun rs (Some (initLibrary now))).
Proof.
  split; apply freeRun_ok; [exact I|].
  split; [reflexivity|constructor].
Qed.

(** ** A missing or unreadable library document *)

Lemma findIndex_in_range {A : Type} (p : A -> bool) (l : list A) (k : nat) :
  findIndex p l = Some k -> nth_error l k <> None.
Proof.
  intros H. destruct (findIndex_nth _ _ _ H) as [x [Hx _]]. congruence.
Qed.

(** X2: with the library document missing or unreadable, the Render
    routes that write throw on every request that passes their
    validation (a create with a title, an upload with a file, any
    update or delete) and leave the document missing, a single-item
    read answers 404, the list answers 500 and the search an empty
    result.  The Render-Free routes never throw, whatever the
    document, except for an upload whose tags arrived as an array. *)
Theorem missing_document_behaviour (e : Env.t) (r : Request)
  (store : option Db.t) (collate : string -> string -> Z) (q : Query.t)
  (search : string) :
  (wellFormed r = true ->
   step e r None
   = match r with
     | GetItem _ => (Json 404 (ErrorBody "Item not found"), None)
     | _ => (Uncaught, None)
     end)
  /\ listHandler collate q None = Json 500 (ErrorBody "Database error")
  /\ (search <> EmptyString ->
      searchHandler (Some search) None
      = Json 200 (SearchBody [] 0 (Some search)))
  /\ (arrayTags r = false -> fst (freeStep e r store) <> Uncaught).
Proof.
  split; [|split; [|split]].
  - destruct r as [body|[f|] body|id|id|id p]; cbn [wellFormed step];
      try discriminate; intros Hw; try reflexivity.
    unfold createHandler. now rewrite Hw.
  - reflexivity.
  - intros Hs. unfold searchHandler. apply String.eqb_neq in Hs.
    now rewrite Hs.
  - destruct r as [body|[f|] body|id|id|id p]; cbn [arrayTags freeStep];
      intros Ha.
    + unfold Free.createHandler, saveDB.
      destruct (negb _); [discriminate|].
      destruct (Env.write_ok e); discriminate.
    + unfold Free.uploadHandler, saveDB.
      destruct (UploadBody.tags body) as [[t|l]|]; try discriminate;
        [destruct (String.eqb t EmptyString)|];
        destruct (Env.write_ok e); discriminate.
    + discriminate.
    + unfold Free.deleteHandler, loadDB, saveDB.
      destruct store as [db|]; [|discriminate].
      destruct (findIndex (hasId id) (Db.items db)) as [k|] eqn:Hk;
        [|discriminate].
      destruct (nth_error (Db.items db) k) eqn:Hn;
        [destruct (Env.write_ok e); discriminate|].
      now apply findIndex_in_range in Hk.
    + unfold Free.getHandler, loadDB, saveDB.
      destruct store as [db|]; [|discriminate].
      destruct (find (hasId id) (Db.items db)); [|discriminate].
      destruct (Env.write_ok e); discriminate.
    + unfold Free.updateHandler, loadDB, saveDB.
      destruct store as [db|]; [|discriminate].
      destruct (findIndex (hasId id) (Db.items db)) as [k|] eqn:Hk;
        [|discriminate].
      destruct (nth_error (Db.items db) k) eqn:Hn;
        [destruct (Env.write_ok e); discriminate|].
      now apply findIndex_in_range in Hk.
Qed.

Lemma missing_document_behaviour_witness :
  wellFormed (Create (noteBody "Report A" None)) = true
  /\ step sampleEnv (Create (noteBody "Report A" None)) None = (Uncaught, None)
  /\ "ukraine" <> EmptyString
  /\ searchHandler (Some "ukraine") None
     = Json 200 (SearchBody [] 0 (Some "ukraine"))
  /\ arrayTags (Create (noteBody "Report A" None)) = false
  /\ fst (freeStep sampleEnv (Create (noteBody "Report A" None)) None)
     <> Uncaught.
Proof.
  pose proof (missing_document_behaviour sampleEnv
                (Create (noteBody "Report A" None)) None ordinalCompare
                noQuery "ukraine") as [H1 [_ [H3 H4]]].
  split; [reflexivity|]. split; [exact (H1 eq_refl)|].
  split; [discriminate|]. split; [apply H3; discriminate|].
  split; [reflexivity|exact (H4 eq_refl)].
Defined.

(** ** Delete, read and unknown ids *)

Lemma find_split {A : Type} (p : A -> bool) (l : list A) :
  forall x, find p l = Some x ->
  exists l1 l2, l = l1 ++ x :: l2
    /\ Forall (fun y => p y = false) l1
    /\ p x = true
    /\ findIndex p l = Some (List.length l1).
Proof.
  induction l as [|y l IH]; intros x H; cbn [find] in H; [discriminate|].
  destruct (p y) eqn:Hy.
  - injection H as ->. exists [], l. cbn [findIndex]. rewrite Hy.
    repeat split. constructor.
  - destruct (IH x H) as [l1 [l2 [-> [Hall [Hx Hk]]]]].
    exists (y :: l1), l2. cbn [findIndex]. rewrite Hy, Hk.
    repeat split; auto.
Qed.

Lemma nth_error_middle {A : Type} (l1 l2 : list A) (x : A) :
  nth_error (l1 ++ x :: l2) (List.length l1) = Some x.
Proof. induction l1 as [|y l1 IH]; cbn; auto. Qed.

Lemma removeAt_middle {A : Type} (l1 l2 : list A) (x : A) :
  removeAt (List.length l1) (l1 ++ x :: l2) = l1 ++ l2.
Proof. induction l1 as [|y l1 IH]; cbn; [reflexivity|]. now rewrite IH. Qed.

Lemma mutateFirst_middle {A : Type} (p : A -> bool) (f : A -> A)
  (l1 l2 : list A) (x : A) :
  Forall (fun y => p y = false) l1 -> p x = true ->
  mutateFirst p f (l1 ++ x :: l2) = l1 ++ f x :: l2.
Proof.
  intros Hall Hx. induction Hall as [|y l1 Hy _ IH]; cbn [app mutateFirst].
  - now rewrite Hx.
  - now rewrite Hy, IH.
Qed.

Lemma find_none_findIndex {A : Type} (p : A -> bool) (l : list A) :
  find p l = None -> findIndex p l = None.
Proof.
  induction l as [|y l IH]; cbn [find findIndex]; [reflexivity|].
  destruct (p y); [discriminate|]. intros H. now rewrite (IH H).
Qed.

Lemma hasId_true (id : string) (x : Item.t) :
  hasId id x = true <-> Item.id x = id.
Proof. unfold hasId. apply String.eqb_eq. Qed.

Lemma hasId_false (id : string) (x : Item.t) :
  hasId id x = false <-> Item.id x <> id.
Proof. unfold hasId. apply String.eqb_neq. Qed.

(** What the three routes by id do when no item has the id. *)
Lemma unknown_id (e : Env.t) (id : string) (p : Patch.t) (db : Db.t) :
  lookup id (Some db) = None ->
  getHandler e id (Some db)
  = (Json 404 (ErrorBody "Item not found"), Some db)
  /\ updateHandler e id p (Some db)
     = (Json 404 (ErrorBody "Item not found"), Some db)
  /\ deleteHandler e id (Some db)
     = (Json 404 (ErrorBody "Item not found"), Some db).
Proof.
  cbn [lookup]. intros H. pose proof (find_none_findIndex _ _ H) as Hk.
  unfold getHandler, updateHandler, deleteHandler, loadDB.
  now rewrite H, Hk.
Qed.

(** X3: a delete of a stored id acts on the first item with that id,
    before which no item has the id.  When that item has a [file]
    sub-record whose blob exists and [fs.unlinkSync] throws on it, the
    request ends uncaught and the document is as it was.  Otherwise the
    route answers with success; when the write goes through, the
    document then holds the items before and the items after that one,
    in their order, and nothing else; when the write fails, the
    document is as it was. *)
Theorem delete_removes_first_match (e : Env.t) (id : string) (db : Db.t)
  (item : Item.t) :
  lookup id (Some db) = Some item ->
  exists before after,
    Db.items db = before ++ item :: after
    /\ Forall (fun x => Item.id x <> id) before
    /\ Item.id item = id
    /\ (unlinkThrows e item = true ->
        deleteHandler e id (Some db) = (Uncaught, Some db))
    /\ (unlinkThrows e item = false -> Env.write_ok e = true ->
        exists db',
          deleteHandler e id (Some db) = (Json 200 Success, Some db')
          /\ Db.items db' = before ++ after)
    /\ (unlinkThrows e item = false -> Env.write_ok e = false ->
        deleteHandler e id (Some db) = (Json 200 Success, Some db)).
Proof.
  cbn [lookup]. intros Hf.
  destruct (find_split _ _ _ Hf) as [l1 [l2 [Hl [Hall [Hx Hk]]]]].
  exists l1, l2. split; [exact Hl|].
  split; [eapply Forall_impl; [|exact Hall]; intros x; apply hasId_false|].
  split; [now apply hasId_true|].
  unfold deleteHandler, loadDB, saveDB. rewrite Hk, Hl, nth_error_middle.
  split; [|split].
  - intros Hu. now rewrite Hu.
  - intros Hu Hw. rewrite Hu, Hw. eexists. split; [reflexivity|].
    cbn [Db.items]. apply removeAt_middle.
  - intros Hu Hw. now rewrite Hu, Hw.
Qed.

Lemma delete_removes_first_match_witness :
  lookup "c3" (Some sampleCatalog) = Some sampleUpload
  /\ unlinkThrows stuckEnv sampleUpload = true
  /\ deleteHandler stuckEnv "c3" (Some sampleCatalog)
     = (Uncaught, Some sampleCatalog)
  /\ unlinkThrows sampleEnv sampleUpload = false
  /\ Env.write_ok sampleEnv = true
  /\ exists db',
       deleteHandler sampleEnv "c3" (Some sampleCatalog)
       = (Json 200 Success, Some db')
       /\ Db.items db' = [sampleLink; sampleNote].
Proof.
  split; [reflexivity|]. split; [reflexivity|].
  destruct (delete_removes_first_match stuckEnv "c3" sampleCatalog
              sampleUpload eq_refl)
    as [b1 [a1 [_ [_ [_ [Hthrow _]]]]]].
  split; [exact (Hthrow eq_refl)|].
  split; [reflexivity|]. split; [reflexivity|].
  eexists. split; reflexivity.
Defined.

Lemma filter_middle_one {A : Type} (p : A -> bool) (l1 l2 : list A) (x : A) :
  Forall (fun y => p y = false) l1 -> p x = true ->
  List.length (filter p (l1 ++ x :: l2)) = 1%nat ->
  find p (l1 ++ l2) = None.
Proof.
  intros Hall Hx Hone. rewrite filter_app in Hone. cbn [filter] in Hone.
  rewrite Hx, length_app in Hone. cbn [List.length] in Hone.
  assert (H2 : filter p l2 = []).
  { destruct (filter p l2); [reflexivity|cbn in Hone; lia]. }
  clear Hone. induction Hall as [|y l1 Hy _ IH]; cbn [app find].
  - destruct (find p l2) as [z|] eqn:Hz; [|reflexivity].
    apply find_some in Hz. destruct Hz as [Hin Hp].
    assert (Hzin : In z (filter p l2)) by (apply filter_In; auto).
    rewrite H2 in Hzin. destruct Hzin.
  - now rewrite Hy.
Qed.

(** X4: when exactly one stored item has the id, [fs.unlinkSync] does
    not throw on its blob and the write goes through, a delete of the
    id answers with success, and afterwards a read, an update and a
    second delete of the id all answer 404 and leave the document as
    the delete left it.  When [fs.unlinkSync] throws on the blob, the
    delete ends uncaught and a read of the id still finds the item. *)
Theorem deleted_id_is_gone (e e' : Env.t) (id : string) (p : Patch.t)
  (db : Db.t) :
  List.length (filter (hasId id) (Db.items db)) = 1%nat ->
  exists item,
    lookup id (Some db) = Some item
    /\ (unlinkThrows e item = false -> Env.write_ok e = true ->
        exists db',
          deleteHandler e id (Some db) = (Json 200 Success, Some db')
          /\ getHandler e' id (Some db')
             = (Json 404 (ErrorBody "Item not found"), Some db')
          /\ updateHandler e' id p (Some db')
             = (Json 404 (ErrorBody "Item not found"), Some db')
          /\ deleteHandler e' id (Some db')
             = (Json 404 (ErrorBody "Item not found"), Some db'))
    /\ (unlinkThrows e item = true ->
        deleteHandler e id (Some db) = (Uncaught, Some db)
        /\ fst (getHandler e' id (snd (deleteHandler e id (Some db))))
           = Json 200 (ItemBody (bumpViews item))).
Proof.
  intros Hone.
  destruct (find (hasId id) (Db.items db)) as [item|] eqn:Hf.
  - exists item. split; [exact Hf|].
    destruct (find_split _ _ _ Hf) as [l1 [l2 [Hl [Hall [Hx Hk]]]]].
    split.
    + intros Hu Hw.
      eexists. unfold deleteHandler at 1. unfold loadDB, saveDB.
      rewrite Hk, Hl, nth_error_middle, Hu, Hw. split; [reflexivity|].
      apply unknown_id. cbn [lookup Db.items]. rewrite removeAt_middle.
      rewrite Hl in Hone. now apply (filter_middle_one _ _ _ item).
    + intros Hu.
      assert (Hd : deleteHandler e id (Some db) = (Uncaught, Some db)).
      { unfold deleteHandler, loadDB.
        now rewrite Hk, Hl, nth_error_middle, Hu. }
      split; [exact Hd|]. rewrite Hd. cbn [snd].
      exact (proj1 (getHandler_found e' id (Some db) item Hf)).
  - exfalso. assert (Hnil : filter (hasId id) (Db.items db) = []).
    { destruct (filter (hasId id) (Db.items db)) as [|z l] eqn:E;
        [reflexivity|].
      assert (Hz : In z (filter (hasId id) (Db.items db)))
        by (rewrite E; now left).
      apply filter_In in Hz. destruct Hz as [Hin Hp].
      now pose proof (find_none _ _ Hf z Hin) as Hc; congruence. }
    rewrite Hnil in Hone. discriminate.
Qed.

Lemma deleted_id_is_gone_witness :
  List.length (filter (hasId "c3") (Db.items sampleCatalog)) = 1%nat
  /\ exists item,
       lookup "c3" (Some sampleCatalog) = Some item
       /\ (unlinkThrows sampleEnv item = false ->
           Env.write_ok sampleEnv = true ->
           exists db',
             deleteHandler sampleEnv "c3" (Some sampleCatalog)
             = (Json 200 Success, Some db')
             /\ getHandler laterEnv "c3" (Some db')
                = (Json 404 (ErrorBody "Item not found"), Some db')
             /\ updateHandler laterEnv "c3" (titlePatch "x") (Some db')
                = (Json 404 (ErrorBody "Item not found"), Some db')
             /\ deleteHandler laterEnv "c3" (Some db')
                = (Json 404 (ErrorBody "Item not found"), Some db'))
       /\ (unlinkThrows sampleEnv item = true ->
           deleteHandler sampleEnv "c3" (Some sampleCatalog)
           = (Uncaught, Some sampleCatalog)
           /\ fst (getHandler laterEnv "c3"
                     (snd (deleteHandler sampleEnv "c3"
                             (Some sampleCatalog))))
              = Json 200 (ItemBody (bumpViews item))).
Proof.
  split; [reflexivity|].
  exact (deleted_id_is_gone sampleEnv laterEnv "c3" (titlePatch "x")
           sampleCatalog eq_refl).
Defined.

(** X5: a single-item read of a stored id, when the write goes
    through, changes nothing in the document but the [views] of the
    first item with that id: the other items, their order, the
    counters and [lastUpdated] are as before. *)
Theorem read_touches_views_only (e : Env.t) (id : string) (db : Db.t)
  (item : Item.t) :
  lookup id (Some db) = Some item -> Env.write_ok e = true ->
  exists before after,
    Db.items db = before ++ item :: after
    /\ getHandler e id (Some db)
       = (Json 200 (ItemBody (Item.set_views (Item.views item + 1) item)),
          Some (Db.mk (before
                       ++ Item.set_views (Item.views item + 1) item :: after)
                  (Db.stats db) (Db.lastUpdated db))).
Proof.
  cbn [lookup]. intros Hf Hw.
  destruct (find_split _ _ _ Hf) as [l1 [l2 [Hl [Hall [Hx _]]]]].
  exists l1, l2. split; [exact Hl|].
  unfold getHandler, loadDB, saveDB. rewrite Hf, Hw, Hl.
  rewrite (mutateFirst_middle _ _ _ _ _ Hall Hx).
  unfold bumpViews. now rewrite orZero_id.
Qed.

Lemma read_touches_views_only_witness :
  lookup "c3" (Some sampleCatalog) = Some sampleUpload
  /\ Env.write_ok sampleEnv = true
  /\ exists before after,
       Db.items sampleCatalog = before ++ sampleUpload :: after
       /\ getHandler sampleEnv "c3" (Some sampleCatalog)
          = (Json 200 (ItemBody
               (Item.set_views (Item.views sampleUpload + 1) sampleUpload)),
             Some (Db.mk (before
                          ++ Item.set_views (Item.views sampleUpload + 1)
                               sampleUpload :: after)
                     (Db.stats sampleCatalog) (Db.lastUpdated sampleCatalog))).
Proof.
  split; [reflexivity|]. split; [reflexivity|].
  exact (read_touches_views_only sampleEnv "c3" sampleCatalog sampleUpload
           eq_refl eq_refl).
Defined.

(** ** The query engine: filters, page, search *)

Lemma filterIf_filter (o : option string) (p : string -> Item.t -> bool)
  (items : list Item.t) :
  filterIf o p items = filter (fun it => whenGiven o (fun x => p x it)) items.
Proof.
  unfold filterIf, whenGiven. destruct o as [x|].
  - destruct (String.eqb x EmptyString); [|reflexivity].
    induction items as [|y l IH]; cbn [filter]; congruence.
  - induction items as [|y l IH]; cbn [filter]; congruence.
Qed.

Lemma filter_filter {A : Type} (f g : A -> bool) (l : list A) :
  filter g (filter f l) = filter (fun x => f x && g x) l.
Proof.
  induction l as [|x l IH]; cbn [filter]; [reflexivity|].
  destruct (f x); cbn [filter andb]; [destruct (g x)|]; now rewrite IH.
Qed.

Lemma filterItems_passes (q : Query.t) (items : list Item.t) :
  filterItems q items = filter (passes q) items.
Proof.
  unfold filterItems, passes. rewrite !filterIf_filter, !filter_filter.
  apply filter_ext. intros it. now rewrite !andb_assoc.
Qed.

Lemma whenGiven_spec (o : option string) (p : string -> bool) :
  whenGiven o p = true
  <-> forall x, o = Some x -> x <> EmptyString -> p x = true.
Proof.
  unfold whenGiven. destruct o as [x|].
  - destruct (String.eqb_spec x EmptyString) as [->|Hne].
    + split; [|reflexivity]. intros _ y [= <-] H. now destruct H.
    + split; [intros H y [= <-] _; exact H|]. intros H. now apply H.
  - split; [discriminate|reflexivity].
Qed.

Lemma tagsInclude_spec (o : option (list string)) (tag : string) :
  tagsInclude o tag = true <-> exists ts, o = Some ts /\ In tag ts.
Proof.
  unfold tagsInclude. destruct o as [ts|].
  - rewrite existsb_exists. split.
    + intros [t [Hin Ht]]. apply String.eqb_eq in Ht. subst. now exists ts.
    + intros [ts' [[= <-] Hin]]. exists tag. split; [exact Hin|].
      apply String.eqb_refl.
  - split; [discriminate|]. intros [ts [H _]]. discriminate.
Qed.

(** X6: the filters of the list route are combined by "and", each
    asked for only when its parameter is given and not empty: the
    filter stage keeps, in their stored order, exactly the items that
    match the search string (in title, description, a tag or content,
    whatever the case), are of the category, carry the tag (exactly as
    written) and are of the type. *)
Theorem filters_are_conjoined (q : Query.t) (items : list Item.t) :
  filterItems q items = filter (passes q) items
  /\ forall it,
       In it (filterItems q items)
       <-> In it items
           /\ (forall s, Query.search q = Some s -> s <> EmptyString ->
                         specMatch s it)
           /\ (forall c, Query.category q = Some c -> c <> EmptyString ->
                         Item.category it = c)
           /\ (forall t, Query.tag q = Some t -> t <> EmptyString ->
                         exists ts, Item.tags it = Some ts /\ In t ts)
           /\ (forall t, Query.type q = Some t -> t <> EmptyString ->
                         Item.type it = t).
Proof.
  split; [apply filterItems_passes|]. intros it.
  rewrite filterItems_passes, filter_In. unfold passes.
  rewrite !andb_true_iff, !whenGiven_spec.
  split.
  - intros [Hin [[[Hs Hc] Ht] Hy]]. split; [exact Hin|].
    split; [intros s H1 H2; apply matchesSearch_spec; now apply Hs|].
    split; [intros c H1 H2; apply String.eqb_eq; now apply Hc|].
    split; [intros t H1 H2; apply tagsInclude_spec; now apply Ht|].
    intros t H1 H2. apply String.eqb_eq. now apply Hy.
  - intros [Hin [Hs [Hc [Ht Hy]]]]. split; [exact Hin|].
    repeat split.
    + intros s H1 H2. apply matchesSearch_spec. now apply Hs.
    + intros c H1 H2. apply String.eqb_eq. now apply Hc.
    + intros t H1 H2. apply tagsInclude_spec. now apply Ht.
    + intros t H1 H2. apply String.eqb_eq. now apply Hy.
Qed.

Lemma sortItems_perm (collate : string -> string -> Z) (sort : option string)
  (items : list Item.t) :
  Permutation items (sortItems collate sort items).
Proof.
  unfold sortItems.
  destruct (optEqb sort "oldest"); [|destruct (optEqb sort "title")];
    apply arraySort_perm.
Qed.

Lemma slice_length {A : Type} (l : list A) (start count : Z) :
  0 <= count ->
  Z.of_nat (List.length (slice l start (start + count))) <= count.
Proof.
  intros Hc. unfold slice. rewrite length_firstn.
  set (len := Z.of_nat (List.length l)).
  assert (Hlen : 0 <= len) by (subst len; lia).
  assert (Hd : relativeIndex len (start + count) - relativeIndex len start
               <= count).
  { unfold relativeIndex.
    destruct (Z.ltb_spec (start + count) 0); destruct (Z.ltb_spec start 0);
      lia. }
  lia.
Qed.

(** X7: whatever the query parameters, negative or unparsable ones
    included, the page of the list route is a contiguous run of the
    filtered and sorted sequence, and [total] is the number of stored
    items that pass the filters; when the limit the route reports is
    not negative, the page is never longer than it. *)
Theorem page_is_a_segment (collate : string -> string -> Z) (q : Query.t)
  (db : Db.t) :
  exists page offset limit before after,
    listHandler collate q (Some db)
    = Json 200 (ListBody page
                  (Z.of_nat (List.length (filter (passes q) (Db.items db))))
                  offset limit (Db.stats db))
    /\ sortItems collate (Query.sort q) (filterItems q (Db.items db))
       = before ++ page ++ after
    /\ (0 <= limit -> Z.of_nat (List.length page) <= limit).
Proof.
  unfold listHandler, loadDB.
  set (sorted := sortItems collate (Query.sort q) (filterItems q (Db.items db))).
  set (start := numberOr (parseInt (Query.offset q)) 0).
  set (count := numberOr (parseInt (Query.limit q)) 50).
  destruct (slice_segment sorted start (start + count)) as [b [a Hseg]].
  exists (slice sorted start (start + count)), start, count, b, a.
  split; [|split; [exact Hseg|apply slice_length]].
  do 3 f_equal. subst sorted.
  rewrite <- (Permutation_length (sortItems_perm collate _ _)).
  now rewrite filterItems_passes.
Qed.

(** A negative limit is not an empty page: [slice] counts its end from
    the end of the sequence. *)
Example negative_limit_page :
  listHandler ordinalCompare (pageQuery None (Some "-1") None)
    (Some sampleCatalog)
  = Json 200 (ListBody [sampleLink; sampleUpload] 3 0 (-1)
                (Db.stats sampleCatalog)).
Proof. reflexivity. Qed.

Lemma page_segment_helper (collate : string -> string -> Z) (q : Query.t)
  (db : Db.t) :
  exists page offset limit,
    listHandler collate q (Some db)
    = Json 200 (ListBody page
                  (Z.of_nat (List.length (filter (passes q) (Db.items db))))
                  offset limit (Db.stats db))
    /\ forall it, In it page -> In it (filter (passes q) (Db.items db)).
Proof.
  unfold listHandler, loadDB. do 3 eexists. split.
  - do 3 f_equal.
    rewrite <- (Permutation_length (sortItems_perm collate _ _)).
    now rewrite filterItems_passes.
  - intros it H. apply slice_incl in H.
    apply (Permutation_in _ (Permutation_sym (sortItems_perm collate _ _)))
      in H.
    now rewrite filterItems_passes in H.
Qed.

Lemma filter_length_le {A : Type} (f g : A -> bool) (l : list A) :
  (forall x, f x = true -> g x = true) ->
  (List.length (filter f l) <= List.length (filter g l))%nat.
Proof.
  intros H. induction l as [|x l IH]; cbn [filter]; [lia|].
  destruct (f x) eqn:Hf.
  - rewrite (H x Hf). cbn [List.length]. lia.
  - destruct (g x); cbn [List.length]; lia.
Qed.

(** X8: for the same non-empty string, and whatever further filters
    the list query carries, the search route counts at least as many
    matches as the list route: every item the list filter keeps is
    also a match of the search route, which looks at the text preview
    as well. *)
Theorem search_finds_no_less (collate : string -> string -> Z) (q : Query.t)
  (s : string) (db : Db.t) :
  Query.search q = Some s -> s <> EmptyString ->
  exists page total offset limit found total',
    listHandler collate q (Some db)
    = Json 200 (ListBody page total offset limit (Db.stats db))
    /\ searchHandler (Some s) (Some db)
       = Json 200 (SearchBody found total' (Some s))
    /\ total <= total'
    /\ forall it, In it page ->
                  In it (filter (matchesQuery (toLowerCase s)) (Db.items db)).
Proof.
  intros Hq Hs.
  destruct (page_segment_helper collate q db) as [page [o [l [Hl Hin]]]].
  unfold searchHandler, loadDB. pose proof Hs as Hs'.
  apply String.eqb_neq in Hs'. rewrite Hs'.
  assert (Hsub : forall x, passes q x = true ->
                           matchesQuery (toLowerCase s) x = true).
  { intros x Hx. unfold passes in Hx. rewrite !andb_true_iff in Hx.
    destruct Hx as [[[Hx _] _] _].
    rewrite whenGiven_spec in Hx. specialize (Hx s Hq Hs).
    unfold matchesQuery. unfold matchesSearch in Hx. now rewrite Hx. }
  do 6 eexists. split; [exact Hl|]. split; [reflexivity|]. split.
  - apply Nat2Z.inj_le. now apply filter_length_le.
  - intros it Hit. apply Hin in Hit. apply filter_In in Hit.
    apply filter_In. destruct Hit. auto.
Qed.

Lemma search_finds_no_less_witness :
  Query.search fullQuery = Some "ukraine"
  /\ "ukraine" <> EmptyString
  /\ exists page total offset limit found total',
       listHandler ordinalCompare fullQuery (Some sampleCatalog)
       = Json 200 (ListBody page total offset limit (Db.stats sampleCatalog))
       /\ searchHandler (Some "ukraine") (Some sampleCatalog)
          = Json 200 (SearchBody found total' (Some "ukraine"))
       /\ total <= total'
       /\ forall it, In it page ->
            In it (filter (matchesQuery (toLowerCase "ukraine"))
                     (Db.items sampleCatalog)).
Proof.
  split; [reflexivity|]. split; [discriminate|].
  exact (search_finds_no_less ordinalCompare fullQuery "ukraine" sampleCatalog
           eq_refl ltac:(discriminate)).
Defined.

(** The sample query with all four filters keeps the one link. *)
Example all_filters_sample :
  listHandler ordinalCompare fullQuery (Some sampleCatalog)
  = Json 200 (ListBody [sampleLink] 1 0 50 (Db.stats sampleCatalog)).
Proof. reflexivity. Qed.

Lemma free_filter_passes (q : Query.t) (items : list Item.t) :
  filterIf (Query.type q)
    (fun type i => String.eqb (Item.type i) type)
    (filterIf (Query.category q)
       (fun category i => String.eqb (Item.category i) category)
       (filterIf (Query.search q)
          (fun search i => includes (toLowerCase (Item.title i))
                             (toLowerCase search)) items))
  = filter (freePasses q) items.
Proof.
  unfold freePasses. rewrite !filterIf_filter, !filter_filter.
  apply filter_ext. intros it. now rewrite !andb_assoc.
Qed.

(** X9: the Render-Free list route answers with every stored item that
    passes its filters (the search string in the title only, the
    category, the type), none cut off by a page, newest first, and
    [total] is their number; the [sort], [limit], [offset] and [tag]
    parameters have no effect. *)
Theorem free_list_is_complete (q : Query.t) (db : Db.t)
  (tag sort limit offset : option string) :
  exists page,
    Free.listHandler q (Some db)
    = FreeListReply page (Z.of_nat (List.length page)) (Some (Db.stats db))
    /\ Permutation (filter (freePasses q) (Db.items db)) page
    /\ StronglySorted createdGe page
    /\ Free.listHandler
         (Query.mk (Query.search q) (Query.category q) tag (Query.type q)
            sort limit offset) (Some db)
       = Free.listHandler q (Some db).
Proof.
  unfold Free.listHandler, loadDB. cbv beta iota zeta.
  cbn [Query.search Query.category Query.type].
  rewrite free_filter_passes. eexists. split; [reflexivity|].
  split; [apply arraySort_perm|]. split; [|reflexivity].
  apply (StronglySorted_impl (fun a b => byNewest a b <= 0)).
  - unfold byNewest, createdGe. intros; lia.
  - apply arraySort_StronglySorted, byNewest_consistent.
Qed.

(** ** Tags *)

Lemma existsb_eqb_In (t : string) (l : list string) :
  existsb (String.eqb t) l = true <-> In t l.
Proof.
  rewrite existsb_exists. split.
  - intros [x [Hin Hx]]. apply String.eqb_eq in Hx. now subst.
  - intros H. exists t. split; [exact H|apply String.eqb_refl].
Qed.

Lemma NoDup_snoc {A : Type} (l : list A) (x : A) :
  NoDup l -> ~ In x l -> NoDup (l ++ [x]).
Proof.
  intros Hl Hx. apply NoDup_app; [exact Hl|repeat constructor; auto|].
  intros y Hy [<-|[]]. contradiction.
Qed.

(** X10: adding a tag is idempotent.  For a tag that is not empty, and
    when the write goes through, the answer lists the stored tags with
    the tag among them: unchanged, and nothing written, when the tag
    was there; with the tag appended at the end when it was not.  A
    list without duplicates stays so, and adding the same tag again
    changes neither the answer nor the document. *)
Theorem addTag_is_idempotent (e e' : Env.t) (t : string)
  (store : option (list string)) :
  t <> EmptyString -> Env.write_ok e = true ->
  exists tags store',
    addTagHandler e (Some t) store = (TagsReply tags, store')
    /\ In t tags
    /\ (In t (storedList store) -> tags = storedList store /\ store' = store)
    /\ (~ In t (storedList store) ->
        tags = storedList store ++ [t] /\ store' = Some tags)
    /\ (NoDup (storedList store) -> NoDup tags)
    /\ addTagHandler e' (Some t) store' = (TagsReply tags, store').
Proof.
  intros Ht Hw. unfold addTagHandler at 1. unfold loadDB, saveDB.
  apply String.eqb_neq in Ht. cbn [truthy orElse]. rewrite Ht.
  cbn [negb andb]. fold (storedList store).
  destruct (existsb (String.eqb t) (storedList store)) eqn:Hex.
  - apply existsb_eqb_In in Hex. cbn [negb].
    exists (storedList store), store. split; [reflexivity|].
    split; [exact Hex|]. split; [auto|]. split; [contradiction|].
    split; [auto|].
    unfold addTagHandler, loadDB. cbn [truthy orElse]. rewrite Ht.
    fold (storedList store).
    apply existsb_eqb_In in Hex. now rewrite Hex.
  - assert (Hnin : ~ In t (storedList store)).
    { intros H. apply existsb_eqb_In in H. congruence. }
    cbn [negb]. rewrite Hw.
    exists (storedList store ++ [t]), (Some (storedList store ++ [t])).
    split; [reflexivity|].
    split; [apply in_or_app; right; now left|].
    split; [contradiction|]. split; [auto|].
    split; [intros Hnd; now apply NoDup_snoc|].
    unfold addTagHandler, loadDB. cbn [truthy orElse]. rewrite Ht.
    assert (Hin : existsb (String.eqb t) (storedList store ++ [t]) = true).
    { apply existsb_eqb_In. apply in_or_app. right. now left. }
    now rewrite Hin.
Qed.

Lemma addTag_is_idempotent_witness :
  "Kyiv" <> EmptyString
  /\ Env.write_ok sampleEnv = true
  /\ exists tags store',
       addTagHandler sampleEnv (Some "Kyiv") (Some defaultTags)
       = (TagsReply tags, store')
       /\ In "Kyiv" tags
       /\ (In "Kyiv" (storedList (Some defaultTags)) ->
           tags = storedList (Some defaultTags) /\ store' = Some defaultTags)
       /\ (~ In "Kyiv" (storedList (Some defaultTags)) ->
           tags = storedList (Some defaultTags) ++ ["Kyiv"]
           /\ store' = Some tags)
       /\ (NoDup (storedList (Some defaultTags)) -> NoDup tags)
       /\ addTagHandler failingEnv (Some "Kyiv") store'
          = (TagsReply tags, store').
Proof.
  split; [discriminate|]. split; [reflexivity|].
  exact (addTag_is_idempotent sampleEnv failingEnv "Kyiv" (Some defaultTags)
           ltac:(discriminate) eq_refl).
Defined.

(** An absent or empty tag is ignored, and nothing is written. *)
Example addTag_empty :
  addTagHandler sampleEnv (Some "") None = (TagsReply [], None)
  /\ addTagHandler sampleEnv None (Some defaultTags)
     = (TagsReply defaultTags, Some defaultTags).
Proof. split; reflexivity. Qed.

(** ** The stats route *)




Section CategoryFold.

Variable count : string -> Z.




End CategoryFold.






(** ** Initialisation, export and import *)

Lemma initIf_present {A : Type} (e : Env.t) (file : option A) (doc d : A) :
  file = Some d -> initIf e file doc = Some d.
Proof. intros ->. reflexivity. Qed.

Lemma initIf_written {A : Type} (e : Env.t) (file : option A) (doc : A) :
  Env.write_ok e = true -> initIf e file doc = Some (match file with
                                                     | Some d => d
                                                     | None => doc
                                                     end).
Proof.
  intros Hw. unfold initIf, loadDB, saveDB. destruct file; [reflexivity|].
  now rewrite Hw.
Qed.

(** X12: [initDatabase] never overwrites a document that is there,
    whatever the writes do.  When its writes go through, all three
    documents are there afterwards, each the one that was there or the
    default; a library it creates is empty with zero counters, so an
    initialised library is consistent when the stored one was; and a
    second run, whatever its writes do, changes nothing. *)
Theorem initDatabase_fills_gaps (e e' : Env.t) (disk : Disk.t) :
  (forall d, Disk.library disk = Some d ->
             Disk.library (initDatabase e disk) = Some d)
  /\ (forall d, Disk.categories disk = Some d ->
                Disk.categories (initDatabase e disk) = Some d)
  /\ (forall d, Disk.tags disk = Some d ->
                Disk.tags (initDatabase e disk) = Some d)
  /\ (Env.write_ok e = true ->
      initDatabase e disk
      = Disk.mk
          (Some (match Disk.library disk with
                 | Some d => d
                 | None => initLibrary (Env.clock e 0)
                 end))
          (Some (match Disk.categories disk with
                 | Some d => d
                 | None => defaultCategories
                 end))
          (Some (match Disk.tags disk with
                 | Some d => d
                 | None => defaultTags
                 end))
      /\ (storeOk (Disk.library disk) ->
          storeOk (Disk.library (initDatabase e disk)))
      /\ initDatabase e' (initDatabase e disk) = initDatabase e disk).
Proof.
  split; [|split; [|split]];
    try (intros d H; unfold initDatabase; cbn [Disk.library Disk.categories
           Disk.tags]; now apply initIf_present).
  intros Hw.
  assert (Heq : initDatabase e disk
      = Disk.mk
          (Some (match Disk.library disk with
                 | Some d => d
                 | None => initLibrary (Env.clock e 0)
                 end))
          (Some (match Disk.categories disk with
                 | Some d => d
                 | None => defaultCategories
                 end))
          (Some (match Disk.tags disk with
                 | Some d => d
                 | None => defaultTags
                 end))).
  { unfold initDatabase. now rewrite !initIf_written. }
  split; [exact Heq|]. split.
  - rewrite Heq. cbn [Disk.library storeOk].
    destruct (Disk.library disk); [auto|].
    intros _. split; [reflexivity|constructor].
  - rewrite Heq. reflexivity.
Qed.

Lemma initDatabase_fills_gaps_witness :
  Env.write_ok sampleEnv = true
  /\ initDatabase sampleEnv (Disk.mk None None (Some ["Kyiv"]))
     = Disk.mk (Some (initLibrary (Env.clock sampleEnv 0)))
         (Some defaultCategories) (Some ["Kyiv"])
  /\ initDatabase failingEnv
       (initDatabase sampleEnv (Disk.mk None None (Some ["Kyiv"])))
     = initDatabase sampleEnv (Disk.mk None None (Some ["Kyiv"])).
Proof.
  split; [reflexivity|].
  destruct (proj2 (proj2 (proj2
    (initDatabase_fills_gaps sampleEnv failingEnv
       (Disk.mk None None (Some ["Kyiv"]))))) eq_refl) as [H1 [_ H3]].
  split; [exact H1|exact H3].
Defined.

Lemma saveIf_written {A : Type} (e : Env.t) (doc file : option A) :
  Env.write_ok e = true -> saveIf e doc file = orDoc doc file.
Proof.
  intros Hw. unfold saveIf, saveDB, orDoc. destruct doc; [|reflexivity].
  now rewrite Hw.
Qed.

Lemma saveIf_same {A : Type} (e : Env.t) (file : option A) :
  saveIf e file file = file.
Proof.
  unfold saveIf, saveDB. destruct file; [|reflexivity].
  now destruct (Env.write_ok e).
Qed.

(** X13: an import of what an export answered restores the exported
    documents.  When the writes go through, each document of the
    target becomes the exported one, or stays as it is when the export
    had none (an import cannot remove a document); so an export taken
    with all three documents in place is restored exactly, whatever
    the target held.  Importing an export into the disk it was taken
    from changes nothing, whatever the writes do. *)
Theorem import_restores_export (e e' : Env.t) (disk target : Disk.t) :
  (Env.write_ok e' = true ->
   importHandler e' (exportedBody (exportHandler e disk)) target
   = (Json 200 Success,
      Disk.mk (orDoc (Disk.library disk) (Disk.library target))
        (orDoc (Disk.categories disk) (Disk.categories target))
        (orDoc (Disk.tags disk) (Disk.tags target))))
  /\ (Env.write_ok e' = true ->
      isSome (Disk.library disk) && isSome (Disk.categories disk)
        && isSome (Disk.tags disk) = true ->
      importHandler e' (exportedBody (exportHandler e disk)) target
      = (Json 200 Success, disk))
  /\ importHandler e' (exportedBody (exportHandler e disk)) disk
     = (Json 200 Success, disk).
Proof.
  unfold importHandler, exportHandler, exportedBody, loadDB.
  cbn [Disk.library Disk.categories Disk.tags].
  split; [|split].
  - intros Hw. now rewrite !saveIf_written.
  - intros Hw Hall. rewrite !saveIf_written by exact Hw.
    destruct disk as [[l|] [c|] [t|]]; try discriminate. reflexivity.
  - rewrite !saveIf_same. now destruct disk.
Qed.

Lemma import_restores_export_witness :
  Env.write_ok sampleEnv = true
  /\ isSome (Disk.library catalogDisk) && isSome (Disk.categories catalogDisk)
       && isSome (Disk.tags catalogDisk) = true
  /\ importHandler sampleEnv (exportedBody (exportHandler laterEnv catalogDisk))
       sampleDisk
     = (Json 200 Success, catalogDisk).
Proof.
  split; [reflexivity|]. split; [reflexivity|].
  exact (proj1 (proj2 (import_restores_export laterEnv sampleEnv catalogDisk
                         sampleDisk)) eq_refl eq_refl).
Defined.

(** ** Slugs and storage names as normal forms *)

Lemma mapString_ext (f g : ascii -> ascii) (s : string) :
  (forall c, f c = g c) -> mapString f s = mapString g s.
Proof.
  intros H. induction s as [|c s IH]; cbn [mapString]; [reflexivity|].
  now rewrite H, IH.
Qed.

Lemma mapString_fixed (f : ascii -> ascii) (s : string) :
  mapString f s = s <-> Forall (fun c => f c = c) (chars s).
Proof.
  unfold chars. induction s as [|c s IH];
    cbn [mapString list_ascii_of_string].
  - split; [constructor|reflexivity].
  - split.
    + intros [= H1 H2]. constructor; [exact H1|now apply IH].
    + intros H. inversion H as [|? ? H1 H2]; subst.
      rewrite H1. f_equal. now apply IH.
Qed.

Lemma slugChar_facts (c : ascii) :
  slugClass (slugChar c) = true
  /\ slugChar (slugChar c) = slugChar c
  /\ slugChar (toLowerChar c) = slugChar c.
Proof.
  destruct c as [[] [] [] [] [] [] [] []]; vm_compute; repeat split.
Qed.

Lemma slugChar_latin1 (c : ascii) :
  (let c' := toLowerLatin1 c in
   if isLower c' || isDigit c' then c' else "-"%char) = slugChar c.
Proof.
  destruct c as [[] [] [] [] [] [] [] []]; vm_compute; reflexivity.
Qed.

(** X14: the slug of a category name is a normal form: it has only
    characters of [[a-z0-9-]]; taking the slug of a slug gives it
    back; and names that differ only in case have the same slug, so
    they get the same category id.  It is the same slug when the
    lowercasing moves the Latin-1 capitals as well.  For a name of
    ASCII characters it has the length of the name. *)
Theorem slug_is_a_normal_form (name : string) :
  Forall (fun c => slugClass c = true) (chars (slug name))
  /\ slug (slug name) = slug name
  /\ slug (toLowerCase name) = slug name
  /\ slug name = slugLatin1 name
  /\ (Forall (fun c => isAscii c = true) (chars name) ->
      String.length (slug name) = String.length name).
Proof.
  unfold slugLatin1. rewrite !slug_slugSpec.
  change slugSpec with (mapString slugChar).
  split; [|split; [|split; [|split]]].
  - rewrite chars_mapString. apply Forall_map, Forall_forall.
    intros c _. apply slugChar_facts.
  - rewrite mapString_mapString. apply mapString_ext.
    intros c. apply slugChar_facts.
  - unfold toLowerCase. rewrite mapString_mapString. apply mapString_ext.
    intros c. apply slugChar_facts.
  - rewrite mapString_mapString. apply mapString_ext.
    intros c. symmetry. apply slugChar_latin1.
  - intros _. apply mapString_length.
Qed.

Lemma slug_is_a_normal_form_witness :
  Forall (fun c => isAscii c = true) (chars "Maps & Plans")
  /\ slug "Maps & Plans" = "maps---plans"
  /\ String.length (slug "Maps & Plans") = String.length "Maps & Plans".
Proof.
  assert (H : Forall (fun c => isAscii c = true) (chars "Maps & Plans"))
    by (repeat constructor).
  split; [exact H|]. split; [reflexivity|].
  exact (proj2 (proj2 (proj2 (proj2
           (slug_is_a_normal_form "Maps & Plans")))) H).
Defined.

(** A name with a Latin-1 letter: one code unit, one hyphen. *)
Example slug_militaer :
  String.length militaer = 7%nat /\ slug militaer = "milit-r".
Proof. split; reflexivity. Qed.

Lemma safeChar_kept (c : ascii) :
  let c' := if safeChar c then c else "_"%char in
  keptChar c' = true
  /\ (if safeChar c' then c' else "_"%char) = c'
  /\ (c' = c <-> keptChar c = true).
Proof.
  destruct c as [[] [] [] [] [] [] [] []]; vm_compute;
    repeat split; congruence.
Qed.

(** X15: sanitising an upload's name is a normal form too: the result
    has the length of the name and only characters of
    [[A-Za-z0-9._-]]; sanitising it again changes nothing; and a name
    is kept exactly as it is if and only if all its characters are of
    that class. *)
Theorem safeName_is_a_normal_form (originalname : string) :
  String.length (safeName originalname) = String.length originalname
  /\ Forall (fun c => keptChar c = true) (chars (safeName originalname))
  /\ safeName (safeName originalname) = safeName originalname
  /\ (safeName originalname = originalname
      <-> Forall (fun c => keptChar c = true) (chars originalname)).
Proof.
  unfold safeName. split; [apply mapString_length|]. split; [|split].
  - rewrite chars_mapString. apply Forall_map, Forall_forall.
    intros c _. apply (safeChar_kept c).
  - rewrite mapString_mapString. apply mapString_ext.
    intros c. apply (safeChar_kept c).
  - rewrite mapString_fixed. split; intros H;
      (eapply Forall_impl; [|exact H]); intros c Hc;
      now apply (safeChar_kept c).
Qed.

(** ** The tags of an upload *)

Lemma split_nonempty (sep : ascii) (s : string) : split sep s <> [].
Proof.
  destruct s as [|c s]; cbn [split]; [discriminate|].
  destruct (Ascii.eqb c sep); [discriminate|].
  destruct (split sep s); discriminate.
Qed.

Lemma split_concat (sep : ascii) (s : string) :
  String.concat (String sep EmptyString) (split sep s) = s.
Proof.
  induction s as [|c s IH]; cbn [split]; [reflexivity|].
  destruct (Ascii.eqb_spec c sep) as [->|Hne].
  - cbn [String.concat]. destruct (split sep s) as [|p ps] eqn:E.
    + now destruct (split_nonempty sep s).
    + cbn [append]. now rewrite IH.
  - destruct (split sep s) as [|p ps] eqn:E.
    + now destruct (split_nonempty sep s).
    + cbn [String.concat] in *. destruct ps; cbn [append]; now rewrite <- IH.
Qed.

Lemma split_length (sep : ascii) (s : string) :
  List.length (split sep s) = S (countChar sep s).
Proof.
  unfold countChar, chars.
  induction s as [|c s IH]; cbn [split list_ascii_of_string filter];
    [reflexivity|].
  rewrite (Ascii.eqb_sym sep c).
  destruct (Ascii.eqb c sep); cbn [List.length]; [now rewrite IH|].
  destruct (split sep s) as [|p ps]; cbn [List.length] in *;
    [discriminate|exact IH].
Qed.

Lemma split_pieces (sep : ascii) (s : string) :
  Forall (fun p => ~ In sep (chars p)) (split sep s).
Proof.
  unfold chars. induction s as [|c s IH]; cbn [split].
  - repeat constructor. intros [].
  - destruct (Ascii.eqb_spec c sep) as [->|Hne].
    + constructor; [intros []|exact IH].
    + destruct (split sep s) as [|p ps]; inversion IH; subst;
        constructor; auto; cbn [list_ascii_of_string In]; intuition.
Qed.

Lemma trimStart_chars (s : string) (c : ascii) :
  In c (chars (trimStart s)) -> In c (chars s).
Proof.
  unfold chars. induction s as [|d s IH]; cbn [trimStart]; [auto|].
  destruct (isSpace d); cbn [list_ascii_of_string In]; auto.
Qed.

Lemma trimEnd_chars (s : string) (c : ascii) :
  In c (chars (trimEnd s)) -> In c (chars s).
Proof.
  unfold chars. induction s as [|d s IH]; cbn [trimEnd]; [auto|].
  destruct (trimEnd s) as [|d' r] eqn:E.
  - destruct (isSpace d); cbn [list_ascii_of_string In]; intuition.
  - cbn [list_ascii_of_string In] in *. intuition.
Qed.

Lemma trimStart_head (s : string) : startsWithSpace (trimStart s) = false.
Proof.
  induction s as [|d s IH]; cbn [trimStart startsWithSpace]; [reflexivity|].
  destruct (isSpace d) eqn:E; [exact IH|]. cbn [startsWithSpace]. exact E.
Qed.

Lemma trimEnd_head (s : string) :
  startsWithSpace s = false -> startsWithSpace (trimEnd s) = false.
Proof.
  destruct s as [|d s]; cbn [trimEnd startsWithSpace]; [auto|].
  intros H. destruct (trimEnd s); [rewrite H|]; cbn [startsWithSpace]; auto.
Qed.

Lemma trimEnd_last (s : string) : endsWithSpace (trimEnd s) = false.
Proof.
  induction s as [|d s IH]; cbn [trimEnd endsWithSpace]; [reflexivity|].
  destruct (trimEnd s) as [|d' r] eqn:E.
  - destruct (isSpace d) eqn:Ed; cbn [endsWithSpace]; auto.
  - cbn [endsWithSpace]. exact IH.
Qed.

Lemma trim_clean (p : string) :
  ~ In ","%char (chars p) -> cleanTag (trim p).
Proof.
  intros H. unfold cleanTag, trim. split; [|split].
  - intros Hin. apply H. now apply trimStart_chars, trimEnd_chars.
  - apply trimEnd_head, trimStart_head.
  - apply trimEnd_last.
Qed.

(** X16: when the [tags] field of an upload is a non-empty string, the
    stored tags are the pieces between its commas, each with the white
    space at its ends removed: there is one tag more than there are
    commas (empty pieces are kept as empty tags), joining the pieces
    with commas gives the string back, and no stored tag holds a comma
    or starts or ends with white space. *)
Theorem upload_tags_of_a_string (s : string) :
  s <> EmptyString ->
  exists pieces,
    String.concat "," pieces = s
    /\ uploadTags (Some (inl s)) = map trim pieces
    /\ List.length (uploadTags (Some (inl s))) = S (countChar ","%char s)
    /\ Forall cleanTag (uploadTags (Some (inl s))).
Proof.
  intros Hs. exists (split ","%char s). unfold uploadTags.
  apply String.eqb_neq in Hs. rewrite Hs.
  split; [apply split_concat|]. split; [reflexivity|].
  split; [now rewrite length_map, split_length|].
  apply Forall_map. eapply Forall_impl; [|apply split_pieces].
  intros p. apply trim_clean.
Qed.

Lemma upload_tags_of_a_string_witness :
  " Kyiv, , front line" <> EmptyString
  /\ exists pieces,
       String.concat "," pieces = " Kyiv, , front line"
       /\ uploadTags (Some (inl " Kyiv, , front line")) = map trim pieces
       /\ List.length (uploadTags (Some (inl " Kyiv, , front line")))
          = S (countChar ","%char " Kyiv, , front line")
       /\ Forall cleanTag (uploadTags (Some (inl " Kyiv, , front line"))).
Proof.
  split; [discriminate|].
  exact (upload_tags_of_a_string " Kyiv, , front line" ltac:(discriminate)).
Defined.

Example upload_tags_sample :
  uploadTags (Some (inl " Kyiv, , front line")) = ["Kyiv"; ""; "front line"].
Proof. reflexivity. Qed.

(** ** The text preview and the file filter *)

Lemma substring0_prefix (n : nat) (s : string) :
  exists rest,
    s = (substring0 n s ++ rest)%string
    /\ String.length (substring0 n s) = Nat.min n (String.length s).
Proof.
  unfold substring0. revert s.
  induction n as [|n IH]; intros [|c s]; cbn [String.substring String.length].
  - now exists EmptyString.
  - now exists (String c s).
  - now exists EmptyString.
  - destruct (IH s) as [rest [H1 H2]]. exists rest.
    cbn [append Nat.min]. split; [now rewrite <- H1|now rewrite H2].
Qed.

(** X17: the text preview an upload is stored with is what
    [extractTextPreview] gives for the stored blob: it is there only
    when the declared type starts with [text/] or contains [json] and
    the blob could be read, it is then the first 500 characters of the
    blob (the whole blob when that is shorter), and a blob that cannot
    be read leaves the upload without a preview but does not fail
    it. *)
Theorem preview_is_a_prefix (e : Env.t) (f : File.t) (body : UploadBody.t)
  (db : Db.t) :
  exists item store',
    uploadHandler e (Some f) body (Some db)
    = (Json 200 (SuccessItem item), store')
    /\ (forall p, Item.textPreview item = Some p ->
          (startsWith (File.mimetype f) "text/" = true
           \/ includes (File.mimetype f) "json" = true)
          /\ exists content rest,
               Env.blob_text e = Some content
               /\ content = (p ++ rest)%string
               /\ String.length p = Nat.min 500 (String.length content))
    /\ (Env.blob_text e = None -> Item.textPreview item = None)
    /\ (startsWith (File.mimetype f) "text/" = false ->
        includes (File.mimetype f) "json" = false ->
        Item.textPreview item = None).
Proof.
  unfold uploadHandler, loadDB.
  destruct (saveDB e (Some db) _) as [b s'] eqn:Hs.
  do 2 eexists. split; [reflexivity|]. cbn [Item.textPreview].
  unfold extractTextPreview.
  destruct (startsWith (File.mimetype f) "text/" || includes (File.mimetype f) "json")
    eqn:Hm.
  - split; [|split].
    + intros p Hp. split; [now apply orb_true_iff|].
      destruct (Env.blob_text e) as [content|]; [|discriminate].
      injection Hp as <-. destruct (substring0_prefix 500 content) as [r [H1 H2]].
      now exists content, r.
    + now intros ->.
    + intros H1 H2. rewrite H1, H2 in Hm. discriminate.
  - repeat split; try discriminate; reflexivity.
Qed.

Lemma allowed_json (m : string) :
  In m allowedTypes ->
  startsWith m "text/" || includes m "json"
  = startsWith m "text/" || String.eqb m "application/json".
Proof.
  unfold allowedTypes. cbn [In]. intros H.
  repeat (destruct H as [<-|H]; [vm_compute; reflexivity|]).
  destruct H.
Qed.

(** X18: among the types the file filter admits (the listed ones and
    every type starting with [text/]), a preview is attempted exactly
    for the types starting with [text/] and for [application/json]:
    no other admitted type contains [json]. *)
Theorem admitted_preview_types (e : Env.t) (mimetype : string) :
  fileFilter mimetype = true ->
  extractTextPreview e mimetype
  = if startsWith mimetype "text/" || String.eqb mimetype "application/json"
    then option_map (substring0 500) (Env.blob_text e)
    else None.
Proof.
  unfold fileFilter, extractTextPreview. intros H.
  assert (Heq : startsWith mimetype "text/" || includes mimetype "json"
                = startsWith mimetype "text/"
                  || String.eqb mimetype "application/json").
  { apply orb_true_iff in H. destruct H as [H|H].
    - apply allowed_json. now apply existsb_eqb_In.
    - now rewrite H. }
  rewrite Heq.
  destruct (startsWith mimetype "text/" || String.eqb mimetype "application/json");
    [|reflexivity].
  now destruct (Env.blob_text e).
Qed.

Lemma admitted_preview_types_witness :
  fileFilter "application/json" = true
  /\ extractTextPreview previewEnv "application/json"
     = if startsWith "application/json" "text/"
          || String.eqb "application/json" "application/json"
       then option_map (substring0 500) (Env.blob_text previewEnv)
       else None.
Proof.
  split; [reflexivity|].
  exact (admitted_preview_types previewEnv "application/json" eq_refl).
Defined.

(** A type with [json] in it that the filter does not admit. *)
Example filter_rejects_ld_json :
  fileFilter "application/ld+json" = false
  /\ extractTextPreview previewEnv "application/ld+json" = Some "{}".
Proof. split; reflexivity. Qed.

(** ** Generated ids *)

Lemma digit36_digitChar (d : N) : (d < 36)%N -> digit36 (digitChar d) = d.
Proof.
  intros H. rewrite <- (N2Nat.id d).
  assert (Hk : (N.to_nat d < 36)%nat) by lia.
  revert Hk. generalize (N.to_nat d). intros k Hk.
  do 36 (destruct k as [|k]; [vm_compute; reflexivity|]). lia.
Qed.

Lemma decode_digits36 (fuel : nat) :
  forall n acc, (n < 36 ^ N.of_nat fuel)%N ->
  decode36 0 (digits36 fuel n acc) = decode36 n acc.
Proof.
  induction fuel as [|fuel IH]; intros n acc Hn.
  - cbn [digits36]. change (36 ^ N.of_nat 0)%N with 1%N in Hn.
    assert (n = 0%N) by lia. now subst.
  - cbn [digits36].
    assert (Hmod : (n mod 36 < 36)%N) by (apply N.mod_lt; lia).
    pose proof (N.div_mod n 36 ltac:(lia)) as Hdm.
    destruct (N.eqb_spec (n / 36) 0) as [H0|Hne].
    + cbn [decode36]. rewrite digit36_digitChar by exact Hmod.
      f_equal. lia.
    + rewrite IH.
      * cbn [decode36]. rewrite digit36_digitChar by exact Hmod.
        f_equal. lia.
      * rewrite Nat2N.inj_succ, N.pow_succ_r' in Hn.
        apply N.Div0.div_lt_upper_bound. lia.
Qed.

Lemma fuel_covers (n : N) : (n < 36 ^ N.of_nat (S (N.to_nat (N.log2 n))))%N.
Proof.
  rewrite Nat2N.inj_succ, N2Nat.id.
  destruct (N.eq_dec n 0) as [->|Hn]; [reflexivity|].
  apply N.lt_le_trans with (2 ^ N.succ (N.log2 n))%N.
  - apply N.log2_spec. lia.
  - apply N.pow_le_mono_l. lia.
Qed.

(** Reading the base-36 print of a number gives the number back; in
    particular the fuel of [toString36] is never exhausted. *)
Lemma decode_toString36 (n : N) : decode36 0 (toString36 n) = n.
Proof.
  unfold toString36. rewrite decode_digits36 by apply fuel_covers.
  reflexivity.
Qed.

Lemma append_cancel_suffix (a c b d : string) :
  (a ++ b)%string = (c ++ d)%string -> String.length b = String.length d ->
  a = c /\ b = d.
Proof.
  intros H Hl.
  assert (Hlen : String.length a = String.length c).
  { apply (f_equal String.length) in H. rewrite !string_length_app in H. lia. }
  clear Hl. revert c H Hlen.
  induction a as [|x a IH]; intros [|y c] H Hlen; cbn [String.length] in Hlen;
    try discriminate.
  - now split.
  - cbn [append] in H. injection H as -> H.
    destruct (IH c H ltac:(lia)) as [-> ->]. now split.
Qed.

Lemma byte_of_digits (b1 b2 : byte) :
  digitChar (Byte.to_N b1 / 16) = digitChar (Byte.to_N b2 / 16) ->
  digitChar (Byte.to_N b1 mod 16) = digitChar (Byte.to_N b2 mod 16) ->
  b1 = b2.
Proof.
  intros Hhi Hlo.
  pose proof (Byte.to_N_bounded b1) as B1.
  pose proof (Byte.to_N_bounded b2) as B2.
  assert (H1 : (Byte.to_N b1 / 16 < 36)%N)
    by (apply N.Div0.div_lt_upper_bound; lia).
  assert (H2 : (Byte.to_N b2 / 16 < 36)%N)
    by (apply N.Div0.div_lt_upper_bound; lia).
  assert (L1 : (Byte.to_N b1 mod 16 < 16)%N) by (apply N.mod_lt; lia).
  assert (L2 : (Byte.to_N b2 mod 16 < 16)%N) by (apply N.mod_lt; lia).
  apply (f_equal digit36) in Hhi, Hlo.
  rewrite !digit36_digitChar in Hhi, Hlo by lia.
  assert (Heq : Byte.to_N b1 = Byte.to_N b2).
  { rewrite (N.div_mod (Byte.to_N b1) 16), (N.div_mod (Byte.to_N b2) 16)
      by lia. now rewrite Hhi, Hlo. }
  pose proof (Byte.of_to_N b1) as E1. pose proof (Byte.of_to_N b2) as E2.
  rewrite Heq in E1. congruence.
Qed.

Lemma toHex_injective (bs1 bs2 : list byte) :
  toHex bs1 = toHex bs2 -> bs1 = bs2.
Proof.
  revert bs2. induction bs1 as [|b1 bs1 IH]; intros [|b2 bs2];
    cbn [toHex]; try discriminate; [reflexivity|].
  intros [= Hhi Hlo Hrest].
  f_equal; [now apply byte_of_digits|now apply IH].
Qed.

(** X19: a generated id is the base-36 print of the clock reading
    followed by the eight hex digits of four random bytes, and it
    determines both: two ids are equal if and only if they were
    generated at the same millisecond with the same random bytes. *)
Theorem generated_ids_collide_only_on_equal_inputs (e1 e2 : Env.t) :
  0 <= Env.clock e1 0 -> 0 <= Env.clock e2 0 ->
  (generateId e1 = generateId e2
   <-> Env.clock e1 0 = Env.clock e2 0
       /\ randomBytes e1 4 = randomBytes e2 4).
Proof.
  intros H1 H2. unfold generateId. split.
  - intros H. apply append_cancel_suffix in H.
    + destruct H as [Ht Hh]. split; [|now apply toHex_injective].
      apply (f_equal (decode36 0)) in Ht. rewrite !decode_toString36 in Ht.
      lia.
    + now rewrite !toHex_length, !randomBytes_length.
  - intros [-> ->]. reflexivity.
Qed.

Lemma generated_ids_collide_only_on_equal_inputs_witness :
  0 <= Env.clock sampleEnv 0 /\ 0 <= Env.clock laterEnv 0
  /\ (generateId sampleEnv = generateId laterEnv
      <-> Env.clock sampleEnv 0 = Env.clock laterEnv 0
          /\ randomBytes sampleEnv 4 = randomBytes laterEnv 4).
Proof.
  split; [vm_compute; discriminate|]. split; [vm_compute; discriminate|].
  apply (generated_ids_collide_only_on_equal_inputs sampleEnv laterEnv);
    vm_compute; discriminate.
Defined.

(** ** How the routes compose *)

Lemma insertBy_head {A : Type} (cmp : A -> A -> Z) (x : A) (l : list A) :
  (forall y, In y l -> cmp x y <= 0) -> insertBy cmp x l = x :: l.
Proof.
  destruct l as [|y l]; cbn [insertBy]; [reflexivity|].
  intros H. destruct (Z.leb_spec (cmp x y) 0) as [_|Hgt]; [reflexivity|].
  specialize (H y (or_introl eq_refl)). lia.
Qed.

Lemma arraySort_head {A : Type} (cmp : A -> A -> Z) (x : A) (l : list A) :
  (forall y, In y l -> cmp x y <= 0) ->
  arraySort cmp (x :: l) = x :: arraySort cmp l.
Proof.
  intros H. cbn [arraySort]. apply insertBy_head.
  intros y Hy. apply H.
  now apply (Permutation_in _ (Permutation_sym (arraySort_perm cmp l))).
Qed.

(** X20: a created item heads the default list.  When a create goes
    through and no stored item is newer than the clock reading it is
    stamped with, the list route without parameters answers with the
    new item first (also among items of the same millisecond), and
    [total] counts it. *)
Theorem created_item_heads_the_list (collate : string -> string -> Z)
  (e : Env.t) (body : CreateBody.t) (db : Db.t) :
  truthy (CreateBody.title body) = true -> Env.write_ok e = true ->
  Forall (fun it => Item.created it <= Env.clock e 1) (Db.items db) ->
  exists item store' rest stats,
    createHandler e body (Some db) = (Json 200 (SuccessItem item), store')
    /\ listHandler collate noQuery store'
       = Json 200 (ListBody (item :: rest)
                     (Z.of_nat (List.length (Db.items db)) + 1) 0 50 stats).
Proof.
  intros Ht Hw Hnew. unfold createHandler, loadDB, saveDB. rewrite Ht, Hw.
  cbn [negb]. do 4 eexists. split; [reflexivity|].
  unfold listHandler, loadDB, noQuery, filterItems, filterIf, sortItems.
  cbn [Query.search Query.category Query.tag Query.type Query.sort
       Query.limit Query.offset optEqb parseInt numberOr Db.items Db.stats].
  rewrite arraySort_head.
  - rewrite slice_window by lia. unfold window.
    change (Z.to_nat 0) with 0%nat. change (Z.to_nat 50) with 50%nat.
    cbn [skipn firstn List.length]. rewrite Nat2Z.inj_succ.
    rewrite <- (Permutation_length (arraySort_perm byNewest (Db.items db))).
    replace (Z.succ (Z.of_nat (List.length (Db.items db))))
      with (Z.of_nat (List.length (Db.items db)) + 1) by lia.
    reflexivity.
  - intros y Hy. unfold byNewest. cbn [Item.created].
    rewrite Forall_forall in Hnew. specialize (Hnew y Hy). lia.
Qed.

Lemma created_item_heads_the_list_witness :
  truthy (CreateBody.title (noteBody "Report C" None)) = true
  /\ Env.write_ok laterEnv = true
  /\ Forall (fun it => Item.created it <= Env.clock laterEnv 1)
       (Db.items sampleCatalog)
  /\ exists item store' rest stats,
       createHandler laterEnv (noteBody "Report C" None) (Some sampleCatalog)
       = (Json 200 (SuccessItem item), store')
       /\ listHandler ordinalCompare noQuery store'
          = Json 200 (ListBody (item :: rest)
                        (Z.of_nat (List.length (Db.items sampleCatalog)) + 1)
                        0 50 stats).
Proof.
  assert (H : Forall (fun it => Item.created it <= Env.clock laterEnv 1)
                (Db.items sampleCatalog)).
  { repeat constructor; vm_compute; discriminate. }
  split; [reflexivity|]. split; [reflexivity|]. split; [exact H|].
  exact (created_item_heads_the_list ordinalCompare laterEnv
           (noteBody "Report C" None) sampleCatalog eq_refl eq_refl H).
Defined.

Lemma find_setAt {A : Type} (p : A -> bool) (l : list A) (v : A) :
  forall k x, findIndex p l = Some k -> nth_error l k = Some x ->
  p v = true -> find p (setAt k v l) = Some v.
Proof.
  induction l as [|y l IH]; intros k x Hk Hn Hv; cbn [findIndex] in Hk;
    [discriminate|].
  destruct (p y) eqn:Hy.
  - injection Hk as <-. cbn [setAt find]. now rewrite Hv.
  - destruct (findIndex p l) as [j|] eqn:Hj; [|discriminate].
    injection Hk as <-. cbn [setAt find nth_error] in *. rewrite Hy.
    now apply (IH j x).
Qed.

Lemma patchedItem_id (now : Z) (p : Patch.t) (x : Item.t) :
  Item.id (patchedItem now p x) = Item.id x.
Proof. reflexivity. Qed.

(** X21: an update is seen by the next read.  When both writes go
    through, a read of the id after an update answers with the
    updated item, its [views] one more than the stored item had (the
    update leaves [views] alone), and that is what is then stored
    under the id. *)
Theorem update_then_read (e e' : Env.t) (id : string) (p : Patch.t)
  (db : Db.t) (item : Item.t) :
  lookup id (Some db) = Some item ->
  Env.write_ok e = true -> Env.write_ok e' = true ->
  exists store1 store2,
    updateHandler e id p (Some db)
    = (Json 200 (SuccessItem (patchedItem (Env.clock e 0) p item)), store1)
    /\ getHandler e' id store1
       = (Json 200 (ItemBody
            (Item.set_views (Item.views item + 1)
               (patchedItem (Env.clock e 0) p item))), store2)
    /\ lookup id store2
       = Some (Item.set_views (Item.views item + 1)
                 (patchedItem (Env.clock e 0) p item)).
Proof.
  cbn [lookup]. intros Hf Hw Hw'.
  destruct (find_findIndex _ _ _ Hf) as [k [Hk Hn]].
  assert (Hid : hasId id (patchedItem (Env.clock e 0) p item) = true).
  { unfold hasId. rewrite patchedItem_id. apply (find_some _ _ Hf). }
  unfold updateHandler, loadDB, saveDB.
  rewrite Hk, Hn, Hw, applyPatch_patchedItem.
  set (item' := patchedItem (Env.clock e 0) p item).
  set (db1 := Db.mk (setAt k item' (Db.items db)) (Db.stats db)
                (Some (Env.clock e 1))).
  assert (Hl : lookup id (Some db1) = Some item').
  { cbn [lookup db1 Db.items]. now apply (find_setAt _ _ _ k item). }
  destruct (getHandler_found e' id (Some db1) item' Hl) as [Hr [Hp _]].
  destruct (getHandler e' id (Some db1)) as [r s2] eqn:Hg.
  cbn [fst snd] in *. subst r. exists (Some db1), s2.
  assert (Hb : bumpViews item' = Item.set_views (Item.views item + 1) item').
  { unfold bumpViews. now rewrite orZero_id. }
  rewrite Hb in *. split; [reflexivity|]. split; [exact Hg|].
  now apply Hp.
Qed.

Lemma update_then_read_witness :
  lookup "a1" (Some sampleLibrary) = Some sampleNote
  /\ Env.write_ok sampleEnv = true /\ Env.write_ok laterEnv = true
  /\ exists store1 store2,
       updateHandler sampleEnv "a1" (titlePatch "Report X") (Some sampleLibrary)
       = (Json 200 (SuccessItem
            (patchedItem (Env.clock sampleEnv 0) (titlePatch "Report X")
               sampleNote)), store1)
       /\ getHandler laterEnv "a1" store1
          = (Json 200 (ItemBody
               (Item.set_views (Item.views sampleNote + 1)
                  (patchedItem (Env.clock sampleEnv 0) (titlePatch "Report X")
                     sampleNote))), store2)
       /\ lookup "a1" store2
          = Some (Item.set_views (Item.views sampleNote + 1)
                    (patchedItem (Env.clock sampleEnv 0)
                       (titlePatch "Report X") sampleNote)).
Proof.
  split; [reflexivity|]. split; [reflexivity|]. split; [reflexivity|].
  exact (update_then_read sampleEnv laterEnv "a1" (titlePatch "Report X")
           sampleLibrary sampleNote eq_refl eq_refl eq_refl).
Defined.

Lemma stats_eta (st : Stats.t) :
  Stats.mk (Stats.totalItems st) (Stats.totalFiles st) (Stats.totalLinks st)
    (Stats.totalSize st) = st.
Proof. now destruct st. Qed.

(** X22: a delete undoes a create, and an upload whose blob can be
    unlinked.  When the writes go through, deleting the id a create has
    just answered with leaves the items and all four counters exactly
    as they were before it, whatever the stored document held (only
    [lastUpdated] moves on); so does deleting the id an upload has just
    answered with, when [fs.unlinkSync] does not throw on the uploaded
    blob.  When it throws, the delete ends uncaught and undoes
    nothing: the document stays as the upload left it. *)
Theorem delete_undoes_insert (e e' : Env.t) (body : CreateBody.t)
  (f : File.t) (ubody : UploadBody.t) (db : Db.t) :
  truthy (CreateBody.title body) = true ->
  Env.write_ok e = true -> Env.write_ok e' = true ->
  deleteHandler e' (generateId e) (snd (createHandler e body (Some db)))
  = (Json 200 Success,
     Some (Db.mk (Db.items db) (Db.stats db) (Some (Env.clock e' 0))))
  /\ (Env.unlink_fails e' (File.filename f) = false ->
      deleteHandler e' (generateId e)
        (snd (uploadHandler e (Some f) ubody (Some db)))
      = (Json 200 Success,
         Some (Db.mk (Db.items db) (Db.stats db) (Some (Env.clock e' 0)))))
  /\ (Env.unlink_fails e' (File.filename f) = true ->
      deleteHandler e' (generateId e)
        (snd (uploadHandler e (Some f) ubody (Some db)))
      = (Uncaught, snd (uploadHandler e (Some f) ubody (Some db)))).
Proof.
  intros Ht Hw Hw'. split; [|split].
  - unfold createHandler, loadDB, saveDB. rewrite Ht, Hw. cbn [negb snd].
    unfold deleteHandler, loadDB, saveDB. cbn [Db.items findIndex].
    unfold hasId at 1. cbn [Item.id]. rewrite String.eqb_refl.
    cbn [nth_error]. unfold unlinkThrows.
    cbn [Item.file Item.type removeAt Db.stats]. rewrite Hw'.
    rewrite orElse_type_link.
    destruct (optEqb (CreateBody.type body) "link");
      cbn [Stats.totalItems Stats.totalFiles Stats.totalLinks Stats.totalSize];
      do 3 f_equal; rewrite <- (stats_eta (Db.stats db)) at 5; f_equal; lia.
  - intros Hu. unfold uploadHandler, loadDB, saveDB. rewrite Hw. cbn [snd].
    unfold deleteHandler, loadDB, saveDB. cbn [Db.items findIndex].
    unfold hasId at 1. cbn [Item.id]. rewrite String.eqb_refl.
    cbn [nth_error]. unfold unlinkThrows.
    cbn [Item.file Item.type removeAt Db.stats FileInfo.size
         FileInfo.filename].
    rewrite Hu, Hw'. change (String.eqb "file" "link") with false. cbv iota.
    cbn [Stats.totalItems Stats.totalFiles Stats.totalLinks Stats.totalSize].
    do 3 f_equal. rewrite <- (stats_eta (Db.stats db)) at 5. f_equal; lia.
  - intros Hu. unfold uploadHandler, loadDB, saveDB. rewrite Hw. cbn [snd].
    unfold deleteHandler, loadDB. cbn [Db.items findIndex].
    unfold hasId at 1. cbn [Item.id]. rewrite String.eqb_refl.
    cbn [nth_error]. unfold unlinkThrows.
    cbn [Item.file FileInfo.filename]. now rewrite Hu.
Qed.

Lemma delete_undoes_insert_witness :
  truthy (CreateBody.title (noteBody "Report C" (Some "link"))) = true
  /\ Env.write_ok sampleEnv = true /\ Env.write_ok laterEnv = true
  /\ deleteHandler laterEnv (generateId sampleEnv)
       (snd (createHandler sampleEnv (noteBody "Report C" (Some "link"))
               (Some sampleCatalog)))
     = (Json 200 Success,
        Some (Db.mk (Db.items sampleCatalog) (Db.stats sampleCatalog)
                (Some (Env.clock laterEnv 0))))
  /\ Env.unlink_fails laterEnv (File.filename sampleFile) = false
  /\ deleteHandler laterEnv (generateId sampleEnv)
       (snd (uploadHandler sampleEnv (Some sampleFile) emptyUpload
               (Some sampleCatalog)))
     = (Json 200 Success,
        Some (Db.mk (Db.items sampleCatalog) (Db.stats sampleCatalog)
                (Some (Env.clock laterEnv 0)))).
Proof.
  split; [reflexivity|]. split; [reflexivity|]. split; [reflexivity|].
  destruct (delete_undoes_insert sampleEnv laterEnv
              (noteBody "Report C" (Some "link")) sampleFile emptyUpload
              sampleCatalog eq_refl eq_refl eq_refl) as [Hc [Hu _]].
  split; [exact Hc|]. split; [reflexivity|]. exact (Hu eq_refl).
Defined.

(** ** The two deployments side by side *)

Lemma free_applyPatch_agrees (now : Z) (p : Patch.t) (x : Item.t) :
  Patch.country p = None -> Patch.source p = None ->
  Free.applyPatch now p x = applyPatch now p x.
Proof.
  destruct p as [t d c g co so ct st u ty]. cbn [Patch.country Patch.source].
  intros -> ->. reflexivity.
Qed.

(** X23: on a library document that is in place, the two deployments
    leave the same items and the same counters after a single-item
    read, and after an update whose body has neither [country] nor
    [source] (which the Render-Free route does not read); the update
    answers with the same item in both.  After a delete they leave the
    same items and counters unless the id is stored, the first item
    with it has a [file] sub-record, and [fs.unlinkSync] throws on its
    blob: there the Render route ends uncaught with the document as it
    was, while the Render-Free route, which catches the failure,
    answers with success and, when the write goes through, stores the
    document without that item. *)
Theorem deployments_agree (e : Env.t) (id : string) (p : Patch.t)
  (db : Db.t) :
  sameContent (snd (Free.getHandler e id (Some db)))
    (snd (getHandler e id (Some db)))
  /\ ((forall item, lookup id (Some db) = Some item ->
                    unlinkThrows e item = false) ->
      sameContent (snd (Free.deleteHandler e id (Some db)))
        (snd (deleteHandler e id (Some db))))
  /\ (forall item, lookup id (Some db) = Some item ->
        unlinkThrows e item = true ->
        deleteHandler e id (Some db) = (Uncaught, Some db)
        /\ fst (Free.deleteHandler e id (Some db)) = Json 200 Success
        /\ (Env.write_ok e = true ->
            exists before after db',
              Db.items db = before ++ item :: after
              /\ snd (Free.deleteHandler e id (Some db)) = Some db'
              /\ Db.items db' = before ++ after))
  /\ (Patch.country p = None -> Patch.source p = None ->
      sameContent (snd (Free.updateHandler e id p (Some db)))
        (snd (updateHandler e id p (Some db)))
      /\ (forall item,
            fst (updateHandler e id p (Some db)) = Json 200 (SuccessItem item)
            <-> fst (Free.updateHandler e id p (Some db))
                = Json 200 (SuccessItem item))).
Proof.
  unfold sameContent. split; [|split; [|split]].
  - unfold Free.getHandler, getHandler, loadDB, saveDB.
    destruct (find (hasId id) (Db.items db)); [|now split].
    destruct (Env.write_ok e); now split.
  - cbn [lookup]. intros Hu.
    unfold Free.deleteHandler, deleteHandler, loadDB, saveDB.
    destruct (find (hasId id) (Db.items db)) as [item|] eqn:Hf.
    + destruct (find_findIndex _ _ _ Hf) as [k [Hk Hn]].
      rewrite Hk, Hn, (Hu item eq_refl).
      destruct (Env.write_ok e); cbn [snd option_map Db.items Db.stats];
        [|now split].
      split; [reflexivity|].
      destruct (Item.file item); now rewrite ?orZero_id.
    + rewrite (find_none_findIndex _ _ Hf). now split.
  - cbn [lookup]. intros item Hf Hu.
    destruct (find_split _ _ _ Hf) as [l1 [l2 [Hl [Hall [Hx Hk]]]]].
    unfold Free.deleteHandler, deleteHandler, loadDB, saveDB.
    rewrite Hk, Hl, nth_error_middle, Hu.
    split; [reflexivity|]. split; [now destruct (Env.write_ok e)|].
    intros ->. exists l1, l2. eexists. split; [reflexivity|].
    cbn [snd]. split; [reflexivity|]. cbn [Db.items]. apply removeAt_middle.
  - intros Hc Hs. unfold Free.updateHandler, updateHandler, loadDB, saveDB.
    destruct (findIndex (hasId id) (Db.items db)) as [k|];
      [|split; [now split|intros item; split; discriminate]].
    destruct (nth_error (Db.items db) k) as [x|];
      [|split; [now split|intros item; split; discriminate]].
    rewrite (free_applyPatch_agrees _ _ _ Hc Hs).
    destruct (Env.write_ok e); cbn [fst snd option_map Db.items Db.stats];
      (split; [now split|intros item; tauto]).
Qed.

Lemma deployments_agree_witness :
  Patch.country (titlePatch "Report X") = None
  /\ Patch.source (titlePatch "Report X") = None
  /\ sameContent
       (snd (Free.updateHandler sampleEnv "a1" (titlePatch "Report X")
               (Some sampleLibrary)))
       (snd (updateHandler sampleEnv "a1" (titlePatch "Report X")
               (Some sampleLibrary)))
  /\ lookup "c3" (Some sampleCatalog) = Some sampleUpload
  /\ unlinkThrows stuckEnv sampleUpload = true
  /\ deleteHandler stuckEnv "c3" (Some sampleCatalog)
     = (Uncaught, Some sampleCatalog)
  /\ fst (Free.deleteHandler stuckEnv "c3" (Some sampleCatalog))
     = Json 200 Success.
Proof.
  split; [reflexivity|]. split; [reflexivity|].
  split.
  - exact (proj1 (proj2 (proj2 (proj2
             (deployments_agree sampleEnv "a1" (titlePatch "Report X")
                sampleLibrary))) eq_refl eq_refl)).
  - split; [reflexivity|]. split; [reflexivity|].
    destruct (proj1 (proj2 (proj2
                (deployments_agree stuckEnv "c3" (titlePatch "Report X")
                   sampleCatalog))) sampleUpload eq_refl eq_refl)
      as [Hr [Hf _]].
    split; [exact Hr|exact Hf].
Defined.
